(** * PulseCompass ranking engine: a shallow embedding

    The development follows [backend/routers/ranking.py],
    [backend/utils/sector_adjustments.py] and
    [backend/utils/investment_tiers.py].

    Conventions of the embedding.
    - Python floats are read as exact rationals ([Q]); every decimal literal of
      the source is the rational it denotes ([0.40] is [0.40%Q]).
    - A pandas row ([pd.Series]) is a finite map from column names to numbers,
      next to its [name] and [symbol] cells: ['roe' in row] is
      [is_Some (r !! "roe")] and [row.get('roe', d)] is [get r "roe" d].  The
      row functions are reached after the numeric columns were filled
      (ranking.py:717-724), so a key that is present holds a number.
    - A Python [dict] with string keys is a [gmap string _]; a dict that is
      iterated ([weights.items()]) is an association list in source order.
    - Messages built with f-strings are tagged values carrying the numbers the
      template prints. *)

From Stdlib Require Import QArith Qabs Qround Lqa ZArith Ascii String Permutation Sorted.
From stdpp Require Import base strings gmap list sorting.

Open Scope Q_scope.

(** ** Numbers *)

Definition Qltb (x y : Q) : bool := negb (Qle_bool y x).
Definition Qgtb (x y : Q) : bool := Qltb y x.
Definition Qleb (x y : Q) : bool := Qle_bool x y.

Infix "<?" := Qltb (at level 70, no associativity) : Q_scope.
Infix ">?" := Qgtb (at level 70, no associativity) : Q_scope.
Infix "<=?" := Qleb (at level 70, no associativity) : Q_scope.

(** Python's [min(a, b)] and [max(a, b)] on two numbers. *)
Definition py_min (a b : Q) : Q := if b <? a then b else a.
Definition py_max (a b : Q) : Q := if b >? a then b else a.

(** Rounding half to even, the tie rule of Python's [round]. *)
Definition round_half_even (x : Q) : Z :=
  let f := Qfloor x in
  let d := x - inject_Z f in
  if d <? 1 # 2 then f
  else if d >? 1 # 2 then (f + 1)%Z
  else if Z.even f then f else (f + 1)%Z.

(** [round(x, 1)]. *)
Definition round1 (x : Q) : Q := inject_Z (round_half_even (x * 10)) / 10.

(** [sum(xs)]: left to right from 0. *)
Definition py_sum (xs : list Q) : Q := fold_left Qplus xs 0.

(** ** Strings *)

Definition is_upper (c : ascii) : bool :=
  (65 <=? nat_of_ascii c)%nat && (nat_of_ascii c <=? 90)%nat.

Definition lower_ascii (c : ascii) : ascii :=
  if is_upper c then ascii_of_nat (nat_of_ascii c + 32) else c.

(** [s.lower()] on ASCII text. *)
Fixpoint lower (s : string) : string :=
  match s with
  | EmptyString => EmptyString
  | String c t => String (lower_ascii c) (lower t)
  end.

(** ASCII whitespace, as [str.isspace] has it. *)
Definition is_space (c : ascii) : bool :=
  let n := nat_of_ascii c in
  (n =? 32)%nat || ((9 <=? n)%nat && (n <=? 13)%nat) || ((28 <=? n)%nat && (n <=? 31)%nat).

Fixpoint lstrip (s : string) : string :=
  match s with
  | EmptyString => EmptyString
  | String c t => if is_space c then lstrip t else s
  end.

Fixpoint rstrip (s : string) : string :=
  match s with
  | EmptyString => EmptyString
  | String c t =>
      match rstrip t with
      | EmptyString => if is_space c then EmptyString else String c EmptyString
      | t' => String c t'
      end
  end.

(** [s.strip()]. *)
Definition strip (s : string) : string := rstrip (lstrip s).

(** [kw in s] for strings. *)
Fixpoint contains (kw s : string) : bool :=
  String.prefix kw s ||
  match s with
  | EmptyString => false
  | String _ t => contains kw t
  end.

(** [any(k in s for k in kws)]. *)
Definition any_in (kws : list string) (s : string) : bool :=
  existsb (fun k => contains k s) kws.

(** Truthiness of a string: [if s]. *)
Definition nonempty (s : string) : bool :=
  match s with EmptyString => false | _ => true end.

(** ** Rows *)

Record row : Type := Row {
  name : string;
  symbol : string;
  metrics : gmap string Q
}.

#[global] Instance row_lookup : Lookup string Q row := fun k r => metrics r !! k.

(** [row.get(k, d)]. *)
Definition get (r : row) (k : string) (d : Q) : Q := default d (r !! k).

(** ['k' in row and p(row['k'])]. *)
Definition has (r : row) (k : string) (p : Q -> bool) : bool :=
  match r !! k with
  | Some v => p v
  | None => false
  end.

(** ** Sector classification (sector_adjustments.py) *)

Definition industry_keywords : list (string * list string) :=
  [ ("IT", ["tech"; "software"; "infotech"; "systems"; "solutions"; "technologies"]);
    ("Banking", ["bank"; "finance"; "nbfc"; "financial"; "capital"; "securities"]);
    ("Pharma", ["pharma"; "drug"; "biotech"; "healthcare"; "medical"; "lab"]);
    ("Manufacturing", ["industries"; "manufacturing"; "steel"; "cement"; "chemicals"]);
    ("Telecom", ["telecom"; "communications"; "wireless"; "broadband"]);
    ("RealEstate", ["realty"; "properties"; "construction"; "builders"]);
    ("FMCG", ["consumer"; "foods"; "beverages"; "fmcg"]);
    ("Auto", ["auto"; "motors"; "vehicles"; "automotive"]);
    ("Energy", ["power"; "energy"; "oil"; "gas"; "petroleum"]) ]%string.

Fixpoint first_sector (kws : list (string * list string)) (company_lower : string) : string :=
  match kws with
  | [] => "General"
  | (sector, keywords) :: rest =>
      if any_in keywords company_lower then sector else first_sector rest company_lower
  end.

Definition get_sector_from_name (company_name : string) : string :=
  first_sector industry_keywords (lower company_name).

(** The guarded import at the top of ranking.py loads three modules of this
    repository, so both feature flags are set. *)
Definition SECTOR_ENABLED : bool := true.
Definition TIERS_ENABLED : bool := true.

(** Reasons returned by the disqualification gate, one per message template
    of [should_disqualify]; [NoReason] is the empty string. *)
Inductive dq_reason : Type :=
  | MassiveCashBurn (fcf : Q)
  | ExtremePE (pe : Q)
  | AbsurdPE (pe : Q)
  | BankruptcyRisk
  | NegativeROE (roe : Q)
  | MinimalFCF (fcf market_cap : Q)
  | ExtremeVolatility
  | NoReason.

(** The first rule that fires. *)
Fixpoint first_match {A : Type} (rules : list (option A)) : option A :=
  match rules with
  | [] => None
  | Some a :: _ => Some a
  | None :: rest => first_match rest
  end.

(** A counter bumped once per guard that holds ([flags += 1]). *)
Definition count_true (bs : list bool) : nat :=
  fold_left (fun n (b : bool) => if b then S n else n) bs 0%nat.

Definition Qnat (n : nat) : Q := inject_Z (Z.of_nat n).

Section Engine.

(** The bank/NBFC mapping is read from [data/nbfc_bank.json], which is not part
    of the sources: its lower-cased, stripped keys and values are taken as
    given. *)
Variable FINANCIALS_SYMBOLS : gset string.
Variable FINANCIALS_NAMES : gset string.

(** ** is_financials (ranking.py:112-142) *)

Definition is_financials (r : row) : bool :=
  let sym := lower (strip (symbol r)) in
  if nonempty sym && bool_decide (sym ∈ FINANCIALS_SYMBOLS) then true
  else
    let nm := lower (strip (name r)) in
    if nonempty nm && bool_decide (nm ∈ FINANCIALS_NAMES) then true
    else
      let sector := get_sector_from_name (name r) in
      if SECTOR_ENABLED && nonempty sector &&
         any_in ["bank"; "nbfc"; "finance"; "financial"; "insurance"; "hfc";
                 "housing finance"; "brokerage"]%string (lower sector)
      then true
      else
        any_in [" bank"; "bank "; "nbfc"; "finance"; "finserv"; "fin. "; "fintech";
                "lending"; "microfinance"; "nbfcs"; "housing finance"; "hfc";
                "insurance"; "mfi"]%string (lower (name r)).

(** ** assess_quality_score (ranking.py:159-200) *)

Definition assess_quality_score (r : row) : Q :=
  let red_flags :=
    count_true [ has r "roe" (fun v => v <? 5);
                 has r "debt_equity" (fun v => v >? 2);
                 has r "fcf" (fun v => v <? -100) ] in
  let yellow_flags :=
    count_true [ has r "roe" (fun v => (5 <=? v) && (v <? 12));
                 has r "peg" (fun v => v >? 2);
                 has r "debt_equity" (fun v => (1.0 <? v) && (v <=? 1.5)) ] in
  let quality_score := 1.0 in
  let quality_score := quality_score - Qnat red_flags * 0.15 in
  let quality_score := quality_score - Qnat yellow_flags * 0.05 in
  let quality_score :=
    match r !! "roe" with
    | Some roe =>
        if roe >? 10
        then let roe_bonus := (roe - 10) / 40 in
             quality_score * (1 + py_min roe_bonus 0.6)
        else quality_score
    | None => quality_score
    end in
  py_max 0.5 (py_min 1.5 quality_score).

(** ** calculate_risk_penalties (ranking.py:203-309)

    Each block of the function is a transformer of the [penalties] dict. *)

Definition pen_negative_fcf (is_fin : bool) (r : row) (p : gmap string Q) : gmap string Q :=
  match r !! "fcf" with
  | Some fcf =>
      if fcf <? 0
      then if negb is_fin then <["negative_fcf" := 0.40]> p
           else <["negative_fcf" := 0.10]> p
      else p
  | None => p
  end.

Definition pen_extreme_pe (r : row) (p : gmap string Q) : gmap string Q :=
  match r !! "pe_ratio" with
  | Some pe =>
      if pe >? 100 then <["extreme_pe" := 0.25]> p
      else if pe >? 50 then <["high_pe" := 0.15]> p
      else p
  | None => p
  end.

Definition pen_debt (is_fin : bool) (r : row) (p : gmap string Q) : gmap string Q :=
  match r !! "debt_equity" with
  | Some de =>
      if negb is_fin
      then if de >? 1.5 then <["high_debt" := 0.20]> p
           else if de >? 1.0 then <["moderate_debt" := 0.10]> p
           else p
      else if de >? 5.0 then <["high_debt" := 0.15]> p
           else if de >? 3.0 then <["moderate_debt" := 0.05]> p
           else p
  | None => p
  end.

Definition pen_roe (r : row) (p : gmap string Q) : gmap string Q :=
  match r !! "roe" with
  | Some roe =>
      if roe <? 8 then <["very_low_roe" := 0.30]> p
      else if roe <? 10 then <["low_roe" := 0.20]> p
      else if roe <? 12 then <["moderate_roe" := 0.10]> p
      else p
  | None => p
  end.

Definition pen_roce (r : row) (p : gmap string Q) : gmap string Q :=
  match r !! "roce" with
  | Some roce =>
      if roce <? 12 then <["low_roce" := 0.10]> p
      else if roce <? 15 then <["moderate_roce" := 0.05]> p
      else p
  | None => p
  end.

Definition pen_peg (r : row) (p : gmap string Q) : gmap string Q :=
  if has r "peg" (fun v => v >? 2) then <["high_peg" := 0.10]> p else p.

Definition pen_low_roe_growth (r : row) (p : gmap string Q) : gmap string Q :=
  match r !! "roe", r !! "fcf", r !! "profit_growth_3yr" with
  | Some roe, Some fcf, Some growth =>
      if (roe <? 8) && (growth <? 0)
      then if (fcf >? 1000) && (get r "debt_equity" 1.0 <? 0.3)
           then <["low_roe_high_fcf" := 0.20]> p
           else <["low_roe_negative_growth" := 0.50]> p
      else p
  | _, _, _ => p
  end.

Definition pen_low_fcf_relative (is_fin : bool) (r : row) (p : gmap string Q) : gmap string Q :=
  match r !! "fcf", r !! "market_cap" with
  | Some fcf, Some market_cap =>
      if negb is_fin && ((0 <? fcf) && (fcf <? 100)) && (market_cap >? 1000)
      then <["low_fcf_relative" := 0.10]> p
      else p
  | _, _ => p
  end.

Definition pen_moderate_pe (r : row) (p : gmap string Q) : gmap string Q :=
  if has r "pe_ratio" (fun pe => (25 <? pe) && (pe <=? 50))
  then <["moderate_pe" := 0.05]> p else p.

Definition red_flags (is_fin : bool) (r : row) : list string :=
  let flags := [] in
  let flags := if get r "roe" 100 <? 10 then flags ++ ["low_roe"] else flags in
  let flags := if get r "profit_growth_3yr" 100 <? 0
               then flags ++ ["negative_growth"] else flags in
  let flags := if negb is_fin && (get r "fcf" 1000 <? 100) && (get r "market_cap" 0 >? 1000)
               then flags ++ ["low_fcf"] else flags in
  let flags := if get r "debt_equity" 0 >? 1.0 then flags ++ ["high_debt"] else flags in
  flags.

Definition pen_multiple_red_flags (is_fin : bool) (r : row) (p : gmap string Q) : gmap string Q :=
  let flags := red_flags is_fin r in
  if (2 <=? length flags)%nat
  then <["multiple_red_flags" := 0.10 * Qnat (length flags)]> p
  else p.

Definition pen_volatility (r : row) (p : gmap string Q) : gmap string Q :=
  if has r "return_1yr" (fun v => Qabs v >? 1000) then <["extreme_volatility" := 0.20]> p
  else if has r "return_1yr" (fun v => Qabs v >? 500) then <["high_volatility" := 0.10]> p
  else p.

Definition calculate_risk_penalties (r : row) (fcf_dq_mode : string) : gmap string Q :=
  let penalties : gmap string Q := ∅ in
  let is_fin := is_financials r in
  let penalties := pen_negative_fcf is_fin r penalties in
  let penalties := pen_extreme_pe r penalties in
  let penalties := pen_debt is_fin r penalties in
  let penalties := pen_roe r penalties in
  let penalties := pen_roce r penalties in
  let penalties := pen_peg r penalties in
  let penalties := pen_low_roe_growth r penalties in
  let penalties := pen_low_fcf_relative is_fin r penalties in
  let penalties := pen_moderate_pe r penalties in
  let penalties := pen_multiple_red_flags is_fin r penalties in
  let penalties := pen_volatility r penalties in
  penalties.

(** [sum(penalties.values())]. *)
Definition sum_values (d : gmap string Q) : Q := py_sum (snd <$> map_to_list d).

(** ** should_disqualify (ranking.py:312-360)

    The function is a sequence of guarded [return]s; each guard is one rule
    and the first rule that fires decides. *)

Definition fcf_dq_applies (is_fin : bool) (fcf_dq_mode : string) : bool :=
  let apply_fcf_dq_for_fin := String.eqb fcf_dq_mode "global_on" in
  let apply_fcf_dq_for_nonfin :=
    String.eqb fcf_dq_mode "financials_only_off" || String.eqb fcf_dq_mode "global_on" in
  (is_fin && apply_fcf_dq_for_fin) || (negb is_fin && apply_fcf_dq_for_nonfin).

Definition dq_massive_burn (gate : bool) (r : row) : option dq_reason :=
  match r !! "fcf" with
  | Some fcf => if (fcf <? -500) && gate then Some (MassiveCashBurn fcf) else None
  | None => None
  end.

Definition dq_extreme_pe (r : row) : option dq_reason :=
  match r !! "pe_ratio" with
  | Some pe => if pe >? 100 then Some (ExtremePE pe) else None
  | None => None
  end.

Definition dq_absurd_pe (r : row) : option dq_reason :=
  match r !! "pe_ratio" with
  | Some pe => if pe >? 500 then Some (AbsurdPE pe) else None
  | None => None
  end.

Definition dq_fcf_debt (gate : bool) (r : row) : option dq_reason :=
  match r !! "fcf", r !! "debt_equity" with
  | Some fcf, Some de =>
      if (fcf <? -100) && (de >? 2.0) && gate then Some BankruptcyRisk else None
  | _, _ => None
  end.

Definition dq_negative_roe (r : row) : option dq_reason :=
  match r !! "roe" with
  | Some roe => if roe <? 0 then Some (NegativeROE roe) else None
  | None => None
  end.

Definition dq_minimal_fcf (gate : bool) (r : row) : option dq_reason :=
  match r !! "fcf", r !! "market_cap" with
  | Some fcf, Some market_cap =>
      if ((0 <? fcf) && (fcf <? 10)) && (market_cap >? 1000)
      then let fcf_yield := (fcf / market_cap) * 100 in
           if (fcf_yield <? 0.5) && gate then Some (MinimalFCF fcf market_cap) else None
      else None
  | _, _ => None
  end.

Definition dq_volatility (r : row) : option dq_reason :=
  match r !! "return_1yr", r !! "fcf", r !! "roe" with
  | Some ret, Some fcf, Some roe =>
      if (Qabs ret >? 2000) && (fcf <? 0) && (roe <? 15)
      then Some ExtremeVolatility else None
  | _, _, _ => None
  end.

Definition should_disqualify (r : row) (fcf_dq_mode : string) : bool * dq_reason :=
  let is_fin := is_financials r in
  let gate := fcf_dq_applies is_fin fcf_dq_mode in
  match first_match [ dq_massive_burn gate r; dq_extreme_pe r; dq_absurd_pe r;
                      dq_fcf_debt gate r; dq_negative_roe r; dq_minimal_fcf gate r;
                      dq_volatility r ] with
  | Some reason => (true, reason)
  | None => (false, NoReason)
  end.

(** ** assess_cash_flow_quality (ranking.py:363-394) *)

Definition assess_cash_flow_quality (r : row) : Q :=
  let quality := 1.0 in
  let quality :=
    match r !! "fcf" with
    | Some fcf =>
        if fcf >? 0
        then
          let quality := quality + 0.05 in
          let quality :=
            match r !! "pat" with
            | Some pat =>
                if pat >? 0
                then let fcf_to_profit := fcf / pat in
                     if fcf_to_profit >? 0.8 then quality + 0.10
                     else if fcf_to_profit >? 0.5 then quality + 0.05
                     else quality
                else quality
            | None => quality
            end in
          match r !! "fcf_3yr", r !! "fcf_5yr" with
          | Some fcf3, Some fcf5 =>
              if (fcf3 >? 0) && (fcf5 >? 0) then quality + 0.05 else quality
          | _, _ => quality
          end
        else quality - 0.10
    | None => quality - 0.10
    end in
  let quality :=
    if has r "asset_turnover" (fun v => v >? 1.0) then quality + 0.05 else quality in
  py_max 0.7 (py_min 1.2 quality).

(** ** assess_valuation_reasonableness (ranking.py:397-450) *)

Record valuation : Type := Valuation {
  valuation_score : Q;
  valuation_warnings : list string
}.

Definition val_peg (r : row) (sw : Q * list string) : Q * list string :=
  let '(score, warnings) := sw in
  match r !! "pe_ratio", r !! "profit_growth_3yr" with
  | Some pe, Some growth =>
      if growth >? 0
      then let implied_peg := pe / growth in
           if implied_peg <? 0.5 then (score + 0.15, warnings)
           else if implied_peg <? 1.0 then (score + 0.10, warnings)
           else if implied_peg >? 3.0
                then (score - 0.20, warnings ++ ["High valuation vs growth (PEG > 3)"])
           else if implied_peg >? 2.0
                then (score - 0.10, warnings ++ ["Elevated valuation vs growth (PEG > 2)"])
           else sw
      else sw
  | _, _ => sw
  end.

Definition val_roe (r : row) (sw : Q * list string) : Q * list string :=
  let '(score, warnings) := sw in
  match r !! "pe_ratio", r !! "roe" with
  | Some pe, Some roe =>
      if (roe >? 25) && (pe <? 30) then (score + 0.10, warnings)
      else if (roe <? 15) && (pe >? 25)
           then (score - 0.15, warnings ++ ["High P/E without strong ROE"])
      else sw
  | _, _ => sw
  end.

Definition val_fcf_yield (r : row) (sw : Q * list string) : Q * list string :=
  let '(score, warnings) := sw in
  match r !! "fcf", r !! "market_cap" with
  | Some fcf, Some market_cap =>
      if market_cap >? 0
      then let fcf_yield := (fcf / market_cap) * 100 in
           if fcf_yield >? 8 then (score + 0.10, warnings)
           else if fcf_yield >? 5 then (score + 0.05, warnings)
           else if fcf_yield <? 0
                then (score - 0.15, warnings ++ ["Negative FCF yield"])
           else sw
      else sw
  | _, _ => sw
  end.

Definition val_price_sales (r : row) (sw : Q * list string) : Q * list string :=
  let '(score, warnings) := sw in
  match r !! "cmp_sales", r !! "opm" with
  | Some cmp_sales, Some opm =>
      if (cmp_sales >? 10) && (opm <? 15)
      then (score - 0.10, warnings ++ ["High Price/Sales without strong margins"])
      else sw
  | _, _ => sw
  end.

Definition assess_valuation_reasonableness (r : row) : valuation :=
  let sw := (1.0, []) in
  let sw := val_peg r sw in
  let sw := val_roe r sw in
  let sw := val_fcf_yield r sw in
  let sw := val_price_sales r sw in
  {| valuation_score := py_max 0.6 (py_min 1.3 (fst sw));
     valuation_warnings := snd sw |}.

(** ** calculate_composite_score (ranking.py:453-478)

    [normalized_df] maps a column name to its column of scores; it is built on
    the index of the data frame, so [normalized_df.loc[row.name, metric]] is
    the entry of that column at the row's index label [idx]. *)

Definition weighted_step (normalized_df : gmap string (list Q)) (idx : nat)
    (score : Q) (item : string * Q) : Q :=
  let '(metric, weight) := item in
  match normalized_df !! metric with
  | Some col => score + default 0 (col !! idx) * weight
  | None => score
  end.

Definition calculate_composite_score (idx : nat) (r : row) (weights : list (string * Q))
    (normalized_df : gmap string (list Q)) (fcf_dq_mode : string) : Q :=
  let score := 0 in
  let score := fold_left (weighted_step normalized_df idx) weights score in
  let quality_multiplier := assess_quality_score r in
  let score := score * quality_multiplier in
  let cf_quality := assess_cash_flow_quality r in
  let score := score * cf_quality in
  let valuation_assessment := assess_valuation_reasonableness r in
  let score := score * valuation_score valuation_assessment in
  let penalties := calculate_risk_penalties r fcf_dq_mode in
  let total_penalty := sum_values penalties in
  let score := score * (1 - py_min total_penalty 0.6) in
  round1 score.

(** ** The data frame and its numeric columns (ranking.py:699-747)

    [analyze_rankings] works on the frame obtained after the column names were
    mapped: [columns] are its column names, [records] its rows in file order
    (the index is the position), and a cell that is absent from a row's
    [metrics] is NaN. *)

Record DataFrame : Type := Frame {
  columns : list string;
  records : list row
}.

Definition numeric_cols : list string :=
  [ "cmp"; "market_cap"; "pe_ratio"; "roe"; "roce";
    "sales_growth_3yr"; "sales_growth_5yr"; "sales"; "pat";
    "profit_growth_3yr"; "profit_growth_5yr";
    "fcf_3yr"; "fcf_5yr"; "fcf"; "peg";
    "return_1yr"; "return_3yr"; "return_5yr";
    "asset_turnover"; "cmp_sales"; "eps";
    "eps_growth_3yr"; "eps_growth_5yr";
    "debt_equity"; "opm"; "dividend_yield";
    "npm"; "interest_coverage"; "current_ratio"; "pb_ratio"; "ev_ebitda";
    "dividend_payout"; "fcf_yield_inverse"; "pledged_pct"; "promoter_holding" ]%string.

Definition inverse_metrics : list string :=
  [ "debt_equity"; "pe_ratio"; "peg"; "cmp_sales"; "pb_ratio"; "ev_ebitda";
    "fcf_yield_inverse"; "pledged_pct" ]%string.

(** [df[col]]. *)
Definition column (df : DataFrame) (col : string) : list (option Q) :=
  (fun r : row => r !! col) <$> records df.

(** The values of a series that are not NaN. *)
Definition dropna (vals : list (option Q)) : list Q := omap id vals.

Fixpoint insert_sorted (x : Q) (l : list Q) : list Q :=
  match l with
  | [] => [x]
  | y :: t => if x <=? y then x :: l else y :: insert_sorted x t
  end.

Definition sorted_values (l : list Q) : list Q := foldr insert_sorted [] l.

(** [Series.median()]: NaN skipped, the mean of the two middle values for an
    even count. *)
Definition median (vals : list (option Q)) : Q :=
  let s := sorted_values (dropna vals) in
  let n := length s in
  if Nat.even n
  then (default 0 (s !! (n / 2 - 1)%nat) + default 0 (s !! (n / 2)%nat)) / 2
  else default 0 (s !! (n / 2)%nat).

(** [Series.min()] and [Series.max()], NaN skipped. *)
Definition series_min (vals : list (option Q)) : Q :=
  match dropna vals with
  | [] => 0
  | x :: t => fold_left py_min t x
  end.

Definition series_max (vals : list (option Q)) : Q :=
  match dropna vals with
  | [] => 0
  | x :: t => fold_left py_max t x
  end.

(** [df[col].median() if not df[col].isna().all() else 0]. *)
Definition fill_value (vals : list (option Q)) : Q :=
  match dropna vals with
  | [] => 0
  | _ => median vals
  end.

(** [Series.fillna(fill_value)]. *)
Definition fillna (vals : list (option Q)) : list (option Q) :=
  (fun v => Some (default (fill_value vals) v)) <$> vals.

Definition set_cell (col : string) (v : Q) (r : row) : row :=
  {| name := name r; symbol := symbol r; metrics := <[col := v]> (metrics r) |}.

(** One turn of the conversion loop: the column is filled in place. *)
Definition fill_column (df : DataFrame) (col : string) : DataFrame :=
  if bool_decide (col ∈ columns df)
  then let fv := fill_value (column df col) in
       {| columns := columns df;
          records := (fun r : row => set_cell col (default fv (r !! col)) r) <$> records df |}
  else df.

Definition convert_numeric (df : DataFrame) : DataFrame :=
  fold_left fill_column numeric_cols df.

(** ** normalize_score (ranking.py:145-156); [None] is NaN. *)

Definition normalize_score (value : option Q) (min_val max_val : Q) (inverse : bool) : Q :=
  match value with
  | None => 50.0
  | Some v =>
      if Qeq_bool max_val min_val then 50.0
      else
        let normalized :=
          if inverse
          then 100 - ((v - min_val) / (max_val - min_val) * 100)
          else (v - min_val) / (max_val - min_val) * 100 in
        py_max 0 (py_min 100 normalized)
  end.

(** [df[col].apply(lambda x: normalize_score(x, df[col].min(), df[col].max(), inverse))]. *)
Definition normalize_series (vals : list (option Q)) (inverse : bool) : list Q :=
  (fun x => normalize_score x (series_min vals) (series_max vals) inverse) <$> vals.

(** One turn of the normalization loop. *)
Definition normalize_column (df : DataFrame) (normalized_df : gmap string (list Q))
    (col : string) : gmap string (list Q) :=
  if bool_decide (col ∈ columns df) && bool_decide (dropna (column df col) ≠ [])
  then let inverse := bool_decide (col ∈ inverse_metrics) in
       <[col := normalize_series (column df col) inverse]> normalized_df
  else normalized_df.

Definition normalize_frame (df : DataFrame) : gmap string (list Q) :=
  fold_left (normalize_column df) numeric_cols ∅.

(** ** Sector adjustment (sector_adjustments.py:9-104, 140-231)

    Only the keys read by [adjust_score_for_sector] are kept in a benchmark;
    a key that a sector does not define is [None]. *)

Record benchmark : Type := Benchmark {
  roe_threshold : Q;
  roce_threshold : option Q;
  debt_equity_norm : Q;
  opm_norm : Q;
  debt_penalty_multiplier : option Q;
  fcf_weight_multiplier : option Q
}.

Definition SECTOR_BENCHMARKS : list (string * benchmark) :=
  [ ("IT", Benchmark 20.0 (Some 25.0) 0.5 20.0 (Some 1.5) (Some 1.3));
    ("Banking", Benchmark 12.0 None 5.0 40.0 (Some 0.1) None);
    ("Pharma", Benchmark 15.0 (Some 18.0) 0.8 20.0 None None);
    ("Manufacturing", Benchmark 12.0 (Some 15.0) 1.5 10.0 None None);
    ("Telecom", Benchmark 8.0 (Some 10.0) 2.5 30.0 None None);
    ("RealEstate", Benchmark 8.0 (Some 10.0) 2.0 25.0 None None);
    ("FMCG", Benchmark 18.0 (Some 25.0) 0.5 15.0 None None);
    ("Auto", Benchmark 12.0 (Some 15.0) 1.2 8.0 None None);
    ("Energy", Benchmark 10.0 (Some 12.0) 2.0 12.0 None None);
    ("Healthcare", Benchmark 15.0 (Some 18.0) 1.0 18.0 None None) ]%string.

Fixpoint assoc {A : Type} (k : string) (l : list (string * A)) : option A :=
  match l with
  | [] => None
  | (k', a) :: rest => if String.eqb k k' then Some a else assoc k rest
  end.

(** The result dict of [adjust_score_for_sector] without its insight texts,
    which do not enter any number; [penalties_after] is the caller's
    [penalties] dict as the function leaves it. *)
Record adjustment : Type := Adjustment {
  adjusted_score : Q;
  sector_adjustment : Q;
  penalties_after : gmap string Q
}.

Definition adjust_score_for_sector (base_score : Q) (company_data : row) (sector : string)
    (penalties : gmap string Q) : adjustment :=
  match assoc sector SECTOR_BENCHMARKS with
  | None => Adjustment base_score 0.0 penalties
  | Some benchmarks =>
      let adjustment_multiplier := 1.0 in
      let penalties :=
        match company_data !! "debt_equity", debt_penalty_multiplier benchmarks with
        | Some debt_ratio, Some mult =>
            if debt_ratio <=? debt_equity_norm benchmarks
            then match penalties !! "high_debt" with
                 | Some original_penalty => <["high_debt" := original_penalty * mult]> penalties
                 | None => penalties
                 end
            else penalties
        | _, _ => penalties
        end in
      let adjustment_multiplier :=
        match company_data !! "fcf", fcf_weight_multiplier benchmarks with
        | Some fcf, Some fwm =>
            if fcf >? 0
            then let fcf_bonus := (fwm - 1.0) * 0.05 in adjustment_multiplier + fcf_bonus
            else adjustment_multiplier
        | _, _ => adjustment_multiplier
        end in
      let adjustment_multiplier :=
        match company_data !! "roe" with
        | Some roe =>
            let roe_threshold := roe_threshold benchmarks in
            if roe >? roe_threshold
            then let roe_premium :=
                   py_min ((roe - roe_threshold) / roe_threshold * 0.1) 0.15 in
                 adjustment_multiplier + roe_premium
            else adjustment_multiplier
        | None => adjustment_multiplier
        end in
      let adjustment_multiplier :=
        match company_data !! "opm" with
        | Some opm =>
            if opm >? opm_norm benchmarks * 1.2
            then adjustment_multiplier + 0.05
            else adjustment_multiplier
        | None => adjustment_multiplier
        end in
      let adjusted_score := base_score * adjustment_multiplier in
      let sector_adjustment := (adjustment_multiplier - 1.0) * 100 in
      Adjustment (round1 adjusted_score) (round1 sector_adjustment) penalties
  end.

(** ** Investment tiers (investment_tiers.py) *)

Definition classify_investment_tier (r : row) : nat * string * string :=
  let roe := get r "roe" 0 in
  let roce := get r "roce" 0 in
  let pe_ratio := get r "pe_ratio" 999 in
  let fcf := get r "fcf" 0 in
  let debt_equity := get r "debt_equity" 999 in
  let profit_growth := get r "profit_growth_3yr" 0 in
  if (roe >? 20) && (roce >? 20) && (pe_ratio <? 25) && (fcf >? 500) && (debt_equity <? 0.5)
  then (1%nat, "CORE PORTFOLIO", "BUY / HOLD 5+ years")
  else if (roe >? 15) && (roce >? 15) && (pe_ratio <? 35) && (fcf >? 100) && (debt_equity <? 1.0)
  then (2%nat, "QUALITY ADDITIONS", "HOLD / BUY on dips")
  else if ((roe >? 12) || ((fcf >? 1000) && (profit_growth >? 0))) && (debt_equity <? 1.5)
  then (3%nat, "SPECIALIZED PLAYS", "HOLD / RESEARCH")
  else (4%nat, "AVOID", "EXCLUDE from portfolio").

(** [get_tier_summary] and [get_portfolio_recommendation]
    (investment_tiers.py:52-84, 177-236).  Of the recommendation text only the
    numbers it prints are kept; computing [investable/total*100] raises
    [ZeroDivisionError] when the four counts add up to zero. *)

Record recommendation : Type := Recommendation {
  total_analyzed : nat;
  investable : nat;
  investable_pct : Q;
  recommended_size : nat
}.

Definition get_portfolio_recommendation (tier_stats : nat -> nat) : option recommendation :=
  let tier1_count := tier_stats 1%nat in
  let tier2_count := tier_stats 2%nat in
  let tier3_count := tier_stats 3%nat in
  let tier4_count := tier_stats 4%nat in
  let total := (tier1_count + tier2_count + tier3_count + tier4_count)%nat in
  let investable := (tier1_count + tier2_count)%nat in
  if (total =? 0)%nat then None
  else Some {| total_analyzed := total;
               investable := investable;
               investable_pct := Qnat investable / Qnat total * 100;
               recommended_size := Nat.min investable 20 |}.

(** ** The philosophy registry (ranking.py:30-93) *)

Record philosophy_profile : Type := Profile {
  display_name : string;
  weights : list (string * Q)
}.

Definition PHILOSOPHIES : list (string * philosophy_profile) :=
  [ ("buffett", Profile "Warren Buffett"
       [ ("fcf", 0.28); ("roe", 0.20); ("roce", 0.16); ("pe_ratio", 0.08);
         ("debt_equity", 0.14); ("opm", 0.10);
         ("profit_growth_3yr", 0.03); ("sales_growth_5yr", 0.01) ]);
    ("lynch", Profile "Peter Lynch"
       [ ("peg", 0.25); ("profit_growth_3yr", 0.18); ("eps_growth_3yr", 0.15);
         ("roe", 0.12); ("fcf", 0.12); ("roce", 0.08); ("debt_equity", 0.08);
         ("pe_ratio", 0.02) ]);
    ("growth", Profile "Growth Investing"
       [ ("profit_growth_5yr", 0.22); ("sales_growth_5yr", 0.18);
         ("eps_growth_3yr", 0.15); ("roce", 0.15); ("fcf", 0.12);
         ("roe", 0.10); ("opm", 0.08) ]);
    ("value", Profile "Value Investing"
       [ ("pe_ratio", 0.28); ("debt_equity", 0.20); ("fcf", 0.18);
         ("roe", 0.14); ("roce", 0.12); ("dividend_yield", 0.05);
         ("profit_growth_3yr", 0.03) ]);
    ("dividend", Profile "Dividend Focus"
       [ ("dividend_yield", 0.28); ("fcf", 0.25); ("roe", 0.15);
         ("debt_equity", 0.15); ("roce", 0.10); ("opm", 0.07) ]);
    ("quality", Profile "Quality at Fair Price"
       [ ("fcf", 0.30); ("roe", 0.18); ("roce", 0.15); ("pe_ratio", 0.15);
         ("debt_equity", 0.12); ("opm", 0.08); ("profit_growth_3yr", 0.02) ]) ]%string.

Definition philosophy_weights (philosophy : string) : list (string * Q) :=
  match assoc philosophy PHILOSOPHIES with
  | Some profile => weights profile
  | None => []
  end.

Definition valid_modes : list string :=
  [ "financials_only_off"; "global_off"; "global_on" ]%string.

(** ** analyze_rankings (ranking.py:566-1059) *)

(** What the endpoint raises: the two [HTTPException]s of the request check,
    and the arithmetic error that escapes from the tier summary. *)
Inductive error : Type :=
  | Invalid_philosophy (philosophy : string)
  | Invalid_fcfDQMode (fcfDQMode : string)
  | ZeroDivisionError.


(** A row of [df] with the columns added during the analysis; [idx] is its
    index label, the position of the row in the uploaded table. *)
Record scored_row : Type := Scored {
  idx : nat;
  data : row;
  composite_score : Q;
  buffett_score : Q;
  lynch_score : Q;
  growth_score : Q;
  risk_warnings : gmap string Q;
  sector : string;
  sector_adj : Q;
  investment_tier : nat
}.

(** The columns computed for the row at index [i]: the composite scores
    (ranking.py:749-769), then for a surviving row the sector adjustment, which
    overwrites [composite_score] (ranking.py:800-822), and the tier
    (ranking.py:828-833). *)
Definition analyze_row (weights : list (string * Q)) (normalized_df : gmap string (list Q))
    (fcfDQMode : string) (i : nat) (r : row) : scored_row :=
  let composite := calculate_composite_score i r weights normalized_df fcfDQMode in
  let sector := if SECTOR_ENABLED then get_sector_from_name (name r) else "General" in
  let penalties := calculate_risk_penalties r fcfDQMode in
  let adjustment_result :=
    if SECTOR_ENABLED then adjust_score_for_sector composite r sector penalties
    else Adjustment composite 0.0 penalties in
  {| idx := i;
     data := r;
     composite_score := adjusted_score adjustment_result;
     buffett_score :=
       calculate_composite_score i r (philosophy_weights "buffett") normalized_df fcfDQMode;
     lynch_score :=
       calculate_composite_score i r (philosophy_weights "lynch") normalized_df fcfDQMode;
     growth_score :=
       calculate_composite_score i r (philosophy_weights "growth") normalized_df fcfDQMode;
     risk_warnings := calculate_risk_penalties r fcfDQMode;
     sector := sector;
     sector_adj := sector_adjustment adjustment_result;
     investment_tier := if TIERS_ENABLED then (classify_investment_tier r).1.1 else 3%nat |}.

(** The disqualification loop (ranking.py:771-783). *)
Definition disqualified_of (fcfDQMode : string) (df : list row) : list (string * dq_reason) :=
  omap (fun r : row =>
          let '(should_dq, reason) := should_disqualify r fcfDQMode in
          if should_dq then Some (name r, reason) else None) df.

(** [df = df[df['disqualified'] == False]] (ranking.py:787), with the index
    labels kept. *)
Definition surviving (fcfDQMode : string) (df : list row) : list (nat * row) :=
  filter (fun ir : nat * row => (should_disqualify ir.2 fcfDQMode).1 = false)
         (imap (fun i r => (i, r)) df).

Definition tier_counts (df : list scored_row) (tier : nat) : nat :=
  length (filter (fun s => investment_tier s = tier) df).

(** [df.sort_values('composite_score', ascending=False)] (ranking.py:918).
    The call leaves [kind] at its default, ['quicksort'], which pandas
    documents as not stable; it is modelled by what it guarantees: the rows
    are rearranged into non-increasing score order. *)
Definition sort_values_desc (df sorted : list scored_row) : Prop :=
  df ≡ₚ sorted ∧
  StronglySorted (fun a b => composite_score b <= composite_score a) sorted.

(** An entry of the ['rankings'] list of the response (ranking.py:1000-1029);
    [frame_index] is the index label of the row it was built from. *)
Record ranking : Type := Ranking {
  rank : nat;
  frame_index : nat;
  company : string;
  ranking_symbol : string;
  compositeScore : Q;
  buffettScore : Q;
  lynchScore : Q;
  growthScore : Q;
  riskWarnings : gmap string Q;
  ranking_sector : string;
  sectorAdjustment : Q;
  investmentTier : nat
}.

Definition to_ranking (position : nat) (s : scored_row) : ranking :=
  {| rank := S position;
     frame_index := idx s;
     company := name (data s);
     ranking_symbol := symbol (data s);
     compositeScore := composite_score s;
     buffettScore := buffett_score s;
     lynchScore := lynch_score s;
     growthScore := growth_score s;
     riskWarnings := risk_warnings s;
     ranking_sector := sector s;
     sectorAdjustment := sector_adj s;
     investmentTier := investment_tier s |}.

Record report : Type := Report {
  rankings : list ranking;
  philosophy_id : string;
  totalCompanies : nat;
  disqualifiedCount : nat;
  disqualifiedCompanies : list (string * dq_reason);
  tierStatistics : nat -> nat;
  portfolioRecommendation : recommendation;
  report_fcfDQMode : string
}.

Inductive outcome : Type :=
  | Raise (e : error)
  | Return (r : report).

(** The frame right before it is sorted. *)
Definition scored_frame (file : DataFrame) (philosophy fcfDQMode : string) : list scored_row :=
  let df := convert_numeric file in
  let normalized_df := normalize_frame df in
  let weights := philosophy_weights philosophy in
  (fun ir : nat * row => analyze_row weights normalized_df fcfDQMode ir.1 ir.2)
    <$> surviving fcfDQMode (records df).

(** The response built from the sorted frame: ranks by position, the first 50
    rows reported (ranking.py:917-919, 967, 1047-1059). *)
Definition make_report (file : DataFrame) (philosophy fcfDQMode : string)
    (sorted : list scored_row) (rec : recommendation) : report :=
  let disqualified_companies := disqualified_of fcfDQMode (records (convert_numeric file)) in
  {| rankings := imap to_ranking (take 50 sorted);
     philosophy_id := philosophy;
     totalCompanies := length sorted;
     disqualifiedCount := length disqualified_companies;
     disqualifiedCompanies := disqualified_companies;
     tierStatistics := tier_counts (scored_frame file philosophy fcfDQMode);
     portfolioRecommendation := rec;
     report_fcfDQMode := fcfDQMode |}.

(** The endpoint.  The request is checked first; the analysis then runs on the
    whole table, the tier summary is computed before the sort (the tier step is
    enabled, see [TIERS_ENABLED]), and the sort fixes the order of the report.
    Nothing in the endpoint catches the error of the tier summary, so a table
    that leaves no surviving row ends the request with it. *)
Inductive analyze_rankings (file : DataFrame) (philosophy fcfDQMode : string) : outcome -> Prop :=
  | analyze_invalid_philosophy :
      assoc philosophy PHILOSOPHIES = None ->
      analyze_rankings file philosophy fcfDQMode (Raise (Invalid_philosophy philosophy))
  | analyze_invalid_mode profile :
      assoc philosophy PHILOSOPHIES = Some profile ->
      fcfDQMode ∉ valid_modes ->
      analyze_rankings file philosophy fcfDQMode (Raise (Invalid_fcfDQMode fcfDQMode))
  | analyze_zero_division profile :
      assoc philosophy PHILOSOPHIES = Some profile ->
      fcfDQMode ∈ valid_modes ->
      get_portfolio_recommendation
        (tier_counts (scored_frame file philosophy fcfDQMode)) = None ->
      analyze_rankings file philosophy fcfDQMode (Raise ZeroDivisionError)
  | analyze_report profile rec sorted :
      assoc philosophy PHILOSOPHIES = Some profile ->
      fcfDQMode ∈ valid_modes ->
      get_portfolio_recommendation
        (tier_counts (scored_frame file philosophy fcfDQMode)) = Some rec ->
      sort_values_desc (scored_frame file philosophy fcfDQMode) sorted ->
      analyze_rankings file philosophy fcfDQMode
        (Return (make_report file philosophy fcfDQMode sorted rec)).

(** * Properties *)

(** ** Comparisons *)

Lemma Qltb_lt (x y : Q) : (x <? y) = true <-> x < y.
Proof.
  unfold Qltb. rewrite negb_true_iff, <- not_true_iff_false, Qle_bool_iff.
  split; [apply Qnot_le_lt | apply Qlt_not_le].
Qed.

Lemma Qltb_ge (x y : Q) : (x <? y) = false <-> y <= x.
Proof.
  unfold Qltb. rewrite negb_false_iff. apply Qle_bool_iff.
Qed.

Lemma Qgtb_gt (x y : Q) : (x >? y) = true <-> y < x.
Proof. apply Qltb_lt. Qed.

Lemma Qgtb_le (x y : Q) : (x >? y) = false <-> x <= y.
Proof. apply Qltb_ge. Qed.

Lemma Qleb_le (x y : Q) : (x <=? y) = true <-> x <= y.
Proof. apply Qle_bool_iff. Qed.

Lemma Qleb_gt (x y : Q) : (x <=? y) = false <-> y < x.
Proof.
  unfold Qleb. rewrite <- not_true_iff_false, Qle_bool_iff.
  split; [apply Qnot_le_lt | apply Qlt_not_le].
Qed.

(** Turns the boolean tests in the context into order facts. *)
Ltac order_facts :=
  repeat match goal with
  | H : (_ && _) = true |- _ => apply andb_true_iff in H; destruct H
  | H : (_ <? _) = true |- _ => apply Qltb_lt in H
  | H : (_ <? _) = false |- _ => apply Qltb_ge in H
  | H : (_ >? _) = true |- _ => apply Qgtb_gt in H
  | H : (_ >? _) = false |- _ => apply Qgtb_le in H
  | H : (_ <=? _) = true |- _ => apply Qleb_le in H
  | H : (_ <=? _) = false |- _ => apply Qleb_gt in H
  end.

Lemma Qltb_of_lt (x y : Q) : x < y -> (x <? y) = true.
Proof. apply Qltb_lt. Qed.

Lemma Qgtb_of_gt (x y : Q) : y < x -> (x >? y) = true.
Proof. apply Qgtb_gt. Qed.

Lemma py_min_le_r (a b : Q) : py_min a b <= b.
Proof.
  unfold py_min. destruct (b <? a) eqn:E; order_facts; lra.
Qed.

Lemma py_min_le_l (a b : Q) : py_min a b <= a.
Proof.
  unfold py_min. destruct (b <? a) eqn:E; order_facts; lra.
Qed.

Lemma py_min_glb (a b c : Q) : c <= a -> c <= b -> c <= py_min a b.
Proof.
  unfold py_min. destruct (b <? a); auto.
Qed.

Lemma py_max_ge_l (a b : Q) : a <= py_max a b.
Proof.
  unfold py_max. destruct (b >? a) eqn:E; order_facts; lra.
Qed.

Lemma py_max_ge_r (a b : Q) : b <= py_max a b.
Proof.
  unfold py_max. destruct (b >? a) eqn:E; order_facts; lra.
Qed.

Lemma py_max_lub (a b c : Q) : a <= c -> b <= c -> py_max a b <= c.
Proof.
  unfold py_max. destruct (b >? a); auto.
Qed.

(** ** The tiers *)

Definition tier_of (r : row) : nat := (classify_investment_tier r).1.1.

Definition tier1_criteria (r : row) : Prop :=
  20 < get r "roe" 0 /\ 20 < get r "roce" 0 /\ get r "pe_ratio" 999 < 25 /\
  500 < get r "fcf" 0 /\ get r "debt_equity" 999 < 0.5.

Definition tier2_criteria (r : row) : Prop :=
  15 < get r "roe" 0 /\ 15 < get r "roce" 0 /\ get r "pe_ratio" 999 < 35 /\
  100 < get r "fcf" 0 /\ get r "debt_equity" 999 < 1.0.

Definition tier3_criteria (r : row) : Prop :=
  (12 < get r "roe" 0 \/ (1000 < get r "fcf" 0 /\ 0 < get r "profit_growth_3yr" 0)) /\
  get r "debt_equity" 999 < 1.5.

Lemma tier1_test (r : row) :
  ((get r "roe" 0 >? 20) && (get r "roce" 0 >? 20) && (get r "pe_ratio" 999 <? 25) &&
   (get r "fcf" 0 >? 500) && (get r "debt_equity" 999 <? 0.5)) = true <-> tier1_criteria r.
Proof.
  unfold tier1_criteria.
  rewrite !andb_true_iff, !Qgtb_gt, !Qltb_lt. tauto.
Qed.

Lemma tier2_test (r : row) :
  ((get r "roe" 0 >? 15) && (get r "roce" 0 >? 15) && (get r "pe_ratio" 999 <? 35) &&
   (get r "fcf" 0 >? 100) && (get r "debt_equity" 999 <? 1.0)) = true <-> tier2_criteria r.
Proof.
  unfold tier2_criteria.
  rewrite !andb_true_iff, !Qgtb_gt, !Qltb_lt. tauto.
Qed.

Lemma tier3_test (r : row) :
  (((get r "roe" 0 >? 12) || ((get r "fcf" 0 >? 1000) && (get r "profit_growth_3yr" 0 >? 0))) &&
   (get r "debt_equity" 999 <? 1.5)) = true <-> tier3_criteria r.
Proof.
  unfold tier3_criteria.
  rewrite !andb_true_iff, orb_true_iff, !andb_true_iff, !Qgtb_gt, !Qltb_lt. tauto.
Qed.

(** C4: the tier of a row is decided by the absolute thresholds alone, tried
    from Tier 1 down with the first match winning (a metric that the row
    lacks counts as ROE, ROCE, FCF, growth 0 and P/E, D/E 999); the tier
    recorded for a surviving row is that value whatever the philosophy
    weights, the normalized table, the mode and the row's position. *)
Theorem tier_classification_first_match (r : row) :
  (tier_of r = 1%nat <-> tier1_criteria r) /\
  (tier_of r = 2%nat <-> ~ tier1_criteria r /\ tier2_criteria r) /\
  (tier_of r = 3%nat <-> ~ tier1_criteria r /\ ~ tier2_criteria r /\ tier3_criteria r) /\
  (tier_of r = 4%nat <-> ~ tier1_criteria r /\ ~ tier2_criteria r /\ ~ tier3_criteria r) /\
  (forall weights normalized_df fcfDQMode i,
     investment_tier (analyze_row weights normalized_df fcfDQMode i r) = tier_of r).
Proof.
  pose proof (tier1_test r) as H1.
  pose proof (tier2_test r) as H2.
  pose proof (tier3_test r) as H3.
  unfold analyze_row, tier_of, TIERS_ENABLED, classify_investment_tier; cbn [investment_tier].
  destruct ((get r "roe" 0 >? 20) && _ && _ && _ && _) eqn:E1.
  { simpl. intuition congruence. }
  destruct ((get r "roe" 0 >? 15) && _ && _ && _ && _) eqn:E2.
  { simpl. intuition congruence. }
  destruct (((get r "roe" 0 >? 12) || _) && _) eqn:E3.
  { simpl. intuition congruence. }
  simpl. intuition congruence.
Qed.

(** ** The disqualification gate *)

Lemma extreme_pe_shadows_absurd_pe (r : row) :
  dq_extreme_pe r = None -> dq_absurd_pe r = None.
Proof.
  unfold dq_extreme_pe, dq_absurd_pe.
  destruct (r !! "pe_ratio") as [pe|]; [|reflexivity].
  destruct (pe >? 100) eqn:E100; [discriminate|].
  destruct (pe >? 500) eqn:E500; [|reflexivity].
  order_facts. lra.
Qed.

Lemma massive_burn_reason gate r reason :
  dq_massive_burn gate r = Some reason -> exists fcf, reason = MassiveCashBurn fcf.
Proof.
  unfold dq_massive_burn. repeat case_match; intros; simplify_eq; eauto.
Qed.

Lemma extreme_pe_reason r reason :
  dq_extreme_pe r = Some reason -> exists pe, reason = ExtremePE pe.
Proof.
  unfold dq_extreme_pe. repeat case_match; intros; simplify_eq; eauto.
Qed.

Lemma fcf_debt_reason gate r reason :
  dq_fcf_debt gate r = Some reason -> reason = BankruptcyRisk.
Proof.
  unfold dq_fcf_debt. repeat case_match; intros; simplify_eq; eauto.
Qed.

Lemma negative_roe_reason r reason :
  dq_negative_roe r = Some reason -> exists roe, reason = NegativeROE roe.
Proof.
  unfold dq_negative_roe. repeat case_match; intros; simplify_eq; eauto.
Qed.

Lemma minimal_fcf_reason gate r reason :
  dq_minimal_fcf gate r = Some reason -> exists fcf cap, reason = MinimalFCF fcf cap.
Proof.
  unfold dq_minimal_fcf. repeat case_match; intros; simplify_eq; eauto.
Qed.

Lemma volatility_reason r reason :
  dq_volatility r = Some reason -> reason = ExtremeVolatility.
Proof.
  unfold dq_volatility. repeat case_match; intros; simplify_eq; eauto.
Qed.

(** C10: the gate never answers with the absurd-P/E reason: a P/E above 500
    is above 100, and the extreme-P/E rule stands before the absurd-P/E
    rule. *)
Theorem absurd_pe_reason_unreachable (r : row) (fcf_dq_mode : string) (pe : Q) :
  (should_disqualify r fcf_dq_mode).2 <> AbsurdPE pe.
Proof.
  unfold should_disqualify. cbn [first_match].
  destruct (dq_massive_burn _ r) as [x|] eqn:E1.
  { apply massive_burn_reason in E1 as [? ->]. discriminate. }
  destruct (dq_extreme_pe r) as [x|] eqn:E2.
  { apply extreme_pe_reason in E2 as [? ->]. discriminate. }
  rewrite (extreme_pe_shadows_absurd_pe r E2).
  destruct (dq_fcf_debt _ r) as [x|] eqn:E4.
  { apply fcf_debt_reason in E4 as ->. discriminate. }
  destruct (dq_negative_roe r) as [x|] eqn:E5.
  { apply negative_roe_reason in E5 as [? ->]. discriminate. }
  destruct (dq_minimal_fcf _ r) as [x|] eqn:E6.
  { apply minimal_fcf_reason in E6 as (? & ? & ->). discriminate. }
  destruct (dq_volatility r) as [x|] eqn:E7.
  { apply volatility_reason in E7 as ->. discriminate. }
  discriminate.
Qed.

(** The reason the gate gives once the FCF-and-debt rule applies: an earlier
    rule that fires keeps its own reason. *)
Definition fcf_debt_verdict (r : row) (fcf : Q) : dq_reason :=
  if fcf <? -500 then MassiveCashBurn fcf
  else match dq_extreme_pe r with
       | Some reason => reason
       | None => BankruptcyRisk
       end.

(** C5, as the code has it: a non-financial row with FCF below -100 and
    debt-to-equity above 2.0 is disqualified under [financials_only_off] and
    under [global_on]; the reason is the bankruptcy-risk one when FCF is not
    below -500 and the P/E is not above 100, and otherwise the reason of the
    earlier rule (massive cash burn, then extreme P/E). *)
Theorem fcf_debt_rule_disqualifies (r : row) (fcf_dq_mode : string) (fcf de : Q) :
  is_financials r = false ->
  r !! "fcf" = Some fcf ->
  r !! "debt_equity" = Some de ->
  fcf < -100 ->
  2.0 < de ->
  fcf_dq_mode = "financials_only_off" \/ fcf_dq_mode = "global_on" ->
  should_disqualify r fcf_dq_mode = (true, fcf_debt_verdict r fcf) /\
  (-500 <= fcf -> dq_extreme_pe r = None ->
   should_disqualify r fcf_dq_mode = (true, BankruptcyRisk)).
Proof.
  intros Hfin Hfcf Hde Hlt Hgt Hmode.
  assert (Hgate : fcf_dq_applies (is_financials r) fcf_dq_mode = true).
  { rewrite Hfin. destruct Hmode as [-> | ->]; reflexivity. }
  assert (Hmain : should_disqualify r fcf_dq_mode = (true, fcf_debt_verdict r fcf)).
  { unfold should_disqualify, fcf_debt_verdict. rewrite Hgate. cbn [first_match].
    unfold dq_massive_burn. rewrite Hfcf.
    destruct (fcf <? -500) eqn:E500; [reflexivity|]. cbn [andb].
    destruct (dq_extreme_pe r) as [x|] eqn:E2; [reflexivity|].
    rewrite (extreme_pe_shadows_absurd_pe r E2).
    unfold dq_fcf_debt. rewrite Hfcf, Hde.
    rewrite (Qltb_of_lt _ _ Hlt), (Qgtb_of_gt _ _ Hgt). reflexivity. }
  split; [exact Hmain|].
  intros Hge Hpe. rewrite Hmain. unfold fcf_debt_verdict.
  rewrite Hpe. destruct (fcf <? -500) eqn:E500; [|reflexivity].
  order_facts. lra.
Qed.

(** ** The risk penalties *)

Ltac keeps_key :=
  intros; unfold pen_extreme_pe, pen_debt, pen_roe, pen_roce, pen_peg, pen_low_roe_growth,
    pen_low_fcf_relative, pen_moderate_pe, pen_multiple_red_flags, pen_volatility;
  repeat case_match; rewrite ?lookup_insert_ne by discriminate; reflexivity.

Lemma later_blocks_keep_negative_fcf (is_fin : bool) (r : row) (p : gmap string Q) :
  pen_volatility r
    (pen_multiple_red_flags is_fin r
      (pen_moderate_pe r
        (pen_low_fcf_relative is_fin r
          (pen_low_roe_growth r
            (pen_peg r (pen_roce r (pen_roe r (pen_debt is_fin r (pen_extreme_pe r p)))))))))
    !! "negative_fcf" = p !! "negative_fcf".
Proof.
  assert (H1 : forall q, pen_volatility r q !! "negative_fcf" = q !! "negative_fcf") by keeps_key.
  assert (H2 : forall q, pen_multiple_red_flags is_fin r q !! "negative_fcf" = q !! "negative_fcf")
    by keeps_key.
  assert (H3 : forall q, pen_moderate_pe r q !! "negative_fcf" = q !! "negative_fcf") by keeps_key.
  assert (H4 : forall q, pen_low_fcf_relative is_fin r q !! "negative_fcf" = q !! "negative_fcf")
    by keeps_key.
  assert (H5 : forall q, pen_low_roe_growth r q !! "negative_fcf" = q !! "negative_fcf")
    by keeps_key.
  assert (H6 : forall q, pen_peg r q !! "negative_fcf" = q !! "negative_fcf") by keeps_key.
  assert (H7 : forall q, pen_roce r q !! "negative_fcf" = q !! "negative_fcf") by keeps_key.
  assert (H8 : forall q, pen_roe r q !! "negative_fcf" = q !! "negative_fcf") by keeps_key.
  assert (H9 : forall q, pen_debt is_fin r q !! "negative_fcf" = q !! "negative_fcf") by keeps_key.
  assert (H10 : forall q, pen_extreme_pe r q !! "negative_fcf" = q !! "negative_fcf") by keeps_key.
  rewrite H1, H2, H3, H4, H5, H6, H7, H8, H9, H10. reflexivity.
Qed.

Lemma negative_fcf_penalty_value (r : row) (fcf_dq_mode : string) (fcf : Q) :
  r !! "fcf" = Some fcf ->
  fcf < 0 ->
  calculate_risk_penalties r fcf_dq_mode !! "negative_fcf"
  = Some (if is_financials r then 0.10 else 0.40).
Proof.
  intros Hfcf Hneg. unfold calculate_risk_penalties.
  rewrite later_blocks_keep_negative_fcf.
  unfold pen_negative_fcf. rewrite Hfcf, (Qltb_of_lt _ _ Hneg).
  destruct (is_financials r); cbn [negb]; apply lookup_insert_eq.
Qed.

(** C6: a row with negative FCF gets the [negative_fcf] penalty 0.40 when it
    is detected as non-financial and 0.10 when it is detected as financial,
    under every mode; so beside any non-financial row with negative FCF, a
    financial row with negative FCF carries the strictly smaller penalty. *)
Theorem negative_fcf_penalty_by_sector (r : row) (fcf_dq_mode : string) (fcf : Q) :
  r !! "fcf" = Some fcf ->
  fcf < 0 ->
  (is_financials r = false ->
   calculate_risk_penalties r fcf_dq_mode !! "negative_fcf" = Some 0.40) /\
  (is_financials r = true ->
   calculate_risk_penalties r fcf_dq_mode !! "negative_fcf" = Some 0.10 /\
   forall industrial : row,
     industrial !! "fcf" = Some fcf ->
     is_financials industrial = false ->
     exists p_fin p_ind,
       calculate_risk_penalties r fcf_dq_mode !! "negative_fcf" = Some p_fin /\
       calculate_risk_penalties industrial fcf_dq_mode !! "negative_fcf" = Some p_ind /\
       p_fin < p_ind).
Proof.
  intros Hfcf Hneg.
  pose proof (negative_fcf_penalty_value r fcf_dq_mode fcf Hfcf Hneg) as Hr.
  split.
  - intros Hfin. rewrite Hr, Hfin. reflexivity.
  - intros Hfin. rewrite Hfin in Hr. split; [exact Hr|].
    intros industrial Hfcf' Hind.
    pose proof (negative_fcf_penalty_value industrial fcf_dq_mode fcf Hfcf' Hneg) as Hi.
    rewrite Hind in Hi.
    exists 0.10, 0.40. split; [exact Hr | split; [exact Hi | lra]].
Qed.

(** A row that burns cash and trips no other rule: only the mode decides. *)
Definition cash_burner : row :=
  {| name := "Acme Steel"; symbol := "ACME"; metrics := {[ "fcf" := -600 ]} |}.

(** C9: the penalties of a row are the same under every mode, and so is its
    composite score; the mode reaches the gate only, where it can change the
    verdict. *)
Theorem penalties_ignore_dq_mode (r : row) (mode1 mode2 : string) :
  calculate_risk_penalties r mode1 = calculate_risk_penalties r mode2 /\
  (forall idx weights normalized_df,
     calculate_composite_score idx r weights normalized_df mode1
     = calculate_composite_score idx r weights normalized_df mode2) /\
  (should_disqualify cash_burner "global_on").1 = true /\
  (should_disqualify cash_burner "global_off").1 = false.
Proof.
  split; [reflexivity|]. split; [reflexivity|].
  unfold should_disqualify.
  destruct (is_financials cash_burner); split; reflexivity.
Qed.

(** ** The composite score *)

(** The normalized score of a row for a metric, and the weighted sum over the
    weights whose metric has a normalized column. *)
Definition normalized_score (normalized_df : gmap string (list Q)) (idx : nat)
    (metric : string) : Q :=
  default 0 (normalized_df !! metric ≫= fun col => col !! idx).

Definition weighted_sum (normalized_df : gmap string (list Q)) (idx : nat)
    (weights : list (string * Q)) : Q :=
  py_sum ((fun mw : string * Q => normalized_score normalized_df idx mw.1 * mw.2)
            <$> filter (fun mw : string * Q => is_Some (normalized_df !! mw.1)) weights).

Lemma weighted_loop (normalized_df : gmap string (list Q)) (idx : nat)
    (weights : list (string * Q)) (acc : Q) :
  fold_left (weighted_step normalized_df idx) weights acc
  = fold_left Qplus
      ((fun mw : string * Q => normalized_score normalized_df idx mw.1 * mw.2)
         <$> filter (fun mw : string * Q => is_Some (normalized_df !! mw.1)) weights) acc.
Proof.
  revert acc. induction weights as [|[metric weight] rest IH]; intros acc; [reflexivity|].
  cbn [fold_left]. rewrite IH. rewrite filter_cons. cbn [fst].
  unfold weighted_step at 1.
  destruct (normalized_df !! metric) as [col|] eqn:Hcol.
  - rewrite decide_True by eauto. rewrite fmap_cons. cbn [fold_left fst snd].
    replace (normalized_score normalized_df idx metric) with (default 0 (col !! idx))
      by (unfold normalized_score; rewrite Hcol; reflexivity).
    reflexivity.
  - rewrite decide_False by (intros [? ?]; discriminate). reflexivity.
Qed.

Lemma fold_plus_ge (l : list Q) (acc : Q) :
  Forall (fun v => 0 <= v) l -> acc <= fold_left Qplus l acc.
Proof.
  intros H. revert acc. induction H as [|v l Hv _ IH]; intros acc; cbn [fold_left].
  - lra.
  - specialize (IH (acc + v)). lra.
Qed.

Definition positive_values (p : gmap string Q) : Prop :=
  map_Forall (fun _ v => 0 < v) p.

Lemma positive_insert (k : string) (v : Q) (p : gmap string Q) :
  0 < v -> positive_values p -> positive_values (<[k := v]> p).
Proof. intros Hv Hp. apply map_Forall_insert_2; assumption. Qed.

Lemma Qnat_ge (n m : nat) : (n <= m)%nat -> Qnat n <= Qnat m.
Proof.
  intros H. unfold Qnat. rewrite <- Zle_Qle. lia.
Qed.

Lemma penalties_positive (r : row) (fcf_dq_mode : string) :
  positive_values (calculate_risk_penalties r fcf_dq_mode).
Proof.
  unfold calculate_risk_penalties.
  assert (H0 : positive_values (∅ : gmap string Q)) by apply map_Forall_empty.
  revert H0. generalize (∅ : gmap string Q). generalize (is_financials r).
  intros is_fin p0 H0.
  assert (H1 : positive_values (pen_negative_fcf is_fin r p0)).
  { unfold pen_negative_fcf. repeat case_match; try assumption;
      apply positive_insert; try assumption; lra. }
  revert H1. generalize (pen_negative_fcf is_fin r p0). clear p0 H0. intros p H.
  assert (H2 : positive_values (pen_extreme_pe r p)).
  { unfold pen_extreme_pe. repeat case_match; try assumption;
      apply positive_insert; try assumption; lra. }
  revert H2. generalize (pen_extreme_pe r p). clear p H. intros p H.
  assert (H2 : positive_values (pen_debt is_fin r p)).
  { unfold pen_debt. repeat case_match; try assumption;
      apply positive_insert; try assumption; lra. }
  revert H2. generalize (pen_debt is_fin r p). clear p H. intros p H.
  assert (H2 : positive_values (pen_roe r p)).
  { unfold pen_roe. repeat case_match; try assumption;
      apply positive_insert; try assumption; lra. }
  revert H2. generalize (pen_roe r p). clear p H. intros p H.
  assert (H2 : positive_values (pen_roce r p)).
  { unfold pen_roce. repeat case_match; try assumption;
      apply positive_insert; try assumption; lra. }
  revert H2. generalize (pen_roce r p). clear p H. intros p H.
  assert (H2 : positive_values (pen_peg r p)).
  { unfold pen_peg. repeat case_match; try assumption;
      apply positive_insert; try assumption; lra. }
  revert H2. generalize (pen_peg r p). clear p H. intros p H.
  assert (H2 : positive_values (pen_low_roe_growth r p)).
  { unfold pen_low_roe_growth. repeat case_match; try assumption;
      apply positive_insert; try assumption; lra. }
  revert H2. generalize (pen_low_roe_growth r p). clear p H. intros p H.
  assert (H2 : positive_values (pen_low_fcf_relative is_fin r p)).
  { unfold pen_low_fcf_relative. repeat case_match; try assumption;
      apply positive_insert; try assumption; lra. }
  revert H2. generalize (pen_low_fcf_relative is_fin r p). clear p H. intros p H.
  assert (H2 : positive_values (pen_moderate_pe r p)).
  { unfold pen_moderate_pe. repeat case_match; try assumption;
      apply positive_insert; try assumption; lra. }
  revert H2. generalize (pen_moderate_pe r p). clear p H. intros p H.
  assert (H2 : positive_values (pen_multiple_red_flags is_fin r p)).
  { unfold pen_multiple_red_flags.
    destruct (2 <=? length (red_flags is_fin r))%nat eqn:E; [|assumption].
    apply positive_insert; [|assumption].
    apply Nat.leb_le in E. apply Qnat_ge in E. change (Qnat 2) with 2 in E.
    nra. }
  revert H2. generalize (pen_multiple_red_flags is_fin r p). clear p H. intros p H.
  unfold pen_volatility. repeat case_match; try assumption;
    apply positive_insert; try assumption; lra.
Qed.

Lemma sum_values_nonneg (p : gmap string Q) : positive_values p -> 0 <= sum_values p.
Proof.
  intros H. unfold sum_values, py_sum. apply fold_plus_ge.
  apply Forall_fmap, Forall_forall. intros [k v] Hin. cbn.
  apply elem_of_map_to_list in Hin. apply Qlt_le_weak. exact (H k v Hin).
Qed.

(** Rounding. *)

Lemma round_half_even_close (x : Q) : Qabs (inject_Z (round_half_even x) - x) <= 1 # 2.
Proof.
  pose proof (Qfloor_le x) as Hlo.
  pose proof (Qlt_floor x) as Hhi.
  rewrite inject_Z_plus in Hhi. change (inject_Z 1) with 1 in Hhi.
  assert (Hsucc : inject_Z (Qfloor x + 1) == inject_Z (Qfloor x) + 1)
    by (rewrite inject_Z_plus; reflexivity).
  unfold round_half_even. apply Qabs_Qle_condition.
  destruct (x - inject_Z (Qfloor x) <? 1 # 2) eqn:E1.
  { order_facts. split; lra. }
  destruct (x - inject_Z (Qfloor x) >? 1 # 2) eqn:E2.
  { order_facts. rewrite Hsucc. split; lra. }
  order_facts. destruct (Z.even (Qfloor x)); [|rewrite Hsucc]; split; lra.
Qed.

Lemma round1_close (x : Q) : Qabs (round1 x - x) <= 1 # 20.
Proof.
  pose proof (round_half_even_close (x * 10)) as H.
  apply Qabs_Qle_condition in H. apply Qabs_Qle_condition.
  unfold round1. generalize dependent (inject_Z (round_half_even (x * 10))).
  intros z Hz. unfold Qdiv. change (/ 10) with (1 # 10). split; lra.
Qed.

(** C1: the value of [calculate_composite_score] is the weighted sum of the
    row's normalized scores under the given weights, times the quality, the
    cash-flow and the valuation multipliers, times one minus the penalty total
    capped at 0.6, rounded to one decimal: the capped total lies between 0
    and 0.6 whatever penalties fire, and the result is a whole number of
    tenths within 0.05 of the unrounded product.  It is the score every row
    gets under a philosophy; the score column of a surviving row is this
    value passed through the sector adjustment. *)
Theorem composite_score_formula (idx : nat) (r : row) (weights : list (string * Q))
    (normalized_df : gmap string (list Q)) (fcf_dq_mode : string) :
  let total_penalty := sum_values (calculate_risk_penalties r fcf_dq_mode) in
  let product :=
    weighted_sum normalized_df idx weights
    * assess_quality_score r
    * assess_cash_flow_quality r
    * valuation_score (assess_valuation_reasonableness r)
    * (1 - py_min total_penalty 0.6) in
  calculate_composite_score idx r weights normalized_df fcf_dq_mode = round1 product /\
  0 <= py_min total_penalty 0.6 <= 0.6 /\
  Qabs (round1 product - product) <= 1 # 20 /\
  (exists tenths : Z, round1 product = inject_Z tenths / 10) /\
  composite_score (analyze_row weights normalized_df fcf_dq_mode idx r)
  = adjusted_score
      (adjust_score_for_sector (round1 product) r (get_sector_from_name (name r))
         (calculate_risk_penalties r fcf_dq_mode)).
Proof.
  intros total_penalty product.
  assert (Hscore : calculate_composite_score idx r weights normalized_df fcf_dq_mode
                   = round1 product).
  { unfold calculate_composite_score, product, total_penalty, weighted_sum, py_sum.
    rewrite weighted_loop. reflexivity. }
  split; [exact Hscore|]. split; [|split; [|split]].
  - split; [|apply py_min_le_r].
    apply py_min_glb; [|lra].
    apply sum_values_nonneg, penalties_positive.
  - apply round1_close.
  - eexists. reflexivity.
  - rewrite <- Hscore. reflexivity.
Qed.

(** ** The normalizer *)

Lemma fold_min_le_acc (l : list Q) (a : Q) : fold_left py_min l a <= a.
Proof.
  revert a. induction l as [|x l IH]; intros a; cbn [fold_left]; [lra|].
  specialize (IH (py_min a x)). pose proof (py_min_le_l a x). lra.
Qed.

Lemma fold_min_le_elem (l : list Q) (a v : Q) : v ∈ l -> fold_left py_min l a <= v.
Proof.
  revert a. induction l as [|x l IH]; intros a Hin; [inversion Hin|].
  cbn [fold_left]. apply elem_of_cons in Hin as [-> | Hin].
  - pose proof (fold_min_le_acc l (py_min a x)). pose proof (py_min_le_r a x). lra.
  - apply IH, Hin.
Qed.

Lemma fold_max_ge_acc (l : list Q) (a : Q) : a <= fold_left py_max l a.
Proof.
  revert a. induction l as [|x l IH]; intros a; cbn [fold_left]; [lra|].
  specialize (IH (py_max a x)). pose proof (py_max_ge_l a x). lra.
Qed.

Lemma fold_max_ge_elem (l : list Q) (a v : Q) : v ∈ l -> v <= fold_left py_max l a.
Proof.
  revert a. induction l as [|x l IH]; intros a Hin; [inversion Hin|].
  cbn [fold_left]. apply elem_of_cons in Hin as [-> | Hin].
  - pose proof (fold_max_ge_acc l (py_max a x)). pose proof (py_max_ge_r a x). lra.
  - apply IH, Hin.
Qed.

Lemma series_min_le (vals : list (option Q)) (v : Q) :
  v ∈ dropna vals -> series_min vals <= v.
Proof.
  unfold series_min. destruct (dropna vals) as [|x t]; intros Hin; [inversion Hin|].
  apply elem_of_cons in Hin as [-> | Hin].
  - apply fold_min_le_acc.
  - apply fold_min_le_elem, Hin.
Qed.

Lemma series_max_ge (vals : list (option Q)) (v : Q) :
  v ∈ dropna vals -> v <= series_max vals.
Proof.
  unfold series_max. destruct (dropna vals) as [|x t]; intros Hin; [inversion Hin|].
  apply elem_of_cons in Hin as [-> | Hin].
  - apply fold_max_ge_acc.
  - apply fold_max_ge_elem, Hin.
Qed.

Lemma dropna_fillna (vals : list (option Q)) :
  dropna (fillna vals) = default (fill_value vals) <$> vals.
Proof.
  unfold dropna, fillna. generalize (fill_value vals). intros fv.
  induction vals as [|c vals IH]; [reflexivity|].
  cbn. f_equal. exact IH.
Qed.

Lemma normalize_series_fillna (vals : list (option Q)) (inverse : bool) :
  normalize_series (fillna vals) inverse
  = (fun cell => normalize_score (Some (default (fill_value vals) cell))
                   (series_min (fillna vals)) (series_max (fillna vals)) inverse) <$> vals.
Proof.
  unfold normalize_series. unfold fillna at 3. rewrite <- list_fmap_compose. reflexivity.
Qed.

(** The scaling applied to a value between the column's extremes. *)
Definition min_max_scale (v lo hi : Q) (inverse : bool) : Q :=
  if inverse then 100 - (v - lo) / (hi - lo) * 100 else (v - lo) / (hi - lo) * 100.

Lemma unit_ratio (v lo hi : Q) :
  lo <= v -> v <= hi -> lo < hi -> 0 <= (v - lo) / (hi - lo) <= 1.
Proof.
  intros Hlo Hhi Hlt. split.
  - apply Qle_shift_div_l; lra.
  - apply Qle_shift_div_r; lra.
Qed.

Lemma clamp_identity (n : Q) : 0 <= n -> n <= 100 -> py_max 0 (py_min 100 n) == n.
Proof.
  intros H0 H100. unfold py_max, py_min.
  destruct (n <? 100) eqn:E1.
  - destruct (n >? 0) eqn:E2; order_facts; lra.
  - destruct (100 >? 0) eqn:E2; order_facts; lra.
Qed.

Lemma clamp_range (n : Q) : 0 <= py_max 0 (py_min 100 n) <= 100.
Proof.
  split; [apply py_max_ge_l|].
  apply py_max_lub; [lra | apply py_min_le_l].
Qed.

Lemma normalize_score_spec (v lo hi : Q) (inverse : bool) :
  lo <= v -> v <= hi ->
  0 <= normalize_score (Some v) lo hi inverse <= 100 /\
  (lo == hi -> normalize_score (Some v) lo hi inverse = 50.0) /\
  (~ lo == hi -> normalize_score (Some v) lo hi inverse == min_max_scale v lo hi inverse).
Proof.
  intros Hlo Hhi. unfold normalize_score.
  destruct (Qeq_bool hi lo) eqn:E.
  - apply Qeq_bool_iff in E. split; [lra|]. split; [reflexivity|].
    intros Hne. exfalso. apply Hne. symmetry. exact E.
  - apply Qeq_bool_neq in E. split; [apply clamp_range|]. split.
    + intros Heq. exfalso. apply E. symmetry. exact Heq.
    + intros _. assert (Hlt : lo < hi).
      { destruct (Qlt_le_dec lo hi) as [?|Hle]; [assumption|].
        exfalso. apply E. lra. }
      pose proof (unit_ratio v lo hi Hlo Hhi Hlt) as Hratio.
      unfold min_max_scale. revert Hratio. generalize ((v - lo) / (hi - lo)).
      intros t Ht. destruct inverse; apply clamp_identity; lra.
Qed.

Lemma insert_sorted_elem (x v : Q) (l : list Q) :
  v ∈ insert_sorted x l -> v = x \/ v ∈ l.
Proof.
  induction l as [|y t IH]; cbn [insert_sorted].
  - intros Hin. apply list_elem_of_singleton in Hin. left. exact Hin.
  - destruct (x <=? y).
    + intros Hin. apply elem_of_cons in Hin as [-> | Hin]; [left; reflexivity | right; exact Hin].
    + intros Hin. apply elem_of_cons in Hin as [-> | Hin].
      * right. left.
      * destruct (IH Hin) as [-> | Ht]; [left; reflexivity | right; right; exact Ht].
Qed.

Lemma sorted_values_elem (v : Q) (l : list Q) : v ∈ sorted_values l -> v ∈ l.
Proof.
  induction l as [|x l IH]; cbn [sorted_values foldr]; [trivial|].
  intros Hin. apply insert_sorted_elem in Hin as [-> | Hin]; [left | right; apply IH, Hin].
Qed.

Lemma insert_sorted_length (x : Q) (l : list Q) : length (insert_sorted x l) = S (length l).
Proof.
  induction l as [|y t IH]; cbn [insert_sorted]; [reflexivity|].
  destruct (x <=? y); cbn [length]; [reflexivity | rewrite IH; reflexivity].
Qed.

Lemma sorted_values_length (l : list Q) : length (sorted_values l) = length l.
Proof.
  induction l as [|x l IH]; cbn [sorted_values foldr]; [reflexivity|].
  fold (sorted_values l). rewrite insert_sorted_length, IH. reflexivity.
Qed.

(** The median of a column whose values all equal [k] is [k]. *)
Lemma median_constant (vals : list (option Q)) (k : Q) :
  dropna vals <> [] ->
  Forall (fun v => v == k) (dropna vals) ->
  median vals == k.
Proof.
  intros Hne Hall. unfold median.
  assert (Hs : forall i v, sorted_values (dropna vals) !! i = Some v -> v == k).
  { intros i v Hi. rewrite Forall_forall in Hall. apply Hall.
    apply sorted_values_elem. eapply list_elem_of_lookup_2, Hi. }
  assert (Hlen : (0 < length (sorted_values (dropna vals)))%nat).
  { rewrite sorted_values_length. destruct (dropna vals); [congruence | cbn; lia]. }
  set (s := sorted_values (dropna vals)) in *.
  set (n := length s) in *.
  assert (Hmid : (n / 2 < n)%nat) by (apply Nat.div_lt; lia).
  destruct (lookup_lt_is_Some_2 s (n / 2)%nat Hmid) as [m Hm].
  rewrite Hm. unfold default, from_option, id.
  destruct (Nat.even n).
  - assert (Hprev : (n / 2 - 1 < n)%nat) by lia.
    destruct (lookup_lt_is_Some_2 s (n / 2 - 1)%nat Hprev) as [m' Hm'].
    rewrite Hm'. unfold default, from_option, id.
    pose proof (Hs _ _ Hm). pose proof (Hs _ _ Hm').
    unfold Qdiv. change (/ 2) with (1 # 2). lra.
  - exact (Hs _ _ Hm).
Qed.

Lemma fill_value_constant (vals : list (option Q)) (k : Q) :
  dropna vals <> [] ->
  Forall (fun v => v == k) (dropna vals) ->
  fill_value vals == k.
Proof.
  intros Hne Hall. unfold fill_value.
  destruct (dropna vals) eqn:E; [congruence|].
  rewrite <- E in *. apply median_constant; assumption.
Qed.

Lemma fold_min_glb (l : list Q) (a c : Q) :
  c <= a -> Forall (fun v => c <= v) l -> c <= fold_left py_min l a.
Proof.
  intros Ha H. revert a Ha. induction H as [|v l Hv _ IH]; intros a Ha; cbn [fold_left].
  - exact Ha.
  - apply IH, py_min_glb; assumption.
Qed.

Lemma fold_max_lub (l : list Q) (a c : Q) :
  a <= c -> Forall (fun v => v <= c) l -> fold_left py_max l a <= c.
Proof.
  intros Ha H. revert a Ha. induction H as [|v l Hv _ IH]; intros a Ha; cbn [fold_left].
  - exact Ha.
  - apply IH, py_max_lub; assumption.
Qed.

Lemma constant_series_extremes (vals : list (option Q)) (k : Q) :
  dropna vals <> [] ->
  Forall (fun v => v == k) (dropna vals) ->
  series_min vals == k /\ series_max vals == k.
Proof.
  intros Hne Hall. unfold series_min, series_max.
  destruct (dropna vals) as [|x t]; [congruence|].
  apply Forall_cons in Hall as [Hx Ht].
  split; apply Qle_antisym.
  - pose proof (fold_min_le_acc t x). lra.
  - apply fold_min_glb; [lra|]. eapply Forall_impl; [exact Ht|]. cbn. intros; lra.
  - apply fold_max_lub; [lra|]. eapply Forall_impl; [exact Ht|]. cbn. intros; lra.
  - pose proof (fold_max_ge_acc t x). lra.
Qed.

(** A column whose present values all equal [k] has equal extremes once it is
    filled. *)
Lemma constant_column_extremes (vals : list (option Q)) (k : Q) :
  Forall (fun cell => forall v, cell = Some v -> v == k) vals ->
  series_min (fillna vals) == series_max (fillna vals).
Proof.
  intros Hall.
  destruct (dropna vals) as [|x t] eqn:Edrop.
  - (* every cell is missing: the column is filled with 0 *)
    destruct vals as [|c vals]; [reflexivity|].
    assert (H0 : series_min (fillna (c :: vals)) == 0 /\ series_max (fillna (c :: vals)) == 0).
    { apply constant_series_extremes.
      - rewrite dropna_fillna. discriminate.
      - rewrite dropna_fillna. apply Forall_fmap, Forall_forall. intros cell Hin. cbn.
        unfold fill_value. rewrite Edrop.
        destruct cell as [v|]; [|reflexivity].
        assert (Hv : v ∈ dropna (c :: vals)).
        { apply list_elem_of_omap. exists (Some v). split; [exact Hin | reflexivity]. }
        rewrite Edrop in Hv. inversion Hv. }
    destruct H0 as [-> ->]. reflexivity.
  - assert (Hne : dropna vals <> []) by (rewrite Edrop; discriminate).
    assert (Hk : Forall (fun v => v == k) (dropna vals)).
    { apply Forall_forall. intros v Hv. apply list_elem_of_omap in Hv as (cell & Hin & Hc).
      rewrite Forall_forall in Hall. apply (Hall cell Hin). exact Hc. }
    pose proof (fill_value_constant vals k Hne Hk) as Hfill.
    assert (H0 : series_min (fillna vals) == k /\ series_max (fillna vals) == k).
    { apply constant_series_extremes.
      - rewrite dropna_fillna. destruct vals; [discriminate Edrop | discriminate].
      - rewrite dropna_fillna. apply Forall_fmap, Forall_forall. intros cell Hin. cbn.
        destruct cell as [v|]; cbn.
        + rewrite Forall_forall in Hall. apply (Hall (Some v) Hin). reflexivity.
        + exact Hfill. }
    destruct H0 as [-> ->]. reflexivity.
Qed.

Lemma filled_value_between (vals : list (option Q)) (cell : option Q) :
  cell ∈ vals ->
  series_min (fillna vals) <= default (fill_value vals) cell <= series_max (fillna vals).
Proof.
  intros Hin.
  assert (Hv : default (fill_value vals) cell ∈ dropna (fillna vals)).
  { rewrite dropna_fillna. apply list_elem_of_fmap_2, Hin. }
  split; [apply series_min_le | apply series_max_ge]; exact Hv.
Qed.

(** C2, as the code has it: a column is normalized by min-max scaling.  A
    missing cell is first replaced by the column's fill value (the median of
    the present values, 0 when none is present); every row then gets a score
    between 0 and 100, which is [(v - min) / (max - min) * 100] (taken from 100
    for a lower-is-better metric) when the extremes differ and 50 when they
    are equal; a column whose present values are all equal scores 50 in
    every row. *)
Theorem min_max_normalization (vals : list (option Q)) (inverse : bool) :
  let filled := fillna vals in
  let lo := series_min filled in
  let hi := series_max filled in
  Forall2 (fun cell score =>
             let v := default (fill_value vals) cell in
             0 <= score <= 100 /\
             (lo == hi -> score = 50.0) /\
             (~ lo == hi -> score == min_max_scale v lo hi inverse))
          vals (normalize_series filled inverse) /\
  (forall k, Forall (fun cell => forall v, cell = Some v -> v == k) vals ->
             Forall (fun score => score = 50.0) (normalize_series filled inverse)).
Proof.
  intros filled lo hi. subst filled lo hi.
  rewrite normalize_series_fillna. split.
  - apply Forall2_fmap_r, Forall_Forall2_diag, Forall_forall.
    intros cell Hin. cbn zeta.
    destruct (filled_value_between vals cell Hin) as [Hlo Hhi].
    apply normalize_score_spec; assumption.
  - intros k Hall. apply Forall_fmap, Forall_forall. intros cell Hin. cbn.
    destruct (filled_value_between vals cell Hin) as [Hlo Hhi].
    apply normalize_score_spec; try assumption.
    apply (constant_column_extremes vals k Hall).
Qed.

(** The normalized table of the endpoint holds, for a numeric column of a
    non-empty table, the min-max scores of the filled column. *)

Lemma fill_column_columns (df : DataFrame) (c : string) :
  columns (fill_column df c) = columns df.
Proof. unfold fill_column. destruct (bool_decide _); reflexivity. Qed.

Lemma fold_fill_columns (l : list string) (df : DataFrame) :
  columns (fold_left fill_column l df) = columns df.
Proof.
  revert df. induction l as [|c l IH]; intros df; cbn [fold_left]; [reflexivity|].
  rewrite IH. apply fill_column_columns.
Qed.

Lemma column_fill_other (df : DataFrame) (c col : string) :
  c <> col -> column (fill_column df c) col = column df col.
Proof.
  intros Hne. unfold fill_column. destruct (bool_decide _); [|reflexivity].
  unfold column. cbn [records]. rewrite <- list_fmap_compose.
  apply list_fmap_ext. intros i r _. cbn.
  unfold lookup at 1, row_lookup. cbn [set_cell metrics].
  apply lookup_insert_ne, Hne.
Qed.

Lemma column_fill_same (df : DataFrame) (col : string) :
  col ∈ columns df -> column (fill_column df col) col = fillna (column df col).
Proof.
  intros Hin. unfold fill_column. rewrite bool_decide_eq_true_2 by exact Hin.
  unfold column, fillna. cbn [records]. rewrite <- !list_fmap_compose.
  apply list_fmap_ext. intros i r _. cbn.
  unfold lookup at 1, row_lookup. cbn [set_cell metrics].
  apply lookup_insert_eq.
Qed.

Lemma column_fold_other (l : list string) (df : DataFrame) (col : string) :
  col ∉ l -> column (fold_left fill_column l df) col = column df col.
Proof.
  revert df. induction l as [|c l IH]; intros df Hnotin; cbn [fold_left]; [reflexivity|].
  apply not_elem_of_cons in Hnotin as [Hne Hnotin].
  rewrite (IH _ Hnotin). apply column_fill_other. congruence.
Qed.

Lemma column_fold_filled (l : list string) (df : DataFrame) (col : string) :
  NoDup l -> col ∈ l -> col ∈ columns df ->
  column (fold_left fill_column l df) col = fillna (column df col).
Proof.
  intros Hnd. revert df. induction Hnd as [|c l Hc Hnd IH]; intros df Hin Hcol.
  - inversion Hin.
  - cbn [fold_left]. apply elem_of_cons in Hin as [-> | Hin].
    + rewrite (column_fold_other l _ c Hc). apply column_fill_same, Hcol.
    + rewrite IH; [|exact Hin | rewrite fill_column_columns; exact Hcol].
      rewrite column_fill_other; [reflexivity|]. intros ->. contradiction.
Qed.

Lemma numeric_cols_NoDup : NoDup numeric_cols.
Proof. apply (bool_decide_unpack _). vm_compute. exact I. Qed.

Lemma normalize_fold_other (df : DataFrame) (l : list string) (acc : gmap string (list Q))
    (col : string) :
  col ∉ l -> fold_left (normalize_column df) l acc !! col = acc !! col.
Proof.
  revert acc. induction l as [|c l IH]; intros acc Hnotin; cbn [fold_left]; [reflexivity|].
  apply not_elem_of_cons in Hnotin as [Hne Hnotin].
  rewrite (IH _ Hnotin). unfold normalize_column.
  destruct (_ && _); [|reflexivity]. apply lookup_insert_ne. congruence.
Qed.

Lemma normalize_fold_column (df : DataFrame) (l : list string) (acc : gmap string (list Q))
    (col : string) :
  NoDup l -> col ∈ l -> col ∈ columns df -> dropna (column df col) <> [] ->
  fold_left (normalize_column df) l acc !! col
  = Some (normalize_series (column df col) (bool_decide (col ∈ inverse_metrics))).
Proof.
  intros Hnd. revert acc. induction Hnd as [|c l Hc Hnd IH]; intros acc Hin Hcol Hvals.
  - inversion Hin.
  - cbn [fold_left]. apply elem_of_cons in Hin as [-> | Hin].
    + rewrite (normalize_fold_other df l _ c Hc). unfold normalize_column.
      rewrite (bool_decide_eq_true_2 _ Hcol), (bool_decide_eq_true_2 _ Hvals). cbn [andb].
      apply lookup_insert_eq.
    + apply IH; assumption.
Qed.

Lemma normalize_frame_column (file : DataFrame) (col : string) :
  col ∈ numeric_cols -> col ∈ columns file -> records file <> [] ->
  normalize_frame (convert_numeric file) !! col
  = Some (normalize_series (fillna (column file col)) (bool_decide (col ∈ inverse_metrics))).
Proof.
  intros Hnum Hcol Hrows.
  assert (Hfilled : column (convert_numeric file) col = fillna (column file col)).
  { apply column_fold_filled; [apply numeric_cols_NoDup | exact Hnum | exact Hcol]. }
  unfold normalize_frame.
  rewrite (normalize_fold_column (convert_numeric file) numeric_cols ∅ col).
  - rewrite Hfilled. reflexivity.
  - apply numeric_cols_NoDup.
  - exact Hnum.
  - unfold convert_numeric. rewrite fold_fill_columns. exact Hcol.
  - rewrite Hfilled, dropna_fillna. unfold column.
    destruct (records file); [contradiction | discriminate].
Qed.

(** ** The endpoint *)

(** The ids of the six shipped philosophies. *)
Definition registered_ids : list string :=
  [ "buffett"; "lynch"; "growth"; "value"; "dividend"; "quality" ]%string.



Definition by_score : relation scored_row :=
  fun a b => composite_score b <= composite_score a.

#[local] Instance by_score_dec : RelDecision by_score.
Proof.
  intros a b. unfold by_score.
  destruct (Qlt_le_dec (composite_score a) (composite_score b)) as [Hlt | Hle].
  - right. apply Qlt_not_le, Hlt.
  - left. exact Hle.
Defined.

#[local] Instance by_score_total : Total by_score.
Proof.
  intros a b. unfold by_score.
  destruct (Qlt_le_dec (composite_score a) (composite_score b)); [right | left]; lra.
Qed.

#[local] Instance by_score_trans : Transitive by_score.
Proof. intros a b c. unfold by_score. lra. Qed.




(** ** Disqualified and surviving rows *)

Definition disqualified (fcfDQMode : string) (r : row) : Prop :=
  (should_disqualify r fcfDQMode).1 = true.

#[local] Instance disqualified_dec (fcfDQMode : string) (r : row) :
  Decision (disqualified fcfDQMode r).
Proof. unfold disqualified. apply _. Defined.

Lemma disqualified_of_filter (fcfDQMode : string) (df : list row) :
  disqualified_of fcfDQMode df
  = (fun r : row => (name r, (should_disqualify r fcfDQMode).2))
      <$> filter (disqualified fcfDQMode) df.
Proof.
  unfold disqualified_of.
  induction df as [|r df IH]; [reflexivity|].
  cbn [omap list_omap]. rewrite filter_cons.
  destruct (decide (disqualified fcfDQMode r)) as [Hdq | Hdq]; unfold disqualified in Hdq.
  - rewrite fmap_cons.
    destruct (should_disqualify r fcfDQMode) as [[] reason]; [|discriminate].
    cbn [snd]. f_equal. exact IH.
  - destruct (should_disqualify r fcfDQMode) as [[] reason]; [contradiction|].
    exact IH.
Qed.

Lemma indexed_lookup (df : list row) (i : nat) (r : row) :
  (i, r) ∈ imap (fun i r => (i, r)) df <-> df !! i = Some r.
Proof.
  rewrite elem_of_lookup_imap. split.
  - intros (j & x & Heq & Hj). inversion Heq; subst. exact Hj.
  - intros H. exists i, r. split; [reflexivity | exact H].
Qed.

Lemma surviving_spec (fcfDQMode : string) (df : list row) (i : nat) (r : row) :
  (i, r) ∈ surviving fcfDQMode df <->
  df !! i = Some r /\ (should_disqualify r fcfDQMode).1 = false.
Proof.
  unfold surviving. rewrite list_elem_of_filter, indexed_lookup. cbn [snd]. tauto.
Qed.




Lemma scored_frame_elem (file : DataFrame) (philosophy fcfDQMode : string) (s : scored_row) :
  s ∈ scored_frame file philosophy fcfDQMode ->
  records (convert_numeric file) !! idx s = Some (data s) /\
  (should_disqualify (data s) fcfDQMode).1 = false /\
  s = analyze_row (philosophy_weights philosophy) (normalize_frame (convert_numeric file))
        fcfDQMode (idx s) (data s).
Proof.
  unfold scored_frame. intros Hin.
  apply list_elem_of_fmap_1 in Hin as ([i r] & -> & Hin).
  apply surviving_spec in Hin as [Hi Hdq].
  split; [exact Hi | split; [exact Hdq | reflexivity]].
Qed.

(** The rows of a report come from the first 50 rows of the sorted frame. *)
Lemma rankings_lookup (sorted : list scored_row) (i : nat) (e : ranking) :
  imap to_ranking (take 50 sorted) !! i = Some e ->
  exists s, sorted !! i = Some s /\ (i < 50)%nat /\ e = to_ranking i s.
Proof.
  rewrite list_lookup_imap. intros H.
  destruct (take 50 sorted !! i) as [s|] eqn:Hs; [|discriminate].
  apply lookup_take_Some in Hs as [Hs Hlt].
  cbn in H. inversion H. eauto.
Qed.



Lemma rankings_scores (l : list scored_row) :
  compositeScore <$> imap to_ranking l = composite_score <$> l.
Proof.
  rewrite fmap_imap.
  rewrite (imap_ext _ (fun _ s => composite_score s)) by reflexivity.
  apply imap_const.
Qed.

(** What every returned report is made of. *)
Lemma returned_report (file : DataFrame) (philosophy fcfDQMode : string) (rep : report) :
  analyze_rankings file philosophy fcfDQMode (Return rep) ->
  exists sorted rec,
    sort_values_desc (scored_frame file philosophy fcfDQMode) sorted /\
    rep = make_report file philosophy fcfDQMode sorted rec.
Proof.
  intros H. inversion H; subst. eauto.
Qed.





Lemma rankings_surviving (file : DataFrame) (philosophy fcfDQMode : string)
    (sorted : list scored_row) (e : ranking) :
  scored_frame file philosophy fcfDQMode ≡ₚ sorted ->
  e ∈ imap to_ranking (take 50 sorted) ->
  exists r,
    records (convert_numeric file) !! frame_index e = Some r /\
    (should_disqualify r fcfDQMode).1 = false /\
    company e = name r /\
    compositeScore e
    = composite_score
        (analyze_row (philosophy_weights philosophy) (normalize_frame (convert_numeric file))
           fcfDQMode (frame_index e) r).
Proof.
  intros Hperm He. apply list_elem_of_lookup_1 in He as [i Hi].
  apply rankings_lookup in Hi as (s & Hs & _ & ->).
  assert (Hin : s ∈ scored_frame file philosophy fcfDQMode).
  { rewrite Hperm. eapply list_elem_of_lookup_2, Hs. }
  apply scored_frame_elem in Hin as (Hrow & Hdq & Heq).
  exists (data s). cbn [to_ranking frame_index company compositeScore].
  split; [exact Hrow|]. split; [exact Hdq|]. split; [reflexivity|].
  rewrite <- Heq. reflexivity.
Qed.


(** Whenever a report is returned, the disqualified rows are listed once each,
    in table order, with their reasons, and none of them is ranked. *)
Lemma disqualified_rows_reported (file : DataFrame) (philosophy fcfDQMode : string)
    (rep : report) :
  analyze_rankings file philosophy fcfDQMode (Return rep) ->
  disqualifiedCompanies rep
  = (fun r : row => (name r, (should_disqualify r fcfDQMode).2))
      <$> filter (disqualified fcfDQMode) (records (convert_numeric file)) /\
  disqualifiedCount rep
  = length (filter (disqualified fcfDQMode) (records (convert_numeric file))) /\
  (forall i r,
     records (convert_numeric file) !! i = Some r ->
     disqualified fcfDQMode r ->
     i ∉ frame_index <$> rankings rep).
Proof.
  intros H. apply returned_report in H as (sorted & rec & [Hperm Hsorted] & ->).
  cbn [make_report rankings disqualifiedCompanies disqualifiedCount].
  rewrite disqualified_of_filter. split; [reflexivity|].
  split; [rewrite length_fmap; reflexivity|].
  intros i r Hrow Hdq Hin.
  apply list_elem_of_fmap_1 in Hin as (e & -> & He).
  destruct (rankings_surviving file philosophy fcfDQMode sorted e Hperm He)
    as (r' & Hrow' & Hsurv & _).
  unfold disqualified in Hdq. congruence.
Qed.

End Engine.

(** * Concrete tables

    The mapping file is taken to be unavailable, in which case the source
    falls back to empty sets (ranking.py:106-109). *)

Definition company_row (n : string) (m : gmap string Q) : row :=
  {| name := n; symbol := n; metrics := m |}.

(** ** The gate on concrete rows *)

Definition mild_burner : row :=
  company_row "Acme Steel" {[ "fcf" := -50; "debt_equity" := 2.5 ]}.

Definition heavy_debtor : row :=
  company_row "Acme Steel" {[ "fcf" := -200; "debt_equity" := 3 ]}.

(** C5 as the specification words it: negative FCF and debt-to-equity above
    2.0 always end in the bankruptcy-risk disqualification. *)
Definition negative_fcf_high_debt_disqualifies : Prop :=
  forall (FS FN : gset string) (r : row) (fcf_dq_mode : string) (fcf de : Q),
    is_financials FS FN r = false ->
    r !! "fcf" = Some fcf ->
    r !! "debt_equity" = Some de ->
    fcf < 0 ->
    2.0 < de ->
    fcf_dq_mode = "financials_only_off" \/ fcf_dq_mode = "global_on" ->
    should_disqualify FS FN r fcf_dq_mode = (true, BankruptcyRisk).

(** C5 fails at FCF = -50, D/E = 2.5: the rule asks for FCF below -100, and
    the row passes the gate. *)
Lemma negative_fcf_high_debt_counterexample : ~ negative_fcf_high_debt_disqualifies.
Proof.
  intros H.
  specialize (H ∅ ∅ mild_burner "financials_only_off" (-50) 2.5).
  assert (Hpass : should_disqualify ∅ ∅ mild_burner "financials_only_off" = (false, NoReason))
    by (vm_compute; reflexivity).
  rewrite Hpass in H.
  assert (Habs : (false, NoReason) = (true, BankruptcyRisk)).
  { apply H; [vm_compute; reflexivity | reflexivity | reflexivity | lra | lra | left; reflexivity]. }
  discriminate Habs.
Qed.

Lemma fcf_debt_rule_disqualifies_witness :
  (is_financials ∅ ∅ heavy_debtor = false /\
   heavy_debtor !! "fcf" = Some (-200) /\
   heavy_debtor !! "debt_equity" = Some 3 /\
   -200 < -100 /\ 2.0 < 3) /\
  should_disqualify ∅ ∅ heavy_debtor "financials_only_off" = (true, BankruptcyRisk).
Proof.
  assert (Hfin : is_financials ∅ ∅ heavy_debtor = false) by (vm_compute; reflexivity).
  assert (Hfcf : heavy_debtor !! "fcf" = Some (-200)) by reflexivity.
  assert (Hde : heavy_debtor !! "debt_equity" = Some 3) by reflexivity.
  assert (Hlt : -200 < -100) by reflexivity.
  assert (Hgt : 2.0 < 3) by reflexivity.
  split; [repeat split; assumption|].
  apply (fcf_debt_rule_disqualifies ∅ ∅ heavy_debtor "financials_only_off" (-200) 3
           Hfin Hfcf Hde Hlt Hgt (or_introl eq_refl)).
  - discriminate.
  - reflexivity.
Defined.

(** ** The penalties on concrete rows *)

Definition lender : row := company_row "HDFC Bank" {[ "fcf" := -200 ]}.
Definition steel_maker : row := company_row "Tata Steel" {[ "fcf" := -200 ]}.

Lemma negative_fcf_penalty_by_sector_witness :
  (lender !! "fcf" = Some (-200) /\ -200 < 0 /\
   is_financials ∅ ∅ lender = true /\ is_financials ∅ ∅ steel_maker = false) /\
  calculate_risk_penalties ∅ ∅ lender "financials_only_off" !! "negative_fcf" = Some 0.10 /\
  exists p_fin p_ind,
    calculate_risk_penalties ∅ ∅ lender "financials_only_off" !! "negative_fcf" = Some p_fin /\
    calculate_risk_penalties ∅ ∅ steel_maker "financials_only_off" !! "negative_fcf"
    = Some p_ind /\
    p_fin < p_ind.
Proof.
  assert (Hfcf : lender !! "fcf" = Some (-200)) by reflexivity.
  assert (Hneg : -200 < 0) by reflexivity.
  assert (Hfin : is_financials ∅ ∅ lender = true) by (vm_compute; reflexivity).
  assert (Hind : is_financials ∅ ∅ steel_maker = false) by (vm_compute; reflexivity).
  split; [repeat split; assumption|].
  destruct (negative_fcf_penalty_by_sector ∅ ∅ lender "financials_only_off" (-200) Hfcf Hneg)
    as [_ Hlender].
  destruct (Hlender Hfin) as [Hvalue Hpair].
  split; [exact Hvalue|].
  exact (Hpair steel_maker eq_refl Hind).
Defined.

(** A row on which the penalties add up to more than the cap. *)
Definition troubled : row :=
  company_row "Acme Steel"
    {[ "fcf" := -200; "roe" := 4; "roce" := 6; "debt_equity" := 1.8; "pe_ratio" := 60 ]}.

Lemma penalty_cap_binds :
  0.6 < sum_values (calculate_risk_penalties ∅ ∅ troubled "financials_only_off") /\
  1 - py_min (sum_values (calculate_risk_penalties ∅ ∅ troubled "financials_only_off")) 0.6
  == 0.4.
Proof.
  split.
  - apply Qltb_lt. vm_compute. reflexivity.
  - apply Qeq_bool_iff. vm_compute. reflexivity.
Qed.

(** ** The normalizer against the specification's wording *)

Definition count_if (p : Q -> bool) (xs : list Q) : nat := length (List.filter p xs).

(** The mean rank of the group of values tied with [v], ranks counted from the
    worst value. *)
Definition average_rank (inverse : bool) (xs : list Q) (v : Q) : Q :=
  let worse := count_if (fun x => if inverse then x >? v else x <? v) xs in
  let tied := count_if (fun x => Qeq_bool x v) xs in
  Qnat worse + (Qnat tied + 1) / 2.

(** The normalization as the specification describes it: average-rank
    percentile of the present values, 0 for a missing value, 50 throughout a
    constant column. *)
Definition rank_percentile (vals : list (option Q)) (inverse : bool) : list Q :=
  let xs := dropna vals in
  let max_rank := fold_left py_max (average_rank inverse xs <$> xs) 0 in
  let constant := forallb (fun x => Qeq_bool x (default 0 (head xs))) xs in
  (fun cell =>
     match cell with
     | None => 0
     | Some v => if constant then 50 else average_rank inverse xs v / max_rank * 100
     end) <$> vals.

(** C2 as the specification words it. *)
Definition normalization_is_rank_percentile : Prop :=
  forall (vals : list (option Q)) (inverse : bool),
    Forall2 Qeq (normalize_series (fillna vals) inverse) (rank_percentile vals inverse).

Definition sample_column : list (option Q) := [Some 0; None; Some 1; Some 10].

Example sample_column_min_max :
  normalize_series (fillna sample_column) false = [0; 10.0; 10.0; 100].
Proof. vm_compute. reflexivity. Qed.

Example sample_column_rank_percentile :
  Forall2 Qeq (rank_percentile sample_column false) [100 # 3; 0; 200 # 3; 100].
Proof. repeat constructor. Qed.

(** C2 fails on the column 0, missing, 1, 10: the code scores it 0, 10, 10,
    100 (min-max scaling, the missing cell filled with the median 1), the
    rank percentile is 33.3, 0, 66.7, 100. *)
Lemma rank_percentile_counterexample : ~ normalization_is_rank_percentile.
Proof.
  intros H. specialize (H sample_column false).
  rewrite sample_column_min_max in H.
  apply Forall2_cons_1 in H as [H0 _].
  vm_compute in H0. discriminate H0.
Qed.

(** ** The endpoint on concrete tables *)



Definition two_traders : DataFrame :=
  {| columns := ["roe"; "fcf"];
     records := [ company_row "Alpha Traders" {[ "roe" := 20; "fcf" := 100 ]};
                  company_row "Beta Traders" {[ "roe" := 20; "fcf" := 100 ]} ] |}.

Definition two_traders_frame : list scored_row :=
  scored_frame ∅ ∅ two_traders "buffett" "financials_only_off".


Example two_traders_scores :
  (fun s => (idx s, composite_score s)) <$> two_traders_frame
  = [(0%nat, 31.5); (1%nat, 31.5)].
Proof. vm_compute. reflexivity. Qed.










(** A table whose only row makes a loss. *)
Definition loss_maker : row := company_row "Loss Maker Ltd" {[ "roe" := -5 ]}.

Definition loss_maker_table : DataFrame :=
  {| columns := ["roe"]; records := [loss_maker] |}.

(** C3 at a table all of whose rows are disqualified: the gate excludes the
    row, no row is left for the tier summary, whose percentage divides by the
    zero total, and the request ends in that error instead of a report with
    the row in its disqualified list. *)
Theorem all_rows_disqualified_no_report :
  should_disqualify ∅ ∅ loss_maker "financials_only_off" = (true, NegativeROE (-5)) /\
  records (convert_numeric loss_maker_table) = [loss_maker] /\
  analyze_rankings ∅ ∅ loss_maker_table "buffett" "financials_only_off"
    (Raise ZeroDivisionError) /\
  ~ exists rep,
      analyze_rankings ∅ ∅ loss_maker_table "buffett" "financials_only_off" (Return rep).
Proof.
  split; [vm_compute; reflexivity|].
  split; [vm_compute; reflexivity|].
  assert (Hnone : get_portfolio_recommendation
                    (tier_counts (scored_frame ∅ ∅ loss_maker_table "buffett"
                                    "financials_only_off")) = None)
    by (vm_compute; reflexivity).
  split.
  - eapply analyze_zero_division; [reflexivity | apply list_elem_of_here | exact Hnone].
  - intros [rep Hrep]. inversion Hrep; subst. congruence.
Qed.

(** The three companies of the specification's scenario. *)
Definition scenario : DataFrame :=
  {| columns := ["roe"; "roce"; "pe_ratio"; "fcf"; "debt_equity"];
     records :=
       [ company_row "Company 1"
           {[ "roe" := 25; "roce" := 22; "pe_ratio" := 18; "fcf" := 800; "debt_equity" := 0.3 ]};
         company_row "Company 2"
           {[ "roe" := 9; "roce" := 8; "pe_ratio" := 40; "fcf" := -600; "debt_equity" := 2.2 ]};
         company_row "Company 3"
           {[ "roe" := 16; "roce" := 17; "pe_ratio" := 30; "fcf" := 150; "debt_equity" := 0.8 ]} ] |}.

Example scenario_outcome :
  (fun s => (idx s, composite_score s, investment_tier s))
    <$> scored_frame ∅ ∅ scenario "buffett" "financials_only_off"
  = [(0%nat, 124.2, 1%nat); (2%nat, 55.0, 2%nat)] /\
  disqualified_of ∅ ∅ "financials_only_off" (records (convert_numeric scenario))
  = [("Company 2", MassiveCashBurn (-600))].
Proof. split; vm_compute; reflexivity. Qed.

(** * Further properties of the engine *)

Ltac order_facts :=
  repeat match goal with
  | H : (_ && _) = true |- _ => apply andb_true_iff in H; destruct H
  | H : (_ <? _) = true |- _ => apply Qltb_lt in H
  | H : (_ <? _) = false |- _ => apply Qltb_ge in H
  | H : (_ >? _) = true |- _ => apply Qgtb_gt in H
  | H : (_ >? _) = false |- _ => apply Qgtb_le in H
  | H : (_ <=? _) = true |- _ => apply Qleb_le in H
  | H : (_ <=? _) = false |- _ => apply Qleb_gt in H
  end.

Section Further.

Variable FS : gset string.
Variable FN : gset string.

(** ** The three multipliers *)

Lemma clamp_between (lo hi x : Q) : lo <= hi -> lo <= py_max lo (py_min hi x) <= hi.
Proof.
  intros H. split; [apply py_max_ge_l|].
  apply py_max_lub; [exact H | apply py_min_le_l].
Qed.

Lemma clamp_le (lo hi x c : Q) : lo <= c -> x <= c -> py_max lo (py_min hi x) <= c.
Proof.
  intros Hlo Hx. apply py_max_lub; [exact Hlo|].
  pose proof (py_min_le_r hi x). lra.
Qed.

Lemma clamp_ge (lo hi x c : Q) : c <= hi -> c <= x -> c <= py_max lo (py_min hi x).
Proof.
  intros Hhi Hx. pose proof (py_max_ge_r lo (py_min hi x)).
  pose proof (py_min_glb hi x c Hhi Hx). lra.
Qed.

Lemma Qnat_nonneg (n : nat) : 0 <= Qnat n.
Proof. apply (Qnat_ge 0 n). lia. Qed.

(** X1: The business-quality multiplier lies between 0.5 and 1.5, and only a ROE
    above 10 can lift it over 1. *)
Theorem quality_multiplier_range (r : row) :
  0.5 <= assess_quality_score r <= 1.5 /\
  (has r "roe" (fun roe => roe >? 10) = false -> assess_quality_score r <= 1).
Proof.
  unfold assess_quality_score. split; [apply clamp_between; lra|].
  intros Hroe. apply clamp_le; [lra|].
  generalize (count_true [has r "roe" (fun v => v <? 5);
                          has r "debt_equity" (fun v => v >? 2);
                          has r "fcf" (fun v => v <? -100)]).
  generalize (count_true [has r "roe" (fun v => (5 <=? v) && (v <? 12));
                          has r "peg" (fun v => v >? 2);
                          has r "debt_equity" (fun v => (1.0 <? v) && (v <=? 1.5))]).
  intros yellow red. pose proof (Qnat_nonneg yellow). pose proof (Qnat_nonneg red).
  unfold has in Hroe. destruct (r !! "roe") as [roe|]; [rewrite Hroe|]; lra.
Qed.

(** Decides an order fact between closed rationals. *)
Ltac closed_order :=
  repeat split;
  first [ apply Qle_bool_iff; vm_compute; reflexivity
        | apply Qltb_lt; vm_compute; reflexivity ].


(** A valuation step never lowers the score without adding a warning. *)
Definition warned_or_not_below (bound : Q) (sw : Q * list string) : Prop :=
  sw.2 = [] -> bound <= sw.1.

Lemma snoc_not_nil {A : Type} (l : list A) (x : A) : l ++ [x] <> [].
Proof. destruct l; discriminate. Qed.

Ltac valuation_step :=
  intros [score warnings] H; unfold warned_or_not_below in *;
  cbn [fst snd] in *;
  repeat case_match; cbn [fst snd]; intros Hnil;
  try (exfalso; exact (snoc_not_nil _ _ Hnil));
  specialize (H Hnil); lra.

Lemma val_peg_warns r bound sw :
  warned_or_not_below bound sw -> warned_or_not_below bound (val_peg r sw).
Proof. revert sw. unfold val_peg. valuation_step. Qed.

Lemma val_roe_warns r bound sw :
  warned_or_not_below bound sw -> warned_or_not_below bound (val_roe r sw).
Proof. revert sw. unfold val_roe. valuation_step. Qed.

Lemma val_fcf_yield_warns r bound sw :
  warned_or_not_below bound sw -> warned_or_not_below bound (val_fcf_yield r sw).
Proof. revert sw. unfold val_fcf_yield. valuation_step. Qed.

Lemma val_price_sales_warns r bound sw :
  warned_or_not_below bound sw -> warned_or_not_below bound (val_price_sales r sw).
Proof. revert sw. unfold val_price_sales. valuation_step. Qed.

(** X3: The valuation multiplier lies between 0.6 and 1.3, and it is below 1 only
    when the assessment carries a warning. *)
Theorem valuation_multiplier_range (r : row) :
  0.6 <= valuation_score (assess_valuation_reasonableness r) <= 1.3 /\
  (valuation_warnings (assess_valuation_reasonableness r) = [] ->
   1 <= valuation_score (assess_valuation_reasonableness r)).
Proof.
  unfold assess_valuation_reasonableness. cbn [valuation_score valuation_warnings].
  split; [apply clamp_between; lra|].
  intros Hnil. apply clamp_ge; [lra|].
  assert (H0 : warned_or_not_below 1 (1.0, [])) by (intros _; cbn; lra).
  apply (val_peg_warns r), (val_roe_warns r), (val_fcf_yield_warns r),
    (val_price_sales_warns r) in H0.
  exact (H0 Hnil).
Qed.

(** ** Penalty entries and their display labels (ranking.py:975-998) *)

Definition warning_map : list (string * string) :=
  [ ("negative_fcf", "⚠️ Negative Free Cash Flow");
    ("extreme_pe", "🚨 Extreme P/E Ratio (>100)");
    ("high_pe", "⚠️ High P/E Ratio (>50)");
    ("moderate_pe", "⚠️ Moderate P/E (25-50x)");
    ("high_debt", "🚨 High Debt/Equity (>1.5)");
    ("moderate_debt", "⚠️ Moderate Debt (>1.0)");
    ("low_roe", "⚠️ Low ROE (<10%)");
    ("moderate_roe", "⚠️ Moderate ROE (<12%)");
    ("very_low_roe", "🚨 Very Low ROE (<8%)");
    ("low_roce", "⚠️ Low ROCE (<12%)");
    ("moderate_roce", "⚠️ Moderate ROCE (<15%)");
    ("low_roe_negative_growth", "🚨 Low ROE + Negative Growth");
    ("low_roe_high_fcf", "⚠️ Low ROE despite High FCF");
    ("low_fcf_relative", "⚠️ Low FCF Relative to Size");
    ("multiple_red_flags", "🚨 Multiple Quality Concerns");
    ("high_peg", "⚠️ High PEG Ratio (>2)");
    ("extreme_volatility", "🚨 Extreme Volatility");
    ("high_volatility", "⚠️ High Volatility") ].

(** [warning_map.get(warning, warning)]. *)
Definition warning_label (warning : string) : string :=
  default warning (assoc warning warning_map).

Definition penalty_entry_ok (k : string) (v : Q) : Prop :=
  is_Some (assoc k warning_map) /\ 0 < v <= 0.5.

Definition entries_ok (p : gmap string Q) : Prop := map_Forall penalty_entry_ok p.

Lemma red_flags_length (is_fin : bool) (r : row) : (length (red_flags is_fin r) <= 4)%nat.
Proof.
  unfold red_flags. repeat case_match; cbn; lia.
Qed.

Ltac entry_ok :=
  split; [eexists; reflexivity | split; [reflexivity | closed_order]].

Ltac block_ok :=
  repeat case_match; try assumption;
  apply map_Forall_insert_2; try assumption; entry_ok.

Lemma penalties_entries_ok (r : row) (fcf_dq_mode : string) :
  entries_ok (calculate_risk_penalties FS FN r fcf_dq_mode).
Proof.
  unfold calculate_risk_penalties, entries_ok.
  assert (H0 : map_Forall penalty_entry_ok (∅ : gmap string Q)) by apply map_Forall_empty.
  revert H0. generalize (∅ : gmap string Q). generalize (is_financials FS FN r).
  intros is_fin p H.
  assert (H1 : map_Forall penalty_entry_ok (pen_negative_fcf is_fin r p))
    by (unfold pen_negative_fcf; block_ok).
  revert H1. generalize (pen_negative_fcf is_fin r p). clear p H. intros p H.
  assert (H1 : map_Forall penalty_entry_ok (pen_extreme_pe r p))
    by (unfold pen_extreme_pe; block_ok).
  revert H1. generalize (pen_extreme_pe r p). clear p H. intros p H.
  assert (H1 : map_Forall penalty_entry_ok (pen_debt is_fin r p))
    by (unfold pen_debt; block_ok).
  revert H1. generalize (pen_debt is_fin r p). clear p H. intros p H.
  assert (H1 : map_Forall penalty_entry_ok (pen_roe r p))
    by (unfold pen_roe; block_ok).
  revert H1. generalize (pen_roe r p). clear p H. intros p H.
  assert (H1 : map_Forall penalty_entry_ok (pen_roce r p))
    by (unfold pen_roce; block_ok).
  revert H1. generalize (pen_roce r p). clear p H. intros p H.
  assert (H1 : map_Forall penalty_entry_ok (pen_peg r p))
    by (unfold pen_peg; block_ok).
  revert H1. generalize (pen_peg r p). clear p H. intros p H.
  assert (H1 : map_Forall penalty_entry_ok (pen_low_roe_growth r p))
    by (unfold pen_low_roe_growth; block_ok).
  revert H1. generalize (pen_low_roe_growth r p). clear p H. intros p H.
  assert (H1 : map_Forall penalty_entry_ok (pen_low_fcf_relative is_fin r p))
    by (unfold pen_low_fcf_relative; block_ok).
  revert H1. generalize (pen_low_fcf_relative is_fin r p). clear p H. intros p H.
  assert (H1 : map_Forall penalty_entry_ok (pen_moderate_pe r p))
    by (unfold pen_moderate_pe; block_ok).
  revert H1. generalize (pen_moderate_pe r p). clear p H. intros p H.
  assert (H1 : map_Forall penalty_entry_ok (pen_multiple_red_flags is_fin r p)).
  { unfold pen_multiple_red_flags.
    destruct (2 <=? length (red_flags is_fin r))%nat eqn:E; [|assumption].
    apply map_Forall_insert_2; [|assumption].
    split; [eexists; reflexivity|].
    apply Nat.leb_le in E. apply Qnat_ge in E. change (Qnat 2) with 2 in E.
    pose proof (Qnat_ge _ _ (red_flags_length is_fin r)) as Hle.
    change (Qnat 4) with 4 in Hle. split; lra. }
  revert H1. generalize (pen_multiple_red_flags is_fin r p). clear p H. intros p H.
  unfold pen_volatility. block_ok.
Qed.

(** X4: Every penalty that [calculate_risk_penalties] returns has a display label
    in the response's [warning_map], and its amount lies in (0, 0.5]. *)
Theorem penalties_labelled_and_bounded (r : row) (fcf_dq_mode k : string) (v : Q) :
  calculate_risk_penalties FS FN r fcf_dq_mode !! k = Some v ->
  (exists label, assoc k warning_map = Some label /\ warning_label k = label) /\
  0 < v <= 0.5.
Proof.
  intros Hk. destruct (penalties_entries_ok r fcf_dq_mode k v Hk) as [[label Hl] Hv].
  split; [|exact Hv]. exists label. split; [exact Hl|].
  unfold warning_label. rewrite Hl. reflexivity.
Qed.

(** ** Reading one entry of the penalties *)

Ltac block_keeps :=
  unfold pen_negative_fcf, pen_extreme_pe, pen_debt, pen_roe, pen_roce, pen_peg,
    pen_low_roe_growth, pen_low_fcf_relative, pen_moderate_pe, pen_multiple_red_flags,
    pen_volatility;
  repeat case_match; rewrite ?lookup_insert_ne by discriminate; reflexivity.

(** Drops, around a lookup of the key [k], the blocks that never write [k]. *)
Ltac skip_blocks k :=
  repeat match goal with
  | |- context [pen_volatility ?r ?p !! k] =>
      replace (pen_volatility r p !! k) with (p !! k) by (symmetry; generalize p; intros ?; block_keeps)
  | |- context [pen_multiple_red_flags ?f ?r ?p !! k] =>
      replace (pen_multiple_red_flags f r p !! k) with (p !! k) by (symmetry; generalize p; intros ?; block_keeps)
  | |- context [pen_moderate_pe ?r ?p !! k] =>
      replace (pen_moderate_pe r p !! k) with (p !! k) by (symmetry; generalize p; intros ?; block_keeps)
  | |- context [pen_low_fcf_relative ?f ?r ?p !! k] =>
      replace (pen_low_fcf_relative f r p !! k) with (p !! k) by (symmetry; generalize p; intros ?; block_keeps)
  | |- context [pen_low_roe_growth ?r ?p !! k] =>
      replace (pen_low_roe_growth r p !! k) with (p !! k) by (symmetry; generalize p; intros ?; block_keeps)
  | |- context [pen_peg ?r ?p !! k] =>
      replace (pen_peg r p !! k) with (p !! k) by (symmetry; generalize p; intros ?; block_keeps)
  | |- context [pen_roce ?r ?p !! k] =>
      replace (pen_roce r p !! k) with (p !! k) by (symmetry; generalize p; intros ?; block_keeps)
  | |- context [pen_roe ?r ?p !! k] =>
      replace (pen_roe r p !! k) with (p !! k) by (symmetry; generalize p; intros ?; block_keeps)
  | |- context [pen_debt ?f ?r ?p !! k] =>
      replace (pen_debt f r p !! k) with (p !! k) by (symmetry; generalize p; intros ?; block_keeps)
  | |- context [pen_extreme_pe ?r ?p !! k] =>
      replace (pen_extreme_pe r p !! k) with (p !! k) by (symmetry; generalize p; intros ?; block_keeps)
  | |- context [pen_negative_fcf ?f ?r ?p !! k] =>
      replace (pen_negative_fcf f r p !! k) with (p !! k) by (symmetry; generalize p; intros ?; block_keeps)
  end.

Ltac read_entry k :=
  repeat case_match;
  rewrite ?lookup_insert_eq, ?lookup_insert_ne by discriminate;
  skip_blocks k; rewrite ?lookup_empty;
  try reflexivity; try discriminate.

Lemma extreme_pe_entry (r : row) (fcf_dq_mode : string) :
  calculate_risk_penalties FS FN r fcf_dq_mode !! "extreme_pe"
  = if has r "pe_ratio" (fun pe => pe >? 100) then Some 0.25 else None.
Proof.
  unfold calculate_risk_penalties. skip_blocks "extreme_pe".
  unfold pen_extreme_pe, has. read_entry "extreme_pe".
Qed.

Lemma high_pe_entry (r : row) (fcf_dq_mode : string) :
  calculate_risk_penalties FS FN r fcf_dq_mode !! "high_pe"
  = if has r "pe_ratio" (fun pe => negb (pe >? 100) && (pe >? 50)) then Some 0.15 else None.
Proof.
  unfold calculate_risk_penalties. skip_blocks "high_pe".
  unfold pen_extreme_pe, has. read_entry "high_pe".
Qed.

Lemma moderate_pe_entry (r : row) (fcf_dq_mode : string) :
  calculate_risk_penalties FS FN r fcf_dq_mode !! "moderate_pe"
  = if has r "pe_ratio" (fun pe => (25 <? pe) && (pe <=? 50)) then Some 0.05 else None.
Proof.
  unfold calculate_risk_penalties. skip_blocks "moderate_pe".
  unfold pen_moderate_pe. destruct (has r "pe_ratio" _); read_entry "moderate_pe".
Qed.

(** X5: The P/E penalties form one step function: none up to 25, [moderate_pe]
    0.05 up to 50, [high_pe] 0.15 up to 100, [extreme_pe] 0.25 above, and
    never two of them together, although two separate blocks write them. *)
Theorem pe_penalty_bands (r : row) (fcf_dq_mode : string) :
  let p := calculate_risk_penalties FS FN r fcf_dq_mode in
  (p !! "moderate_pe", p !! "high_pe", p !! "extreme_pe")
  = match r !! "pe_ratio" with
    | None => (None, None, None)
    | Some pe =>
        if pe >? 100 then (None, None, Some 0.25)
        else if pe >? 50 then (None, Some 0.15, None)
        else if pe >? 25 then (Some 0.05, None, None)
        else (None, None, None)
    end.
Proof.
  cbn zeta. rewrite extreme_pe_entry, high_pe_entry, moderate_pe_entry.
  unfold has. destruct (r !! "pe_ratio") as [pe|]; [|reflexivity].
  destruct (pe >? 100) eqn:E100; destruct (pe >? 50) eqn:E50;
    destruct (25 <? pe) eqn:E25; destruct (pe <=? 50) eqn:E50';
    destruct (pe >? 25) eqn:E25'; cbn; try reflexivity;
    exfalso; order_facts; lra.
Qed.

(** ** The penalty total *)

Lemma fold_plus_foldr (l : list Q) (acc : Q) :
  fold_left Qplus l acc == acc + foldr Qplus 0 l.
Proof.
  revert acc. induction l as [|x l IH]; intros acc; cbn [fold_left foldr].
  - lra.
  - rewrite IH. lra.
Qed.

Lemma py_sum_Permutation (l l' : list Q) : l ≡ₚ l' -> py_sum l == py_sum l'.
Proof.
  intros H. unfold py_sum. rewrite !fold_plus_foldr.
  induction H as [|x l l' _ IH|x y l|l l' l'' _ IH _ IH']; cbn [foldr].
  - reflexivity.
  - lra.
  - lra.
  - lra.
Qed.

Lemma sum_values_lookup (p : gmap string Q) (k : string) (v : Q) :
  p !! k = Some v -> sum_values p == v + sum_values (delete k p).
Proof.
  intros Hk. unfold sum_values.
  rewrite (py_sum_Permutation _ (v :: (map_to_list (delete k p)).*2)).
  - unfold py_sum. cbn [fold_left]. rewrite !fold_plus_foldr. lra.
  - apply (fmap_Permutation snd (map_to_list p) ((k, v) :: map_to_list (delete k p))).
    symmetry. apply map_to_list_delete, Hk.
Qed.

Lemma positive_values_delete (p : gmap string Q) (k : string) :
  positive_values p -> positive_values (delete k p).
Proof.
  intros H i x Hi. apply lookup_delete_Some in Hi as [_ Hi]. exact (H i x Hi).
Qed.

(** Three entries under different keys are a lower bound of the total. *)
Lemma sum_values_three (p : gmap string Q) (k1 k2 k3 : string) (v1 v2 v3 : Q) :
  positive_values p ->
  k1 <> k2 -> k1 <> k3 -> k2 <> k3 ->
  p !! k1 = Some v1 -> p !! k2 = Some v2 -> p !! k3 = Some v3 ->
  v1 + v2 + v3 <= sum_values p.
Proof.
  intros Hpos H12 H13 H23 H1 H2 H3.
  rewrite (sum_values_lookup p k1 v1 H1).
  rewrite (sum_values_lookup (delete k1 p) k2 v2)
    by (rewrite lookup_delete_ne by exact H12; exact H2).
  rewrite (sum_values_lookup (delete k2 (delete k1 p)) k3 v3)
    by (rewrite !lookup_delete_ne by congruence; exact H3).
  pose proof (sum_values_nonneg (delete k3 (delete k2 (delete k1 p)))) as Hrest.
  assert (0 <= sum_values (delete k3 (delete k2 (delete k1 p)))).
  { apply Hrest. repeat apply positive_values_delete. exact Hpos. }
  lra.
Qed.

Lemma very_low_roe_entry (r : row) (fcf_dq_mode : string) :
  calculate_risk_penalties FS FN r fcf_dq_mode !! "very_low_roe"
  = if has r "roe" (fun roe => roe <? 8) then Some 0.30 else None.
Proof.
  unfold calculate_risk_penalties. skip_blocks "very_low_roe".
  unfold pen_roe, has. read_entry "very_low_roe".
Qed.

Lemma multiple_red_flags_entry (r : row) (fcf_dq_mode : string) :
  calculate_risk_penalties FS FN r fcf_dq_mode !! "multiple_red_flags"
  = if (2 <=? length (red_flags (is_financials FS FN r) r))%nat
    then Some (0.10 * Qnat (length (red_flags (is_financials FS FN r) r)))
    else None.
Proof.
  unfold calculate_risk_penalties. skip_blocks "multiple_red_flags".
  unfold pen_multiple_red_flags.
  destruct (2 <=? length (red_flags (is_financials FS FN r) r))%nat;
    read_entry "multiple_red_flags".
Qed.

Lemma low_roe_growth_entries (r : row) (fcf_dq_mode : string) (roe fcf growth : Q) :
  r !! "roe" = Some roe -> r !! "fcf" = Some fcf -> r !! "profit_growth_3yr" = Some growth ->
  roe < 8 -> growth < 0 ->
  let p := calculate_risk_penalties FS FN r fcf_dq_mode in
  if (fcf >? 1000) && (get r "debt_equity" 1.0 <? 0.3)
  then p !! "low_roe_high_fcf" = Some 0.20
  else p !! "low_roe_negative_growth" = Some 0.50.
Proof.
  intros Hroe Hfcf Hgrowth Hlow Hneg. cbn zeta.
  destruct ((fcf >? 1000) && (get r "debt_equity" 1.0 <? 0.3)) eqn:E.
  - unfold calculate_risk_penalties. skip_blocks "low_roe_high_fcf".
    unfold pen_low_roe_growth. rewrite Hroe, Hfcf, Hgrowth.
    rewrite (Qltb_of_lt _ _ Hlow), (Qltb_of_lt _ _ Hneg), E. cbn [andb].
    apply lookup_insert_eq.
  - unfold calculate_risk_penalties. skip_blocks "low_roe_negative_growth".
    unfold pen_low_roe_growth. rewrite Hroe, Hfcf, Hgrowth.
    rewrite (Qltb_of_lt _ _ Hlow), (Qltb_of_lt _ _ Hneg), E. cbn [andb].
    apply lookup_insert_eq.
Qed.

Lemma low_roe_shrinking_flags (is_fin : bool) (r : row) (roe growth : Q) :
  r !! "roe" = Some roe -> r !! "profit_growth_3yr" = Some growth ->
  roe < 8 -> growth < 0 ->
  (2 <= length (red_flags is_fin r))%nat.
Proof.
  intros Hroe Hgrowth Hlow Hneg. unfold red_flags, get. rewrite Hroe, Hgrowth.
  cbn [default from_option id].
  rewrite (Qltb_of_lt roe 10) by lra. rewrite (Qltb_of_lt _ _ Hneg).
  repeat case_match; cbn; lia.
Qed.

(** X6: A row with ROE below 8 and shrinking profit (and an FCF figure) always
    reaches the penalty cap: the very-low-ROE penalty, the low-ROE-with-growth
    penalty in either of its two amounts, and the compound penalty add up to
    0.7 or more, so the score is multiplied by 0.4 whether or not the
    fortress-balance-sheet exception applies. *)
Theorem low_roe_shrinking_hits_cap (r : row) (fcf_dq_mode : string) (roe fcf growth : Q) :
  r !! "roe" = Some roe ->
  r !! "fcf" = Some fcf ->
  r !! "profit_growth_3yr" = Some growth ->
  roe < 8 ->
  growth < 0 ->
  0.7 <= sum_values (calculate_risk_penalties FS FN r fcf_dq_mode) /\
  1 - py_min (sum_values (calculate_risk_penalties FS FN r fcf_dq_mode)) 0.6 == 0.4.
Proof.
  intros Hroe Hfcf Hgrowth Hlow Hneg.
  set (p := calculate_risk_penalties FS FN r fcf_dq_mode).
  assert (Hpos : positive_values p) by apply penalties_positive.
  assert (H1 : p !! "very_low_roe" = Some 0.30).
  { unfold p. rewrite very_low_roe_entry. unfold has. rewrite Hroe, (Qltb_of_lt _ _ Hlow).
    reflexivity. }
  pose proof (low_roe_shrinking_flags (is_financials FS FN r) r roe growth
                Hroe Hgrowth Hlow Hneg) as Hflags.
  assert (H2 : p !! "multiple_red_flags"
               = Some (0.10 * Qnat (length (red_flags (is_financials FS FN r) r)))).
  { unfold p. rewrite multiple_red_flags_entry.
    rewrite (proj2 (Nat.leb_le _ _) Hflags). reflexivity. }
  apply Qnat_ge in Hflags. change (Qnat 2) with 2 in Hflags.
  pose proof (low_roe_growth_entries r fcf_dq_mode roe fcf growth
                Hroe Hfcf Hgrowth Hlow Hneg) as H3. cbn zeta in H3. fold p in H3.
  assert (Htotal : 0.7 <= sum_values p).
  { destruct ((fcf >? 1000) && (get r "debt_equity" 1.0 <? 0.3)).
    - pose proof (sum_values_three p "very_low_roe" "multiple_red_flags" "low_roe_high_fcf"
                    _ _ _ Hpos ltac:(discriminate) ltac:(discriminate) ltac:(discriminate)
                    H1 H2 H3). lra.
    - pose proof (sum_values_three p "very_low_roe" "multiple_red_flags"
                    "low_roe_negative_growth"
                    _ _ _ Hpos ltac:(discriminate) ltac:(discriminate) ltac:(discriminate)
                    H1 H2 H3). lra. }
  split; [exact Htotal|].
  unfold py_min. destruct (0.6 <? sum_values p) eqn:E; [lra|].
  order_facts. lra.
Qed.

(** ** The verdict of the gate *)

(** The rules that apply to every row, and the FCF-based rules that the mode
    switches on or off. *)
Definition always_disqualified (r : row) : bool :=
  has r "pe_ratio" (fun pe => pe >? 100)
  || has r "roe" (fun roe => roe <? 0)
  || match r !! "return_1yr", r !! "fcf", r !! "roe" with
     | Some ret, Some fcf, Some roe => (Qabs ret >? 2000) && (fcf <? 0) && (roe <? 15)
     | _, _, _ => false
     end.

Definition fcf_disqualified (r : row) : bool :=
  has r "fcf" (fun fcf => fcf <? -500)
  || match r !! "fcf", r !! "debt_equity" with
     | Some fcf, Some de => (fcf <? -100) && (de >? 2.0)
     | _, _ => false
     end
  || match r !! "fcf", r !! "market_cap" with
     | Some fcf, Some market_cap =>
         (0 <? fcf) && (fcf <? 10) && (market_cap >? 1000)
         && ((fcf / market_cap) * 100 <? 0.5)
     | _, _ => false
     end.

Lemma first_match_is_Some {A : Type} (rules : list (option A)) :
  is_Some (first_match rules) <-> Exists is_Some rules.
Proof.
  induction rules as [|[a|] rules IH]; cbn [first_match].
  - split; [intros [? ?]; discriminate | intros H; inversion H].
  - split; [intros _; left; eauto | eauto].
  - rewrite IH. split; [intros H; right; exact H|].
    intros H. inversion H as [? ? [? ?]|]; subst; [discriminate | assumption].
Qed.

Lemma verdict_flag (r : row) (fcf_dq_mode : string) :
  (should_disqualify FS FN r fcf_dq_mode).1
  = bool_decide (is_Some (first_match
      [ dq_massive_burn (fcf_dq_applies (is_financials FS FN r) fcf_dq_mode) r;
        dq_extreme_pe r; dq_absurd_pe r;
        dq_fcf_debt (fcf_dq_applies (is_financials FS FN r) fcf_dq_mode) r;
        dq_negative_roe r;
        dq_minimal_fcf (fcf_dq_applies (is_financials FS FN r) fcf_dq_mode) r;
        dq_volatility r ])).
Proof.
  unfold should_disqualify.
  destruct (first_match _) as [reason|]; cbn [fst].
  - symmetry. apply bool_decide_eq_true_2. eauto.
  - symmetry. apply bool_decide_eq_false_2. intros [? ?]. discriminate.
Qed.

Definition fires {A : Type} (o : option A) : bool :=
  match o with Some _ => true | None => false end.

Lemma first_match_fires {A : Type} (rules : list (option A)) :
  bool_decide (is_Some (first_match rules)) = existsb fires rules.
Proof.
  induction rules as [|[a|] rules IH]; cbn [first_match existsb fires orb].
  - apply bool_decide_eq_false_2. intros [? ?]. discriminate.
  - apply bool_decide_eq_true_2. eauto.
  - exact IH.
Qed.

Lemma massive_burn_fires (gate : bool) (r : row) :
  fires (dq_massive_burn gate r) = has r "fcf" (fun fcf => fcf <? -500) && gate.
Proof.
  unfold dq_massive_burn, has. destruct (r !! "fcf") as [fcf|]; [|reflexivity].
  destruct ((fcf <? -500) && gate) eqn:E; [reflexivity|].
  destruct (fcf <? -500), gate; cbn in *; congruence.
Qed.

Lemma extreme_pe_fires (r : row) :
  fires (dq_extreme_pe r) = has r "pe_ratio" (fun pe => pe >? 100).
Proof.
  unfold dq_extreme_pe, has. destruct (r !! "pe_ratio") as [pe|]; [|reflexivity].
  destruct (pe >? 100); reflexivity.
Qed.

Lemma absurd_pe_fires (r : row) :
  fires (dq_absurd_pe r) = true -> fires (dq_extreme_pe r) = true.
Proof.
  destruct (dq_extreme_pe r) eqn:E; [reflexivity|].
  rewrite (extreme_pe_shadows_absurd_pe r E). discriminate.
Qed.

Lemma fcf_debt_fires (gate : bool) (r : row) :
  fires (dq_fcf_debt gate r)
  = match r !! "fcf", r !! "debt_equity" with
    | Some fcf, Some de => (fcf <? -100) && (de >? 2.0)
    | _, _ => false
    end && gate.
Proof.
  unfold dq_fcf_debt.
  destruct (r !! "fcf") as [fcf|]; [|reflexivity].
  destruct (r !! "debt_equity") as [de|]; [|reflexivity].
  destruct ((fcf <? -100) && (de >? 2.0) && gate); reflexivity.
Qed.

Lemma negative_roe_fires (r : row) :
  fires (dq_negative_roe r) = has r "roe" (fun roe => roe <? 0).
Proof.
  unfold dq_negative_roe, has. destruct (r !! "roe") as [roe|]; [|reflexivity].
  destruct (roe <? 0); reflexivity.
Qed.

Lemma minimal_fcf_fires (gate : bool) (r : row) :
  fires (dq_minimal_fcf gate r)
  = match r !! "fcf", r !! "market_cap" with
    | Some fcf, Some market_cap =>
        (0 <? fcf) && (fcf <? 10) && (market_cap >? 1000)
        && ((fcf / market_cap) * 100 <? 0.5)
    | _, _ => false
    end && gate.
Proof.
  unfold dq_minimal_fcf.
  destruct (r !! "fcf") as [fcf|]; [|reflexivity].
  destruct (r !! "market_cap") as [cap|]; [|reflexivity].
  destruct ((0 <? fcf) && (fcf <? 10) && (cap >? 1000)); [|reflexivity].
  cbn [andb].
  destruct (fcf / cap * 100 <? 0.5), gate; reflexivity.
Qed.

Lemma volatility_fires (r : row) :
  fires (dq_volatility r)
  = match r !! "return_1yr", r !! "fcf", r !! "roe" with
    | Some ret, Some fcf, Some roe => (Qabs ret >? 2000) && (fcf <? 0) && (roe <? 15)
    | _, _, _ => false
    end.
Proof.
  unfold dq_volatility.
  destruct (r !! "return_1yr") as [ret|]; [|reflexivity].
  destruct (r !! "fcf") as [fcf|]; [|reflexivity].
  destruct (r !! "roe") as [roe|]; [|reflexivity].
  destruct ((Qabs ret >? 2000) && (fcf <? 0) && (roe <? 15)); reflexivity.
Qed.

Lemma gate_rules (gate : bool) (r : row) :
  bool_decide (is_Some (first_match
      [ dq_massive_burn gate r; dq_extreme_pe r; dq_absurd_pe r; dq_fcf_debt gate r;
        dq_negative_roe r; dq_minimal_fcf gate r; dq_volatility r ]))
  = always_disqualified r || (gate && fcf_disqualified r).
Proof.
  rewrite first_match_fires. cbn [existsb].
  pose proof (absurd_pe_fires r) as Habsurd.
  rewrite massive_burn_fires, fcf_debt_fires, negative_roe_fires, minimal_fcf_fires,
    volatility_fires.
  rewrite extreme_pe_fires in *.
  unfold always_disqualified, fcf_disqualified.
  generalize dependent (fires (dq_absurd_pe r)).
  generalize (has r "pe_ratio" (fun pe => pe >? 100)).
  generalize (has r "roe" (fun roe => roe <? 0)).
  generalize (has r "fcf" (fun fcf => fcf <? -500)).
  generalize (match r !! "return_1yr", r !! "fcf", r !! "roe" with
              | Some ret, Some fcf, Some roe =>
                  (Qabs ret >? 2000) && (fcf <? 0) && (roe <? 15)
              | _, _, _ => false
              end).
  generalize (match r !! "fcf", r !! "debt_equity" with
              | Some fcf, Some de => (fcf <? -100) && (de >? 2.0)
              | _, _ => false
              end).
  generalize (match r !! "fcf", r !! "market_cap" with
              | Some fcf, Some market_cap =>
                  (0 <? fcf) && (fcf <? 10) && (market_cap >? 1000)
                  && ((fcf / market_cap) * 100 <? 0.5)
              | _, _ => false
              end).
  intros b_min b_debt b_vol b_burn b_roe b_pe b_absurd Habsurd.
  destruct b_absurd; [rewrite (Habsurd eq_refl)|];
    destruct gate, b_min, b_debt, b_vol, b_burn, b_roe, b_pe; reflexivity.
Qed.

Lemma verdict_equation (r : row) (fcf_dq_mode : string) :
  (should_disqualify FS FN r fcf_dq_mode).1
  = always_disqualified r
    || (fcf_dq_applies (is_financials FS FN r) fcf_dq_mode && fcf_disqualified r).
Proof. rewrite verdict_flag. apply gate_rules. Qed.

(** X7: The verdict does not depend on the order of the rules: a row is
    disqualified exactly when a rule that applies to every row fires, or the
    mode lets the FCF rules apply to the row and one of them fires.  So a row
    disqualified under [global_off] is disqualified under
    [financials_only_off], and one disqualified there is disqualified under
    [global_on]. *)
Theorem verdict_by_rules (r : row) (fcf_dq_mode : string) :
  (should_disqualify FS FN r fcf_dq_mode).1
  = always_disqualified r
    || (fcf_dq_applies (is_financials FS FN r) fcf_dq_mode && fcf_disqualified r) /\
  ((should_disqualify FS FN r "global_off").1 = true ->
   (should_disqualify FS FN r "financials_only_off").1 = true) /\
  ((should_disqualify FS FN r "financials_only_off").1 = true ->
   (should_disqualify FS FN r "global_on").1 = true).
Proof.
  split; [apply verdict_equation|]. rewrite !verdict_equation. unfold fcf_dq_applies.
  destruct (always_disqualified r), (fcf_disqualified r), (is_financials FS FN r);
    cbn; auto.
Qed.

Definition fcf_based (reason : dq_reason) : bool :=
  match reason with
  | MassiveCashBurn _ | BankruptcyRisk | MinimalFCF _ _ => true
  | _ => false
  end.

Lemma fcf_dq_applies_true (is_fin : bool) (fcf_dq_mode : string) :
  fcf_dq_applies is_fin fcf_dq_mode = true ->
  fcf_dq_mode = "global_on" \/ (fcf_dq_mode = "financials_only_off" /\ is_fin = false).
Proof.
  unfold fcf_dq_applies.
  destruct (String.eqb fcf_dq_mode "global_on") eqn:Eon.
  { apply String.eqb_eq in Eon. auto. }
  destruct (String.eqb fcf_dq_mode "financials_only_off") eqn:Efo.
  - apply String.eqb_eq in Efo. destruct is_fin; cbn; [discriminate | auto].
  - destruct is_fin; discriminate.
Qed.

Lemma fires_None {A : Type} (o : option A) : fires o = false -> o = None.
Proof. destruct o; [discriminate | reflexivity]. Qed.

(** X8: A cash-flow reason (massive cash burn, negative FCF with high debt,
    minimal FCF) is given only under [global_on], or under
    [financials_only_off] to a row that is not detected as financial; under
    [global_off], and under any other mode string, it never is. *)
Theorem fcf_reasons_follow_mode (r : row) (fcf_dq_mode : string) :
  fcf_based (should_disqualify FS FN r fcf_dq_mode).2 = true ->
  fcf_dq_mode = "global_on" \/
  (fcf_dq_mode = "financials_only_off" /\ is_financials FS FN r = false).
Proof.
  intros H. apply fcf_dq_applies_true.
  destruct (fcf_dq_applies (is_financials FS FN r) fcf_dq_mode) eqn:Egate; [reflexivity|].
  exfalso. unfold should_disqualify in H. rewrite Egate in H. cbn [first_match] in H.
  rewrite (fires_None _ (eq_trans (massive_burn_fires false r) (andb_false_r _))) in H.
  rewrite (fires_None _ (eq_trans (fcf_debt_fires false r) (andb_false_r _))) in H.
  rewrite (fires_None _ (eq_trans (minimal_fcf_fires false r) (andb_false_r _))) in H.
  destruct (dq_extreme_pe r) as [x|] eqn:E2.
  { apply extreme_pe_reason in E2 as [? ->]. discriminate. }
  rewrite (extreme_pe_shadows_absurd_pe r E2) in H.
  destruct (dq_negative_roe r) as [x|] eqn:E5.
  { apply negative_roe_reason in E5 as [? ->]. discriminate. }
  destruct (dq_volatility r) as [x|] eqn:E7.
  { apply volatility_reason in E7 as ->. discriminate. }
  discriminate.
Qed.

(** ** What a ranked row cannot be *)



(** ** Tiers and the portfolio summary *)

Lemma tier_of_cases (r : row) :
  (tier1_criteria r /\ tier_of r = 1%nat) \/
  (~ tier1_criteria r /\ tier2_criteria r /\ tier_of r = 2%nat) \/
  (~ tier1_criteria r /\ ~ tier2_criteria r /\ tier3_criteria r /\ tier_of r = 3%nat) \/
  (~ tier1_criteria r /\ ~ tier2_criteria r /\ ~ tier3_criteria r /\ tier_of r = 4%nat).
Proof.
  pose proof (tier1_test r) as H1.
  pose proof (tier2_test r) as H2.
  pose proof (tier3_test r) as H3.
  unfold tier_of, classify_investment_tier.
  destruct ((get r "roe" 0 >? 20) && _ && _ && _ && _) eqn:E1.
  { left. split; [apply H1; reflexivity | reflexivity]. }
  right. assert (~ tier1_criteria r) by (rewrite <- H1; discriminate).
  destruct ((get r "roe" 0 >? 15) && _ && _ && _ && _) eqn:E2.
  { left. split; [assumption|]. split; [apply H2; reflexivity | reflexivity]. }
  right. assert (~ tier2_criteria r) by (rewrite <- H2; discriminate).
  destruct (((get r "roe" 0 >? 12) || _) && _) eqn:E3.
  { left. split; [assumption|]. split; [assumption|].
    split; [apply H3; reflexivity | reflexivity]. }
  right. assert (~ tier3_criteria r) by (rewrite <- H3; discriminate).
  split; [assumption|]. split; [assumption|]. split; [assumption | reflexivity].
Qed.

(** X10: The tier criteria are nested (Tier 1 implies Tier 2 implies Tier 3), so
    a row is in Tier n or better exactly when it meets the criteria of Tier n,
    and the tier is always one of 1 to 4. *)
Theorem tier_criteria_nested (r : row) :
  (tier1_criteria r -> tier2_criteria r) /\
  (tier2_criteria r -> tier3_criteria r) /\
  ((tier_of r <= 2)%nat <-> tier2_criteria r) /\
  ((tier_of r <= 3)%nat <-> tier3_criteria r) /\
  (1 <= tier_of r <= 4)%nat.
Proof.
  assert (H12 : tier1_criteria r -> tier2_criteria r).
  { unfold tier1_criteria, tier2_criteria. intros (? & ? & ? & ? & ?). repeat split; lra. }
  assert (H23 : tier2_criteria r -> tier3_criteria r).
  { unfold tier2_criteria, tier3_criteria. intros (? & ? & ? & ? & ?).
    split; [left; lra | lra]. }
  pose proof (tier_of_cases r) as Hcases. revert H12 H23 Hcases.
  generalize (tier1_criteria r) (tier2_criteria r) (tier3_criteria r) (tier_of r).
  intros T1 T2 T3 t H12 H23 Hcases.
  destruct Hcases as [[? ->] | [(? & ? & ->) | [(? & ? & ? & ->) | (? & ? & ? & ->)]]];
    intuition lia.
Qed.

(** X11: Missing metrics and the tier: a row without a debt-to-equity figure is
    always Tier 4, and a row without a P/E is never better than Tier 3. *)
Theorem tier_of_incomplete_row (r : row) :
  (r !! "debt_equity" = None -> tier_of r = 4%nat) /\
  (r !! "pe_ratio" = None -> (3 <= tier_of r)%nat).
Proof.
  split.
  - intros Hde.
    assert (Hget : get r "debt_equity" 999 = 999) by (unfold get; rewrite Hde; reflexivity).
    destruct (tier_of_cases r) as [[H _] | [(_ & H & _) | [(_ & _ & H & _) | (_ & _ & _ & H)]]];
      [| | |exact H]; exfalso.
    + unfold tier1_criteria in H. rewrite Hget in H. lra.
    + unfold tier2_criteria in H. rewrite Hget in H. lra.
    + unfold tier3_criteria in H. rewrite Hget in H. lra.
  - intros Hpe.
    assert (Hget : get r "pe_ratio" 999 = 999) by (unfold get; rewrite Hpe; reflexivity).
    destruct (tier_of_cases r) as [[H _] | [(_ & H & _) | [(_ & _ & _ & ->) | (_ & _ & _ & ->)]]];
      [| |lia|lia]; exfalso.
    + unfold tier1_criteria in H. rewrite Hget in H. lra.
    + unfold tier2_criteria in H. rewrite Hget in H. lra.
Qed.






(** ** Every row is accounted for *)

#[local] Existing Instance disqualified_dec.

Lemma fill_column_length (df : DataFrame) (c : string) :
  length (records (fill_column df c)) = length (records df).
Proof.
  unfold fill_column. destruct (bool_decide _); [|reflexivity].
  cbn [records]. apply length_fmap.
Qed.

Lemma convert_numeric_length (file : DataFrame) :
  length (records (convert_numeric file)) = length (records file).
Proof.
  unfold convert_numeric. generalize numeric_cols. intros l. revert file.
  induction l as [|c l IH]; intros file; cbn [fold_left]; [reflexivity|].
  rewrite IH. apply fill_column_length.
Qed.





(** ** Filling and the extremes of a column *)

Lemma fold_min_attained (l : list Q) (a : Q) : fold_left py_min l a ∈ a :: l.
Proof.
  revert a. induction l as [|x l IH]; intros a; cbn [fold_left]; [left|].
  specialize (IH (py_min a x)). apply elem_of_cons in IH as [-> | IH].
  - unfold py_min. destruct (x <? a); [right; left | left].
  - right. right. exact IH.
Qed.

Lemma fold_max_attained (l : list Q) (a : Q) : fold_left py_max l a ∈ a :: l.
Proof.
  revert a. induction l as [|x l IH]; intros a; cbn [fold_left]; [left|].
  specialize (IH (py_max a x)). apply elem_of_cons in IH as [-> | IH].
  - unfold py_max. destruct (x >? a); [right; left | left].
  - right. right. exact IH.
Qed.

Lemma series_min_attained (vals : list (option Q)) :
  dropna vals <> [] -> series_min vals ∈ dropna vals.
Proof.
  unfold series_min. destruct (dropna vals) as [|x t]; [congruence|].
  intros _. apply fold_min_attained.
Qed.

Lemma series_max_attained (vals : list (option Q)) :
  dropna vals <> [] -> series_max vals ∈ dropna vals.
Proof.
  unfold series_max. destruct (dropna vals) as [|x t]; [congruence|].
  intros _. apply fold_max_attained.
Qed.

Lemma series_min_glb (vals : list (option Q)) (c : Q) :
  dropna vals <> [] -> (forall v, v ∈ dropna vals -> c <= v) -> c <= series_min vals.
Proof.
  intros Hne H. apply H, series_min_attained, Hne.
Qed.

Lemma series_max_lub (vals : list (option Q)) (c : Q) :
  dropna vals <> [] -> (forall v, v ∈ dropna vals -> v <= c) -> series_max vals <= c.
Proof.
  intros Hne H. apply H, series_max_attained, Hne.
Qed.

Lemma median_between (vals : list (option Q)) :
  dropna vals <> [] -> series_min vals <= median vals <= series_max vals.
Proof.
  intros Hne. unfold median.
  assert (Hs : forall i v, sorted_values (dropna vals) !! i = Some v ->
                           series_min vals <= v <= series_max vals).
  { intros i v Hi.
    assert (Hv : v ∈ dropna vals)
      by (apply sorted_values_elem; eapply list_elem_of_lookup_2, Hi).
    split; [apply series_min_le | apply series_max_ge]; exact Hv. }
  assert (Hlen : (0 < length (sorted_values (dropna vals)))%nat).
  { rewrite sorted_values_length. destruct (dropna vals); [congruence | cbn; lia]. }
  set (s := sorted_values (dropna vals)) in *.
  set (n := length s) in *.
  assert (Hmid : (n / 2 < n)%nat) by (apply Nat.div_lt; lia).
  destruct (lookup_lt_is_Some_2 s (n / 2)%nat Hmid) as [m Hm].
  rewrite Hm. unfold default, from_option, id.
  destruct (Nat.even n).
  - assert (Hprev : (n / 2 - 1 < n)%nat) by lia.
    destruct (lookup_lt_is_Some_2 s (n / 2 - 1)%nat Hprev) as [m' Hm'].
    rewrite Hm'. pose proof (Hs _ _ Hm). pose proof (Hs _ _ Hm').
    unfold Qdiv. change (/ 2) with (1 # 2). split; lra.
  - exact (Hs _ _ Hm).
Qed.

Lemma fill_value_between (vals : list (option Q)) :
  dropna vals <> [] -> series_min vals <= fill_value vals <= series_max vals.
Proof.
  intros Hne. unfold fill_value.
  destruct (dropna vals) eqn:E; [congruence|]. rewrite <- E in Hne.
  apply median_between, Hne.
Qed.

Lemma present_stays (vals : list (option Q)) (v : Q) :
  v ∈ dropna vals -> v ∈ dropna (fillna vals).
Proof.
  intros Hv. apply list_elem_of_omap in Hv as (cell & Hin & Hcell).
  cbn in Hcell. subst cell. rewrite dropna_fillna.
  change v with (default (fill_value vals) (Some v)). apply list_elem_of_fmap_2, Hin.
Qed.

Lemma filled_origin (vals : list (option Q)) (v : Q) :
  v ∈ dropna (fillna vals) -> v ∈ dropna vals \/ v = fill_value vals.
Proof.
  rewrite dropna_fillna. intros Hv.
  apply list_elem_of_fmap_1 in Hv as ([x|] & -> & Hin); cbn; [left | right; reflexivity].
  apply list_elem_of_omap. exists (Some x). split; [exact Hin | reflexivity].
Qed.

Lemma Qltb_compat (x x' y y' : Q) : x == x' -> y == y' -> (x <? y) = (x' <? y').
Proof.
  intros Hx Hy. apply eq_true_iff_eq. rewrite !Qltb_lt, Hx, Hy. reflexivity.
Qed.

Lemma py_min_compat (a a' b b' : Q) : a == a' -> b == b' -> py_min a b == py_min a' b'.
Proof.
  intros Ha Hb. unfold py_min. rewrite (Qltb_compat b b' a a' Hb Ha).
  destruct (b' <? a'); assumption.
Qed.

Lemma py_max_compat (a a' b b' : Q) : a == a' -> b == b' -> py_max a b == py_max a' b'.
Proof.
  intros Ha Hb. unfold py_max, Qgtb. rewrite (Qltb_compat a a' b b' Ha Hb).
  destruct (a' <? b'); assumption.
Qed.

Lemma normalize_score_compat (value : option Q) (lo lo' hi hi' : Q) (inverse : bool) :
  lo == lo' -> hi == hi' ->
  normalize_score value lo hi inverse == normalize_score value lo' hi' inverse.
Proof.
  intros Hlo Hhi. unfold normalize_score. destruct value as [v|]; [|reflexivity].
  assert (Hb : Qeq_bool hi lo = Qeq_bool hi' lo').
  { apply eq_true_iff_eq. rewrite !Qeq_bool_iff, Hlo, Hhi. reflexivity. }
  rewrite Hb. destruct (Qeq_bool hi' lo'); [reflexivity|].
  apply py_max_compat; [reflexivity|]. apply py_min_compat; [reflexivity|].
  destruct inverse; rewrite Hlo, Hhi; reflexivity.
Qed.

(** X15: Filling the gaps with the median does not move the extremes of a column
    that has at least one value: the fill value lies between the smallest and
    the largest present value, and the filled column has the same minimum and
    maximum, so a value is scored as it would be in the column without its
    gaps. *)
Theorem fillna_keeps_extremes (vals : list (option Q)) :
  dropna vals <> [] ->
  series_min vals <= fill_value vals <= series_max vals /\
  series_min (fillna vals) == series_min vals /\
  series_max (fillna vals) == series_max vals /\
  (forall v inverse,
     normalize_score (Some v) (series_min (fillna vals)) (series_max (fillna vals)) inverse
     == normalize_score (Some v) (series_min vals) (series_max vals) inverse).
Proof.
  intros Hne.
  pose proof (fill_value_between vals Hne) as Hfill.
  assert (Hne' : dropna (fillna vals) <> []).
  { pose proof (present_stays vals _ (series_min_attained vals Hne)) as Hin.
    intros E. rewrite E in Hin. inversion Hin. }
  assert (Hmin : series_min (fillna vals) == series_min vals).
  { apply Qle_antisym.
    - apply series_min_le, present_stays, series_min_attained, Hne.
    - apply series_min_glb; [exact Hne'|]. intros v Hv.
      apply filled_origin in Hv as [Hv | ->]; [apply series_min_le, Hv | apply Hfill]. }
  assert (Hmax : series_max (fillna vals) == series_max vals).
  { apply Qle_antisym.
    - apply series_max_lub; [exact Hne'|]. intros v Hv.
      apply filled_origin in Hv as [Hv | ->]; [apply series_max_ge, Hv | apply Hfill].
    - apply series_max_ge, present_stays, series_max_attained, Hne. }
  split; [exact Hfill|]. split; [exact Hmin|]. split; [exact Hmax|].
  intros v inverse. apply normalize_score_compat; assumption.
Qed.

(** ** Direction of a metric *)

(** X16: A lower-is-better metric is scored as the mirror image of a
    higher-is-better one: for every row the two scores of a column add up to
    100 (a constant column gives 50 both ways). *)
Theorem inverse_scores_mirror (vals : list (option Q)) :
  Forall2 (fun lower_better higher_better => lower_better + higher_better == 100)
          (normalize_series (fillna vals) true) (normalize_series (fillna vals) false).
Proof.
  rewrite !normalize_series_fillna.
  apply Forall2_fmap, Forall_Forall2_diag, Forall_forall. intros cell Hin.
  destruct (filled_value_between vals cell Hin) as [Hlo Hhi].
  destruct (normalize_score_spec _ _ _ true Hlo Hhi) as (_ & Heq_t & Hne_t).
  destruct (normalize_score_spec _ _ _ false Hlo Hhi) as (_ & Heq_f & Hne_f).
  destruct (Qeq_dec (series_min (fillna vals)) (series_max (fillna vals))) as [E | E].
  - rewrite (Heq_t E), (Heq_f E). reflexivity.
  - rewrite (Hne_t E), (Hne_f E). unfold min_max_scale. lra.
Qed.

Lemma scale_of_min (lo hi : Q) (inverse : bool) :
  min_max_scale lo lo hi inverse == if inverse then 100 else 0.
Proof.
  unfold min_max_scale.
  assert (H : (lo - lo) / (hi - lo) == 0).
  { unfold Qdiv. ring. }
  destruct inverse; rewrite H; ring.
Qed.

Lemma scale_of_max (lo hi : Q) (inverse : bool) :
  ~ lo == hi -> min_max_scale hi lo hi inverse == if inverse then 0 else 100.
Proof.
  intros Hne. unfold min_max_scale.
  assert (H : (hi - lo) / (hi - lo) == 1).
  { unfold Qdiv. apply Qmult_inv_r. intros E. apply Hne. lra. }
  destruct inverse; rewrite H; ring.
Qed.

(** X17: In a column whose values are not all equal, the row holding the largest
    value scores 100 and the row holding the smallest scores 0 for a
    higher-is-better metric, and the other way round for a lower-is-better
    one: both ends of the scale are always taken. *)
Theorem both_ends_of_the_scale (vals : list (option Q)) (inverse : bool) :
  ~ series_min (fillna vals) == series_max (fillna vals) ->
  Exists (fun score => score == 0) (normalize_series (fillna vals) inverse) /\
  Exists (fun score => score == 100) (normalize_series (fillna vals) inverse) /\
  (exists cell, cell ∈ vals /\
     default (fill_value vals) cell = series_max (fillna vals) /\
     normalize_score (Some (series_max (fillna vals)))
       (series_min (fillna vals)) (series_max (fillna vals)) inverse
     == if inverse then 0 else 100).
Proof.
  intros Hne.
  assert (Hfilled : dropna (fillna vals) <> []).
  { intros E. apply Hne. unfold series_min, series_max. rewrite E. reflexivity. }
  pose proof (series_min_attained _ Hfilled) as Hmin.
  pose proof (series_max_attained _ Hfilled) as Hmax.
  rewrite dropna_fillna in Hmin, Hmax.
  apply list_elem_of_fmap_1 in Hmin as (cmin & Hcmin & Hin_min).
  apply list_elem_of_fmap_1 in Hmax as (cmax & Hcmax & Hin_max).
  destruct (filled_value_between vals cmin Hin_min) as [Hlo1 Hhi1].
  destruct (filled_value_between vals cmax Hin_max) as [Hlo2 Hhi2].
  destruct (normalize_score_spec _ _ _ inverse Hlo1 Hhi1) as (_ & _ & Hs_min).
  destruct (normalize_score_spec _ _ _ inverse Hlo2 Hhi2) as (_ & _ & Hs_max).
  specialize (Hs_min Hne). specialize (Hs_max Hne).
  rewrite <- Hcmin in Hs_min. rewrite <- Hcmax in Hs_max.
  rewrite scale_of_min in Hs_min. rewrite (scale_of_max _ _ _ Hne) in Hs_max.
  rewrite normalize_series_fillna.
  assert (Hat_min : normalize_score (Some (default (fill_value vals) cmin))
                      (series_min (fillna vals)) (series_max (fillna vals)) inverse
                    == if inverse then 100 else 0)
    by (rewrite <- Hcmin; exact Hs_min).
  assert (Hat_max : normalize_score (Some (default (fill_value vals) cmax))
                      (series_min (fillna vals)) (series_max (fillna vals)) inverse
                    == if inverse then 0 else 100)
    by (rewrite <- Hcmax; exact Hs_max).
  split; [|split].
  - apply Exists_exists. destruct inverse.
    + eexists. split; [apply list_elem_of_fmap_2, Hin_max | exact Hat_max].
    + eexists. split; [apply list_elem_of_fmap_2, Hin_min | exact Hat_min].
  - apply Exists_exists. destruct inverse.
    + eexists. split; [apply list_elem_of_fmap_2, Hin_min | exact Hat_min].
    + eexists. split; [apply list_elem_of_fmap_2, Hin_max | exact Hat_max].
  - exists cmax. split; [exact Hin_max|]. split; [symmetry; exact Hcmax | exact Hs_max].
Qed.

(** ** What the numeric conversion changes *)

(** A row after a conversion step: same company, no cell lost. *)
Definition extends (r r' : row) : Prop :=
  name r' = name r /\ symbol r' = symbol r /\
  forall col v, r !! col = Some v -> r' !! col = Some v.

Lemma extends_refl (r : row) : extends r r.
Proof. repeat split; auto. Qed.

Lemma extends_trans (r1 r2 r3 : row) : extends r1 r2 -> extends r2 r3 -> extends r1 r3.
Proof.
  intros (Hn1 & Hs1 & Hc1) (Hn2 & Hs2 & Hc2).
  split; [congruence|]. split; [congruence|]. auto.
Qed.

Lemma set_cell_extends (col : string) (fv : Q) (r : row) :
  extends r (set_cell col (default fv (r !! col)) r).
Proof.
  split; [reflexivity|]. split; [reflexivity|].
  intros c v Hc. unfold lookup, row_lookup in *. cbn [set_cell metrics].
  destruct (decide (col = c)) as [-> | Hne].
  - rewrite lookup_insert_eq, Hc. reflexivity.
  - rewrite lookup_insert_ne by exact Hne. exact Hc.
Qed.

Lemma fill_column_extends (df : DataFrame) (c : string) :
  Forall2 extends (records df) (records (fill_column df c)).
Proof.
  unfold fill_column. destruct (bool_decide _).
  - cbn [records]. apply Forall2_fmap_r, Forall_Forall2_diag, Forall_forall.
    intros r _. apply set_cell_extends.
  - apply Forall_Forall2_diag, Forall_forall. intros r _. apply extends_refl.
Qed.

Lemma fold_fill_extends (l : list string) (df : DataFrame) :
  Forall2 extends (records df) (records (fold_left fill_column l df)).
Proof.
  revert df. induction l as [|c l IH]; intros df; cbn [fold_left].
  - apply Forall_Forall2_diag, Forall_forall. intros r _. apply extends_refl.
  - eapply Forall2_trans; [|apply fill_column_extends|apply IH].
    intros r1 r2 r3. apply extends_trans.
Qed.

Lemma column_fold_absent (l : list string) (df : DataFrame) (col : string) :
  col ∉ columns df -> column (fold_left fill_column l df) col = column df col.
Proof.
  revert df. induction l as [|c l IH]; intros df Habs; cbn [fold_left]; [reflexivity|].
  rewrite IH by (rewrite fill_column_columns; exact Habs).
  destruct (decide (c = col)) as [-> | Hne].
  - unfold fill_column. rewrite bool_decide_eq_false_2 by exact Habs. reflexivity.
  - apply column_fill_other, Hne.
Qed.

Lemma column_lookup (df : DataFrame) (col : string) (i : nat) (r : row) :
  records df !! i = Some r -> column df col !! i = Some (r !! col).
Proof.
  intros Hi. unfold column. rewrite list_lookup_fmap, Hi. reflexivity.
Qed.

(** X18: The numeric conversion keeps every row in place with its name, its symbol
    and every cell it had; it fills each cell of a numeric column of the table
    (with the column's fill value when the cell was missing), and it leaves all
    other cells as they were, missing ones included. *)
Theorem convert_numeric_cells (file : DataFrame) (i : nat) (r : row) :
  records file !! i = Some r ->
  exists r',
    records (convert_numeric file) !! i = Some r' /\
    name r' = name r /\ symbol r' = symbol r /\
    (forall col v, r !! col = Some v -> r' !! col = Some v) /\
    (forall col, col ∈ numeric_cols -> col ∈ columns file ->
                 r' !! col = Some (default (fill_value (column file col)) (r !! col))) /\
    (forall col, col ∉ numeric_cols \/ col ∉ columns file -> r' !! col = r !! col).
Proof.
  intros Hi.
  assert (Hext : Forall2 extends (records file) (records (convert_numeric file)))
    by apply fold_fill_extends.
  destruct (Forall2_lookup_l _ _ _ i r Hext Hi) as (r' & Hi' & Hn & Hs & Hcells).
  exists r'. split; [exact Hi'|]. split; [exact Hn|]. split; [exact Hs|].
  split; [exact Hcells|]. split.
  - intros col Hnum Hcol.
    assert (Hc : column (convert_numeric file) col = fillna (column file col))
      by (apply column_fold_filled; [apply numeric_cols_NoDup | exact Hnum | exact Hcol]).
    pose proof (column_lookup (convert_numeric file) col i r' Hi') as Hl.
    rewrite Hc in Hl. unfold fillna in Hl.
    rewrite list_lookup_fmap, (column_lookup file col i r Hi) in Hl.
    cbn in Hl. congruence.
  - intros col Hout.
    assert (Hc : column (convert_numeric file) col = column file col).
    { destruct Hout as [Hnum | Hcol];
        [apply column_fold_other, Hnum | apply column_fold_absent, Hcol]. }
    pose proof (column_lookup (convert_numeric file) col i r' Hi') as Hl.
    rewrite Hc, (column_lookup file col i r Hi) in Hl. congruence.
Qed.

(** ** The normalized table *)

Lemma normalize_fold_skipped (df : DataFrame) (l : list string) (acc : gmap string (list Q))
    (col : string) :
  col ∉ columns df \/ dropna (column df col) = [] ->
  fold_left (normalize_column df) l acc !! col = acc !! col.
Proof.
  intros Hskip. revert acc. induction l as [|c l IH]; intros acc; cbn [fold_left];
    [reflexivity|].
  rewrite IH. unfold normalize_column.
  destruct (bool_decide (c ∈ columns df) && bool_decide (dropna (column df c) ≠ [])) eqn:E;
    [|reflexivity].
  apply andb_true_iff in E as [E1 E2].
  apply bool_decide_eq_true in E1. apply bool_decide_eq_true in E2.
  apply lookup_insert_ne. intros ->. destruct Hskip; contradiction.
Qed.

Lemma normalize_score_range (value : option Q) (lo hi : Q) (inverse : bool) :
  0 <= normalize_score value lo hi inverse <= 100.
Proof.
  unfold normalize_score. destruct value as [v|]; [|lra].
  destruct (Qeq_bool hi lo); [lra | apply clamp_range].
Qed.

Lemma normalize_series_range (vals : list (option Q)) (inverse : bool) :
  Forall (fun score => 0 <= score <= 100) (normalize_series vals inverse).
Proof.
  unfold normalize_series. apply Forall_fmap, Forall_forall. intros x _.
  apply normalize_score_range.
Qed.

Definition is_inverse (col : string) : bool := bool_decide (col ∈ inverse_metrics).

Lemma normalized_table (file : DataFrame) (col : string) :
  match normalize_frame (convert_numeric file) !! col with
  | Some scores =>
      col ∈ numeric_cols /\ col ∈ columns file /\ records file <> [] /\
      scores = normalize_series (fillna (column file col)) (is_inverse col)
  | None => col ∉ numeric_cols \/ col ∉ columns file \/ records file = []
  end.
Proof.
  destruct (decide (col ∈ numeric_cols)) as [Hnum | Hnum].
  2: { unfold normalize_frame. rewrite normalize_fold_other by exact Hnum.
       rewrite lookup_empty. auto. }
  destruct (decide (col ∈ columns file)) as [Hcol | Hcol].
  2: { unfold normalize_frame. rewrite normalize_fold_skipped.
       - rewrite lookup_empty. auto.
       - left. unfold convert_numeric. rewrite fold_fill_columns. exact Hcol. }
  destruct (records file) as [|r0 rest] eqn:Hrows.
  - unfold normalize_frame. rewrite normalize_fold_skipped.
    + rewrite lookup_empty. auto.
    + right. pose proof (convert_numeric_length file) as Hlen. rewrite Hrows in Hlen.
      unfold column. destruct (records (convert_numeric file)); [reflexivity | discriminate].
  - rewrite normalize_frame_column; [|exact Hnum | exact Hcol | rewrite Hrows; discriminate].
    repeat split; try assumption. discriminate.
Qed.

(** X19: The normalized table has a column exactly for the numeric columns of a
    non-empty table; such a column is the min-max normalization of the filled
    column (inverted for the lower-is-better metrics), it has one score for
    every row of the table, and every score lies between 0 and 100.  So the
    lookup of a row's normalized score never misses. *)
Theorem normalized_table_complete (file : DataFrame) (col : string) :
  match normalize_frame (convert_numeric file) !! col with
  | Some scores =>
      col ∈ numeric_cols /\ col ∈ columns file /\ records file <> [] /\
      scores = normalize_series (fillna (column file col)) (is_inverse col) /\
      length scores = length (records file) /\
      Forall (fun score => 0 <= score <= 100) scores /\
      (forall i, (i < length (records file))%nat -> is_Some (scores !! i))
  | None => col ∉ numeric_cols \/ col ∉ columns file \/ records file = []
  end.
Proof.
  pose proof (normalized_table file col) as H.
  destruct (normalize_frame (convert_numeric file) !! col) as [scores|]; [|exact H].
  destruct H as (Hnum & Hcol & Hrows & ->).
  assert (Hlen : length (normalize_series (fillna (column file col)) (is_inverse col))
                 = length (records file)).
  { unfold normalize_series, fillna, column. rewrite !length_fmap. reflexivity. }
  split; [exact Hnum|]. split; [exact Hcol|]. split; [exact Hrows|].
  split; [reflexivity|]. split; [exact Hlen|].
  split; [apply normalize_series_range|].
  intros i Hi. apply lookup_lt_is_Some_2. rewrite Hlen. exact Hi.
Qed.

(** ** The range of the composite score *)

Lemma floor_bounds (x : Q) : inject_Z (Qfloor x) <= x < inject_Z (Qfloor x) + 1.
Proof.
  split; [apply Qfloor_le|].
  pose proof (Qlt_floor x) as H. rewrite inject_Z_plus in H. exact H.
Qed.

Lemma inject_Z_succ (z : Z) : inject_Z (z + 1) == inject_Z z + 1.
Proof. rewrite inject_Z_plus. reflexivity. Qed.

Lemma floor_below (x : Q) (k : Z) : x < inject_Z k + 1 -> (Qfloor x <= k)%Z.
Proof.
  intros H. destruct (floor_bounds x) as [Hlo _].
  assert (Hlt : inject_Z (Qfloor x) < inject_Z (k + 1)) by (rewrite inject_Z_succ; lra).
  rewrite <- Zlt_Qlt in Hlt. lia.
Qed.

Lemma floor_above (x : Q) (k : Z) : inject_Z k <= x -> (k <= Qfloor x)%Z.
Proof.
  intros H. destruct (floor_bounds x) as [_ Hhi].
  assert (Hlt : inject_Z k < inject_Z (Qfloor x + 1)) by (rewrite inject_Z_succ; lra).
  rewrite <- Zlt_Qlt in Hlt. lia.
Qed.

Lemma round_half_even_floor (x : Q) :
  (round_half_even x = Qfloor x \/ round_half_even x = Qfloor x + 1)%Z.
Proof.
  unfold round_half_even. repeat case_match; auto.
Qed.

(** Rounding cannot pass an integer that lies less than a half away. *)
Lemma round_half_even_le (x : Q) (k : Z) :
  x < inject_Z k + (1 # 2) -> (round_half_even x <= k)%Z.
Proof.
  intros H. assert (Hf : (Qfloor x <= k)%Z) by (apply floor_below; lra).
  destruct (Z.eq_dec (Qfloor x) k) as [E | E].
  - unfold round_half_even. rewrite E.
    rewrite (Qltb_of_lt (x - inject_Z k) (1 # 2)) by lra. lia.
  - destruct (round_half_even_floor x); lia.
Qed.

Lemma round_half_even_ge (x : Q) (k : Z) :
  inject_Z k - (1 # 2) < x -> (k <= round_half_even x)%Z.
Proof.
  intros H.
  assert (Hf : (k - 1 <= Qfloor x)%Z).
  { apply floor_above. replace (k - 1)%Z with (k + -1)%Z by lia.
    rewrite inject_Z_plus. change (inject_Z (-1)) with (-1 # 1). lra. }
  destruct (Z.eq_dec (Qfloor x) (k - 1)%Z) as [E | E].
  - unfold round_half_even. rewrite E.
    assert (Hk : inject_Z (k - 1)%Z == inject_Z k - 1).
    { replace (k - 1)%Z with (k + -1)%Z by lia. rewrite inject_Z_plus.
      change (inject_Z (-1)) with (-1 # 1). lra. }
    assert (Hgt : 1 # 2 < x - inject_Z (k - 1)%Z) by (rewrite Hk; lra).
    destruct (x - inject_Z (k - 1)%Z <? 1 # 2) eqn:E1; [order_facts; lra|].
    rewrite (Qgtb_of_gt _ _ Hgt). lia.
  - destruct (round_half_even_floor x); lia.
Qed.

Lemma round1_le (x : Q) (k : Z) : x <= inject_Z k / 10 -> round1 x <= inject_Z k / 10.
Proof.
  intros H. unfold round1, Qdiv in *. change (/ 10) with (1 # 10) in *.
  assert (Hr : (round_half_even (x * 10) <= k)%Z) by (apply round_half_even_le; lra).
  rewrite Zle_Qle in Hr. lra.
Qed.

Lemma round1_ge (x : Q) (k : Z) : inject_Z k / 10 <= x -> inject_Z k / 10 <= round1 x.
Proof.
  intros H. unfold round1, Qdiv in *. change (/ 10) with (1 # 10) in *.
  assert (Hr : (k <= round_half_even (x * 10))%Z) by (apply round_half_even_ge; lra).
  rewrite Zle_Qle in Hr. lra.
Qed.

Definition total_weight (weights : list (string * Q)) : Q := foldr Qplus 0 (weights.*2).

Lemma weighted_sum_range (normalized_df : gmap string (list Q)) (idx : nat)
    (weights : list (string * Q)) :
  (forall metric, 0 <= normalized_score normalized_df idx metric <= 100) ->
  Forall (fun mw : string * Q => 0 <= mw.2) weights ->
  0 <= weighted_sum normalized_df idx weights <= 100 * total_weight weights.
Proof.
  intros Hscore Hw. unfold weighted_sum, py_sum, total_weight.
  rewrite fold_plus_foldr.
  assert (Hsum : 0 <= foldr Qplus 0
                   ((fun mw : string * Q => normalized_score normalized_df idx mw.1 * mw.2) <$>
                    filter (fun mw : string * Q => is_Some (normalized_df !! mw.1)) weights)
                 <= 100 * foldr Qplus 0 (weights.*2)); [|lra].
  induction Hw as [|[metric weight] rest Hweight _ IH].
  - rewrite filter_nil. cbn [foldr fmap list_fmap]. lra.
  - rewrite filter_cons. cbn [fst snd] in *. specialize (Hscore metric).
    assert (Hterm : 0 <= normalized_score normalized_df idx metric * weight <= 100 * weight).
    { split; [apply Qmult_le_0_compat; lra|].
      apply Qmult_le_compat_r; lra. }
    rewrite fmap_cons. cbn [foldr snd].
    destruct (decide (is_Some (normalized_df !! metric)));
      [rewrite fmap_cons; cbn [foldr fst snd]|]; lra.
Qed.

Lemma registry_weights (philosophy : string) :
  Forall (fun mw : string * Q => 0 <= mw.2) (philosophy_weights philosophy) /\
  total_weight (philosophy_weights philosophy) <= 1.
Proof.
  unfold philosophy_weights. cbn [assoc PHILOSOPHIES].
  repeat case_match; simplify_eq; cbn [weights];
    (split; [repeat constructor; cbn; closed_order | closed_order]).
Qed.

Lemma pipeline_score_range (file : DataFrame) (idx : nat) (metric : string) :
  0 <= normalized_score (normalize_frame (convert_numeric file)) idx metric <= 100.
Proof.
  unfold normalized_score.
  pose proof (normalized_table file metric) as H.
  destruct (normalize_frame (convert_numeric file) !! metric) as [scores|]; cbn; [|lra].
  destruct H as (_ & _ & _ & ->).
  destruct (normalize_series _ _ !! idx) as [score|] eqn:E; cbn; [|lra].
  pose proof (normalize_series_range (fillna (column file metric)) (is_inverse metric)) as Hr.
  rewrite Forall_forall in Hr. apply Hr. eapply list_elem_of_lookup_2, E.
Qed.

Lemma product_range (a b A B : Q) :
  0 <= a <= A -> 0 <= b <= B -> 0 <= a * b <= A * B.
Proof.
  intros [Ha0 HaA] [Hb0 HbB]. split; [apply Qmult_le_0_compat; assumption|].
  apply Qle_trans with (a * B).
  - rewrite !(Qmult_comm a). apply Qmult_le_compat_r; assumption.
  - apply Qmult_le_compat_r; lra.
Qed.

Lemma composite_product (idx : nat) (r : row) (weights : list (string * Q))
    (normalized_df : gmap string (list Q)) (fcf_dq_mode : string) :
  calculate_composite_score FS FN idx r weights normalized_df fcf_dq_mode
  = round1 (weighted_sum normalized_df idx weights
            * assess_quality_score r
            * assess_cash_flow_quality r
            * valuation_score (assess_valuation_reasonableness r)
            * (1 - py_min (sum_values (calculate_risk_penalties FS FN r fcf_dq_mode)) 0.6)).
Proof.
  unfold calculate_composite_score, weighted_sum, py_sum.
  rewrite weighted_loop. reflexivity.
Qed.

Lemma penalty_factor_range (r : row) (fcf_dq_mode : string) :
  0 <= 1 - py_min (sum_values (calculate_risk_penalties FS FN r fcf_dq_mode)) 0.6 <= 1.
Proof.
  pose proof (py_min_le_r (sum_values (calculate_risk_penalties FS FN r fcf_dq_mode)) 0.6).
  assert (0 <= py_min (sum_values (calculate_risk_penalties FS FN r fcf_dq_mode)) 0.6).
  { apply py_min_glb; [|lra]. apply sum_values_nonneg, penalties_positive. }
  split; lra.
Qed.

Lemma composite_range (file : DataFrame) (philosophy fcfDQMode : string) (idx : nat)
    (r : row) :
  0 <= calculate_composite_score FS FN idx r (philosophy_weights philosophy)
         (normalize_frame (convert_numeric file)) fcfDQMode <= 234.
Proof.
  rewrite composite_product.
  destruct (registry_weights philosophy) as [Hw Htotal].
  pose proof (weighted_sum_range (normalize_frame (convert_numeric file)) idx
                (philosophy_weights philosophy) (pipeline_score_range file idx) Hw) as Hsum.
  assert (Hs : 0 <= weighted_sum (normalize_frame (convert_numeric file)) idx
                      (philosophy_weights philosophy) <= 100) by (split; lra).
  assert (Hq : 0 <= assess_quality_score r <= 1.5).
  { unfold assess_quality_score.
    pose proof (clamp_between 0.5 1.5
                  (let quality_score := 1.0 in quality_score) ltac:(lra)) as _.
    match goal with |- 0 <= py_max 0.5 (py_min 1.5 ?x) <= 1.5 =>
      pose proof (clamp_between 0.5 1.5 x ltac:(lra)) end. lra. }
  assert (Hc : 0 <= assess_cash_flow_quality r <= 1.2).
  { unfold assess_cash_flow_quality.
    match goal with |- 0 <= py_max 0.7 (py_min 1.2 ?x) <= 1.2 =>
      pose proof (clamp_between 0.7 1.2 x ltac:(lra)) end. lra. }
  assert (Hv : 0 <= valuation_score (assess_valuation_reasonableness r) <= 1.3).
  { unfold assess_valuation_reasonableness. cbn [valuation_score].
    match goal with |- 0 <= py_max 0.6 (py_min 1.3 ?x) <= 1.3 =>
      pose proof (clamp_between 0.6 1.3 x ltac:(lra)) end. lra. }
  pose proof (penalty_factor_range r fcfDQMode) as Hf.
  pose proof (product_range _ _ _ _ Hs Hq) as H1.
  pose proof (product_range _ _ _ _ H1 Hc) as H2.
  pose proof (product_range _ _ _ _ H2 Hv) as H3.
  pose proof (product_range _ _ _ _ H3 Hf) as H4.
  split.
  - apply Qle_trans with (inject_Z 0 / 10); [closed_order|].
    apply round1_ge. apply Qle_trans with 0; [closed_order | lra].
  - apply Qle_trans with (inject_Z 2340 / 10); [|closed_order].
    apply round1_le. apply Qle_trans with (100 * 1.5 * 1.2 * 1.3 * 1); [lra | closed_order].
Qed.

(** X20: Under every philosophy of the registry the score of a row of the table
    lies between 0 and 234: the weights are positive and add up to 1, the
    normalized scores lie in [0, 100], and the three multipliers can raise the
    weighted sum by at most 1.5 x 1.2 x 1.3. *)
Theorem composite_score_range (file : DataFrame) (philosophy fcfDQMode : string) (idx : nat)
    (r : row) :
  0 <= calculate_composite_score FS FN idx r (philosophy_weights philosophy)
         (normalize_frame (convert_numeric file)) fcfDQMode <= 234 /\
  (philosophy ∈ registered_ids ->
   Forall (fun mw : string * Q => 0 < mw.2) (philosophy_weights philosophy) /\
   total_weight (philosophy_weights philosophy) == 1).
Proof.
  split; [apply composite_range|].
  intros Hp. unfold registered_ids in Hp.
  repeat (apply elem_of_cons in Hp as [-> | Hp]);
    [| | | | | |inversion Hp];
    (split; [repeat constructor | reflexivity]).
Qed.

(** ** Sector labels *)

Lemma first_sector_label (kws : list (string * list string)) (company_lower : string) :
  first_sector kws company_lower = "General"%string \/
  first_sector kws company_lower ∈ kws.*1.
Proof.
  induction kws as [|[sector keywords] rest IH]; [left; reflexivity|].
  cbn [first_sector fmap list_fmap fst]. destruct (any_in keywords company_lower).
  - right. apply list_elem_of_here.
  - destruct IH as [IH | IH]; [left; exact IH | right; apply list_elem_of_further, IH].
Qed.

(** X21: The sector of a company is General or one of nine keyed sectors, each of
    which has benchmarks; General has none, so exactly the General companies
    skip the sector adjustment.  No name is ever classified as Healthcare:
    that entry of the benchmarks is not reachable from the name. *)
Theorem sector_label_has_benchmarks (company_name : string) :
  (get_sector_from_name company_name = "General"%string <->
   assoc (get_sector_from_name company_name) SECTOR_BENCHMARKS = None) /\
  get_sector_from_name company_name
    ∈ ["General"; "IT"; "Banking"; "Pharma"; "Manufacturing"; "Telecom"; "RealEstate";
       "FMCG"; "Auto"; "Energy"]%string /\
  get_sector_from_name company_name <> "Healthcare"%string /\
  is_Some (assoc "Healthcare" SECTOR_BENCHMARKS).
Proof.
  unfold get_sector_from_name.
  destruct (first_sector_label industry_keywords (lower company_name)) as [-> | Hin].
  - split; [split; reflexivity|]. split; [apply list_elem_of_here|].
    split; [discriminate | eexists; reflexivity].
  - cbn [industry_keywords fmap list_fmap fst] in Hin.
    repeat (apply elem_of_cons in Hin as [-> | Hin]); [..|inversion Hin];
      (split; [split; discriminate|]);
      (split; [repeat first [apply list_elem_of_here | apply list_elem_of_further]|]);
      (split; [discriminate | eexists; reflexivity]).
Qed.

(** X22: A company that the sector keywords place in Banking is a financial
    company for the engine, whatever the bank/NBFC mapping holds: unless the
    mode is [global_on] no FCF-based rule applies to it, and a negative FCF
    costs it the reduced penalty 0.10. *)
Theorem banking_sector_is_financial (r : row) :
  get_sector_from_name (name r) = "Banking"%string ->
  is_financials FS FN r = true /\
  (forall fcf_dq_mode, fcf_dq_mode <> "global_on"%string ->
     fcf_dq_applies (is_financials FS FN r) fcf_dq_mode = false) /\
  (forall fcf_dq_mode,
     has r "fcf" (fun fcf => fcf <? 0) = true ->
     calculate_risk_penalties FS FN r fcf_dq_mode !! "negative_fcf" = Some 0.10).
Proof.
  intros Hs.
  assert (Hfin : is_financials FS FN r = true).
  { unfold is_financials. rewrite Hs.
    destruct (nonempty (lower (strip (symbol r)))
              && bool_decide (lower (strip (symbol r)) ∈ FS)); [reflexivity|].
    destruct (nonempty (lower (strip (name r)))
              && bool_decide (lower (strip (name r)) ∈ FN)); reflexivity. }
  split; [exact Hfin|]. split.
  - intros fcf_dq_mode Hmode.
    rewrite Hfin. unfold fcf_dq_applies. cbn [andb negb orb].
    rewrite orb_false_r. apply String.eqb_neq, Hmode.
  - intros fcf_dq_mode Hneg. unfold has in Hneg.
    destruct (r !! "fcf") as [fcf|] eqn:Hfcf; [|discriminate].
    apply Qltb_lt in Hneg.
    rewrite (negative_fcf_penalty_value FS FN r fcf_dq_mode fcf Hfcf Hneg), Hfin.
    reflexivity.
Qed.

(** ** Sector adjustment *)

Lemma benchmark_facts (sector : string) (benchmarks : benchmark) :
  assoc sector SECTOR_BENCHMARKS = Some benchmarks ->
  0 < roe_threshold benchmarks /\
  (forall fwm, fcf_weight_multiplier benchmarks = Some fwm -> fwm = 1.3).
Proof.
  unfold SECTOR_BENCHMARKS. cbn [assoc]. intros H.
  repeat case_match; simplify_eq; cbn [roe_threshold fcf_weight_multiplier];
    (split; [closed_order | intros fwm Hf; congruence]).
Qed.

Lemma roe_premium_range (roe threshold : Q) :
  0 < threshold -> threshold < roe ->
  0 <= py_min ((roe - threshold) / threshold * 0.1) 0.15 <= 0.15.
Proof.
  intros Hpos Hgt. split; [|apply py_min_le_r].
  apply py_min_glb; [|closed_order].
  apply Qmult_le_0_compat; [|closed_order].
  apply Qle_shift_div_l; lra.
Qed.

(** The result of the adjustment: an unknown sector leaves everything as it
    is, a known one multiplies the score by a factor between 1 and 1.215. *)
Lemma adjustment_cases (base_score : Q) (company_data : row) (sector : string)
    (penalties : gmap string Q) :
  (assoc sector SECTOR_BENCHMARKS = None /\
   adjust_score_for_sector base_score company_data sector penalties
   = Adjustment base_score 0.0 penalties) \/
  (exists multiplier penalties',
     adjust_score_for_sector base_score company_data sector penalties
     = Adjustment (round1 (base_score * multiplier))
                  (round1 ((multiplier - 1.0) * 100)) penalties' /\
     1 <= multiplier <= 1.215).
Proof.
  unfold adjust_score_for_sector.
  destruct (assoc sector SECTOR_BENCHMARKS) as [benchmarks|] eqn:Hb;
    [right | left; split; reflexivity].
  destruct (benchmark_facts _ _ Hb) as [Hpos Hfwm].
  cbv zeta. eexists _, _. split; [reflexivity|].
  destruct (company_data !! "fcf") as [fcf|];
    [destruct (fcf_weight_multiplier benchmarks) as [fwm|] eqn:Hf;
       [rewrite (Hfwm fwm eq_refl); destruct (fcf >? 0)|]|];
    (destruct (company_data !! "roe") as [roe|];
       [destruct (roe >? roe_threshold benchmarks) eqn:Hroe;
          [apply Qgtb_gt in Hroe;
           pose proof (roe_premium_range roe (roe_threshold benchmarks) Hpos Hroe)|]|]);
    (destruct (company_data !! "opm") as [opm|];
       [destruct (opm >? opm_norm benchmarks * 1.2)|]);
    lra.
Qed.

Lemma round1_le_half (x : Q) (k : Z) :
  x * 10 < inject_Z k + (1 # 2) -> round1 x <= inject_Z k / 10.
Proof.
  intros H. unfold round1, Qdiv. change (/ 10) with (1 # 10).
  assert (Hr : (round_half_even (x * 10) <= k)%Z) by (apply round_half_even_le; exact H).
  rewrite Zle_Qle in Hr. lra.
Qed.

(** A one-decimal number does not fall when it is multiplied by a factor of
    at least 1 and rounded to one decimal again. *)
Lemma rounded_product_ge (x multiplier : Q) :
  0 <= round1 x -> 1 <= multiplier -> round1 x <= round1 (round1 x * multiplier).
Proof.
  intros Hx Hm. unfold round1 at 1 3. apply round1_ge. fold (round1 x).
  assert (H : 0 <= round1 x * (multiplier - 1)) by (apply Qmult_le_0_compat; lra).
  lra.
Qed.

(** X23: The score of a ranked row after the sector adjustment: it is never below
    the score before the adjustment and at most 284.3, the reported adjustment
    lies between 0 and 21.5 (percent), a General company keeps its score, and
    the penalties handed to the adjustment have no influence on the score, so
    the relaxed debt penalty of a sector changes no number of the report. *)
Theorem sector_adjustment_only_raises (file : DataFrame) (philosophy fcfDQMode : string)
    (i : nat) (r : row) :
  let table := normalize_frame (convert_numeric file) in
  let scored := analyze_row FS FN (philosophy_weights philosophy) table fcfDQMode i r in
  let base := calculate_composite_score FS FN i r (philosophy_weights philosophy) table
                fcfDQMode in
  base <= composite_score scored <= 284.3 /\
  0 <= sector_adj scored <= 21.5 /\
  (sector scored = "General"%string ->
   composite_score scored = base /\ sector_adj scored = 0.0) /\
  (forall penalties,
     composite_score scored
     = adjusted_score (adjust_score_for_sector base r (sector scored) penalties) /\
     sector_adj scored
     = sector_adjustment (adjust_score_for_sector base r (sector scored) penalties)).
Proof.
  intros table scored base.
  pose proof (composite_range file philosophy fcfDQMode i r) as Hbase.
  fold table in Hbase. fold base in Hbase.
  assert (Hround : base = round1 (weighted_sum table i (philosophy_weights philosophy)
            * assess_quality_score r
            * assess_cash_flow_quality r
            * valuation_score (assess_valuation_reasonableness r)
            * (1 - py_min (sum_values (calculate_risk_penalties FS FN r fcfDQMode)) 0.6)))
    by apply composite_product.
  assert (Hindep : forall penalties,
     composite_score scored
     = adjusted_score (adjust_score_for_sector base r (sector scored) penalties) /\
     sector_adj scored
     = sector_adjustment (adjust_score_for_sector base r (sector scored) penalties)).
  { intros penalties. unfold scored, analyze_row, SECTOR_ENABLED.
    cbn [composite_score sector_adj sector]. fold table. fold base.
    unfold adjust_score_for_sector.
    destruct (assoc (get_sector_from_name (name r)) SECTOR_BENCHMARKS);
      split; reflexivity. }
  destruct (Hindep ∅) as [Hc Ha].
  split; [|split; [|split; [|exact Hindep]]].
  - rewrite Hc.
    destruct (adjustment_cases base r (sector scored) ∅)
      as [[_ ->] | (m & p' & -> & Hm1 & Hm2)]; cbn [adjusted_score].
    + split; [lra|]. apply Qle_trans with 234; [lra | closed_order].
    + split.
      * rewrite Hround at 1 2. apply rounded_product_ge; [rewrite <- Hround|]; lra.
      * apply Qle_trans with (inject_Z 2843 / 10); [|closed_order].
        apply round1_le_half.
        assert (H : base * m <= 234 * 1.215).
        { apply Qle_trans with (base * 1.215).
          - rewrite !(Qmult_comm base). apply Qmult_le_compat_r; lra.
          - apply Qmult_le_compat_r; [lra | closed_order]. }
        apply Qle_lt_trans with (234 * 1.215 * 10); [lra | closed_order].
  - rewrite Ha.
    destruct (adjustment_cases base r (sector scored) ∅)
      as [[_ ->] | (m & p' & -> & Hm1 & Hm2)]; cbn [sector_adjustment].
    + closed_order.
    + split.
      * apply Qle_trans with (inject_Z 0 / 10); [closed_order|].
        apply round1_ge. apply Qle_trans with 0; [closed_order | lra].
      * apply Qle_trans with (inject_Z 215 / 10); [|closed_order].
        apply round1_le. apply Qle_trans with 21.5; [lra | closed_order].
  - intros Hgen. rewrite Hc, Ha, Hgen. split; reflexivity.
Qed.

(** ** The V2 sub-scores (ranking.py:846-915) *)

(** [_avg_present]: the mean of the values that are not [None], 50 when there
    is none. *)
Definition _avg_present (vals : list (option Q)) : Q :=
  let vv := dropna vals in
  match vv with
  | [] => 50.0
  | _ => py_sum vv / Qnat (length vv)
  end.

(** [_nz]: the row's normalized score for a column, [None] for a column that
    was not normalized. *)
Definition _nz (normalized_df : gmap string (list Q)) (col : string) (idx : nat) : option Q :=
  match normalized_df !! col with
  | Some scores => Some (default 0 (scores !! idx))
  | None => None
  end.

(** [a or b] on [float | None]: [None] and 0.0 are falsy. *)
Definition py_or (a b : option Q) : option Q :=
  match a with
  | Some x => if Qeq_bool x 0 then b else a
  | None => b
  end.

Definition quality_score_v2 (normalized_df : gmap string (list Q)) (idx : nat) (r : row) : Q :=
  if is_financials FS FN r
  then _avg_present [_nz normalized_df "roe" idx; _nz normalized_df "roce" idx]
  else _avg_present [_nz normalized_df "roe" idx; _nz normalized_df "roce" idx;
                     _nz normalized_df "opm" idx].

Definition growth_score_v2 (normalized_df : gmap string (list Q)) (idx : nat) : Q :=
  _avg_present
    [ py_or (_nz normalized_df "sales_growth_5yr" idx) (_nz normalized_df "sales_growth_3yr" idx);
      py_or (_nz normalized_df "profit_growth_5yr" idx)
            (_nz normalized_df "profit_growth_3yr" idx);
      py_or (_nz normalized_df "eps_growth_5yr" idx) (_nz normalized_df "eps_growth_3yr" idx) ].

Definition valuation_score_v2 (normalized_df : gmap string (list Q)) (idx : nat) : Q :=
  _avg_present
    [ _nz normalized_df "pe_ratio" idx; _nz normalized_df "peg" idx;
      _nz normalized_df "pb_ratio" idx; _nz normalized_df "ev_ebitda" idx;
      _nz normalized_df "cmp_sales" idx ].

Definition cashflow_score_v2 (normalized_df : gmap string (list Q)) (idx : nat) (r : row) : Q :=
  if is_financials FS FN r then 50.0
  else
    let fcf_now := _nz normalized_df "fcf" idx in
    let fcf3 := _nz normalized_df "fcf_3yr" idx in
    let fcf5 := _nz normalized_df "fcf_5yr" idx in
    match fcf3, fcf5 with
    | Some fcf3, Some fcf5 =>
        let diff := fcf5 - fcf3 in
        py_max 0.0 (py_min 100.0 (50.0 + diff / 2.0))
    | _, _ =>
        match fcf_now with
        | Some c => c
        | None => 50.0
        end
    end.

Definition final_score_v2 (normalized_df : gmap string (list Q)) (idx : nat) (r : row) : Q :=
  let q := quality_score_v2 normalized_df idx r in
  let g := growth_score_v2 normalized_df idx in
  let v := valuation_score_v2 normalized_df idx in
  let c := cashflow_score_v2 normalized_df idx r in
  if is_financials FS FN r
  then 0.45 * q + 0.20 * g + 0.25 * v + 0.10 * c
  else 0.35 * q + 0.25 * g + 0.20 * v + 0.20 * c.

(** An optional score that, when present, lies on the 0-100 scale. *)
Definition on_scale (score : option Q) : Prop :=
  match score with
  | Some v => 0 <= v <= 100
  | None => True
  end.

Lemma nz_on_scale (file : DataFrame) (col : string) (idx : nat) :
  on_scale (_nz (normalize_frame (convert_numeric file)) col idx).
Proof.
  pose proof (pipeline_score_range file idx col) as H.
  generalize dependent (normalize_frame (convert_numeric file)). intros table H.
  unfold normalized_score in H. unfold _nz.
  destruct (table !! col) as [scores|]; [exact H | exact I].
Qed.

Lemma py_or_on_scale (a b : option Q) : on_scale a -> on_scale b -> on_scale (py_or a b).
Proof.
  intros Ha Hb. unfold py_or. destruct a as [x|]; [|exact Hb].
  destruct (Qeq_bool x 0); assumption.
Qed.

Lemma sum_on_scale (vv : list Q) :
  Forall (fun v => 0 <= v <= 100) vv -> 0 <= py_sum vv <= 100 * Qnat (length vv).
Proof.
  intros H. unfold py_sum. rewrite fold_plus_foldr.
  induction H as [|v vv Hv _ IH]; cbn [foldr length].
  - change (Qnat 0) with 0. lra.
  - assert (Hs : Qnat (S (length vv)) == Qnat (length vv) + 1).
    { unfold Qnat. rewrite Nat2Z.inj_succ, <- Z.add_1_r, inject_Z_plus. reflexivity. }
    rewrite Hs. lra.
Qed.

Lemma avg_present_on_scale (vals : list (option Q)) :
  Forall on_scale vals -> 0 <= _avg_present vals <= 100.
Proof.
  intros H. unfold _avg_present.
  assert (Hvv : Forall (fun v => 0 <= v <= 100) (dropna vals)).
  { apply Forall_forall. intros v Hv. apply list_elem_of_omap in Hv as (cell & Hin & Hcell).
    rewrite Forall_forall in H. specialize (H cell Hin). cbn in Hcell. subst cell. exact H. }
  pose proof (sum_on_scale _ Hvv) as Hsum.
  destruct (dropna vals) as [|v vv] eqn:E; [split; closed_order|].
  assert (Hpos : 0 < Qnat (length (v :: vv))).
  { unfold Qnat. rewrite <- (Zlt_Qlt 0). cbn [length]. lia. }
  split; [apply Qle_shift_div_l | apply Qle_shift_div_r]; lra.
Qed.

(** X24: The four V2 sub-scores and the final V2 score of a row lie between 0 and
    100, for every table and every row; a financial company always gets the
    neutral cash-flow score 50. *)
Theorem v2_scores_on_scale (file : DataFrame) (idx : nat) (r : row) :
  let table := normalize_frame (convert_numeric file) in
  0 <= quality_score_v2 table idx r <= 100 /\
  0 <= growth_score_v2 table idx <= 100 /\
  0 <= valuation_score_v2 table idx <= 100 /\
  0 <= cashflow_score_v2 table idx r <= 100 /\
  0 <= final_score_v2 table idx r <= 100 /\
  (is_financials FS FN r = true -> cashflow_score_v2 table idx r = 50.0).
Proof.
  intros table.
  assert (Hnz : forall col, on_scale (_nz table col idx)) by (intros col; apply nz_on_scale).
  clearbody table.
  assert (Hq : 0 <= quality_score_v2 table idx r <= 100).
  { unfold quality_score_v2. destruct (is_financials FS FN r);
      apply avg_present_on_scale; repeat constructor; apply Hnz. }
  assert (Hg : 0 <= growth_score_v2 table idx <= 100).
  { unfold growth_score_v2. apply avg_present_on_scale.
    repeat constructor; apply py_or_on_scale; apply Hnz. }
  assert (Hv : 0 <= valuation_score_v2 table idx <= 100).
  { unfold valuation_score_v2. apply avg_present_on_scale. repeat constructor; apply Hnz. }
  assert (Hc : 0 <= cashflow_score_v2 table idx r <= 100).
  { unfold cashflow_score_v2. destruct (is_financials FS FN r); [split; closed_order|].
    cbv zeta.
    pose proof (Hnz "fcf"%string) as H0. pose proof (Hnz "fcf_3yr"%string) as H3.
    pose proof (Hnz "fcf_5yr"%string) as H5.
    destruct (_nz table "fcf_3yr" idx) as [fcf3|], (_nz table "fcf_5yr" idx) as [fcf5|],
      (_nz table "fcf" idx) as [c|]; cbn [on_scale] in *;
      first [ exact H0 | split; closed_order | idtac ].
    all: match goal with |- 0 <= py_max 0.0 (py_min 100.0 ?x) <= 100 =>
           pose proof (clamp_between 0.0 100.0 x ltac:(closed_order)) end; lra. }
  split; [exact Hq|]. split; [exact Hg|]. split; [exact Hv|]. split; [exact Hc|].
  split.
  - unfold final_score_v2. cbv zeta. destruct (is_financials FS FN r); lra.
  - intros Hfin. unfold cashflow_score_v2. rewrite Hfin. reflexivity.
Qed.

(** The normalized score the table holds for a row of the file. *)
Lemma nz_of_row (file : DataFrame) (col : string) (i : nat) (r : row) :
  records file !! i = Some r -> col ∈ numeric_cols -> col ∈ columns file ->
  _nz (normalize_frame (convert_numeric file)) col i
  = Some (normalize_score (Some (default (fill_value (column file col)) (r !! col)))
            (series_min (fillna (column file col))) (series_max (fillna (column file col)))
            (is_inverse col)).
Proof.
  intros Hi Hnum Hcol. pose proof (normalized_table file col) as H.
  generalize dependent (normalize_frame (convert_numeric file)). intros table H.
  unfold _nz. destruct (table !! col) as [scores|].
  - destruct H as (_ & _ & _ & ->). rewrite normalize_series_fillna.
    rewrite list_lookup_fmap, (column_lookup file col i r Hi). reflexivity.
  - exfalso. destruct H as [H | [H | H]]; [exact (H Hnum) | exact (H Hcol)|].
    rewrite H in Hi. inversion Hi.
Qed.

Lemma nz_absent (file : DataFrame) (col : string) (i : nat) :
  col ∉ columns file -> _nz (normalize_frame (convert_numeric file)) col i = None.
Proof.
  intros Hcol. pose proof (normalized_table file col) as H.
  generalize dependent (normalize_frame (convert_numeric file)). intros table H.
  unfold _nz. destruct (table !! col) as [scores|]; [|reflexivity].
  destruct H as (_ & H & _). contradiction.
Qed.

(** X25: The row with the smallest 5-year sales growth of the table has the
    normalized score 0, which [or] takes for a missing value: its growth score
    is computed from its 3-year sales growth instead, and when the table has
    no 3-year column its sales growth is left out of the average. *)
Theorem lowest_growth_falls_back (file : DataFrame) (i : nat) (r : row) :
  let table := normalize_frame (convert_numeric file) in
  let sales5 := column file "sales_growth_5yr" in
  records file !! i = Some r ->
  "sales_growth_5yr"%string ∈ columns file ->
  ~ series_min (fillna sales5) == series_max (fillna sales5) ->
  default (fill_value sales5) (r !! "sales_growth_5yr") == series_min (fillna sales5) ->
  (exists score, _nz table "sales_growth_5yr" i = Some score /\ score == 0) /\
  growth_score_v2 table i
  = _avg_present
      [ _nz table "sales_growth_3yr" i;
        py_or (_nz table "profit_growth_5yr" i) (_nz table "profit_growth_3yr" i);
        py_or (_nz table "eps_growth_5yr" i) (_nz table "eps_growth_3yr" i) ] /\
  ("sales_growth_3yr"%string ∉ columns file -> _nz table "sales_growth_3yr" i = None).
Proof.
  intros table sales5 Hi Hcol Hne Hmin.
  assert (Hnum : "sales_growth_5yr"%string ∈ numeric_cols).
  { unfold numeric_cols. repeat first [apply list_elem_of_here | apply list_elem_of_further]. }
  pose proof (nz_of_row file "sales_growth_5yr" i r Hi Hnum Hcol) as Hnz.
  assert (Habsent : "sales_growth_3yr"%string ∉ columns file ->
                    _nz table "sales_growth_3yr" i = None)
    by (intros Habs; apply nz_absent, Habs).
  change (normalize_frame (convert_numeric file)) with table in Hnz.
  clearbody table. fold sales5 in Hnz.
  change (is_inverse "sales_growth_5yr") with false in Hnz.
  set (v := default (fill_value sales5) (r !! "sales_growth_5yr")) in *.
  set (lo := series_min (fillna sales5)) in *.
  set (hi := series_max (fillna sales5)) in *.
  assert (Hin : (r !! "sales_growth_5yr") ∈ sales5).
  { apply list_elem_of_lookup. exists i. apply column_lookup, Hi. }
  destruct (filled_value_between sales5 _ Hin) as [Hlo Hhi].
  fold v lo hi in Hlo, Hhi.
  destruct (normalize_score_spec v lo hi false Hlo Hhi) as (_ & _ & Hscale).
  assert (Hzero : normalize_score (Some v) lo hi false == 0).
  { rewrite (Hscale Hne). unfold min_max_scale.
    assert (Hd : v - lo == 0) by lra. unfold Qdiv. rewrite Hd. ring. }
  split; [eexists; split; [exact Hnz | exact Hzero]|].
  split; [|exact Habsent].
  unfold growth_score_v2. rewrite Hnz. unfold py_or at 1.
  apply Qeq_bool_iff in Hzero. rewrite Hzero. reflexivity.
Qed.

(** ** Tiers and disqualification *)

Lemma tier2_of_tier (r : row) : (tier_of r <= 2)%nat -> tier2_criteria r.
Proof.
  intros Htier.
  destruct (tier_of_cases r) as [[H _] | [(_ & H & _) | [(_ & _ & _ & E) | (_ & _ & _ & E)]]];
    [|exact H|lia|lia].
  unfold tier1_criteria in H. unfold tier2_criteria.
  destruct H as (? & ? & ? & ? & ?). split; [|split; [|split; [|split]]]; lra.
Qed.

Ltac order_false :=
  match goal with
  | |- ?b = false => destruct b eqn:?; [order_facts; lra | reflexivity]
  end.

(** X26: A row that meets the Tier 1 or the Tier 2 criteria is never disqualified,
    under any mode and whatever the bank/NBFC mapping holds: only Tier 3 and
    Tier 4 rows can be removed from the ranking. *)
Theorem quality_tiers_never_disqualified (r : row) (fcf_dq_mode : string) :
  (tier_of r <= 2)%nat -> should_disqualify FS FN r fcf_dq_mode = (false, NoReason).
Proof.
  intros Htier. apply tier2_of_tier in Htier.
  assert (Hflag : (should_disqualify FS FN r fcf_dq_mode).1 = false).
  { rewrite verdict_equation.
    unfold tier2_criteria, get in Htier. destruct Htier as (Hroe & _ & Hpe & Hfcf & _).
    unfold always_disqualified, fcf_disqualified, has.
    destruct (r !! "roe") as [roe|]; cbn [default from_option id] in Hroe; [|lra].
    destruct (r !! "pe_ratio") as [pe|]; cbn [default from_option id] in Hpe; [|lra].
    destruct (r !! "fcf") as [fcf|]; cbn [default from_option id] in Hfcf; [|lra].
    assert (E1 : (pe >? 100) = false) by order_false.
    assert (E2 : (roe <? 0) = false) by order_false.
    assert (E3 : (fcf <? 0) = false) by order_false.
    assert (E4 : (fcf <? -500) = false) by order_false.
    assert (E5 : (fcf <? -100) = false) by order_false.
    assert (E6 : (fcf <? 10) = false) by order_false.
    rewrite E1, E2, E3, E4, E5, E6.
    destruct (r !! "return_1yr"), (r !! "debt_equity"), (r !! "market_cap");
      cbn [orb andb]; rewrite ?andb_false_r, ?andb_false_l; cbn [orb andb];
      rewrite ?andb_false_r; reflexivity. }
  unfold should_disqualify in *.
  destruct (first_match _); [discriminate Hflag | reflexivity].
Qed.

(** ** get_key_drivers (ranking.py:481-522)

    A driver is kept with the value its text prints; [top_n] is a count. *)

Inductive driver : Type :=
  | DriverROE (v : Q)
  | DriverROCE (v : Q)
  | DriverOPM (v : Q)
  | DriverProfitGrowth (v : Q)
  | DriverSalesGrowth (v : Q)
  | DriverEPSGrowth (v : Q)
  | DriverLowDE (v : Q)
  | DriverPositiveFCF
  | DriverAttractivePE (v : Q)
  | DriverLowPEG (v : Q)
  | DriverDivYield (v : Q).

(** [if k in row and p(row[k]): drivers.append(d(row[k]))]. *)
Definition append_if (r : row) (k : string) (p : Q -> bool) (d : Q -> driver)
    (drivers : list driver) : list driver :=
  match r !! k with
  | Some v => if p v then drivers ++ [d v] else drivers
  | None => drivers
  end.

Definition get_key_drivers (r : row) (top_n : nat) : list driver :=
  let drivers := [] in
  let drivers := append_if r "roe" (fun v => v >? 20) DriverROE drivers in
  let drivers := append_if r "roce" (fun v => v >? 20) DriverROCE drivers in
  let drivers := append_if r "opm" (fun v => v >? 15) DriverOPM drivers in
  let drivers := append_if r "profit_growth_3yr" (fun v => v >? 20) DriverProfitGrowth drivers in
  let drivers := append_if r "sales_growth_5yr" (fun v => v >? 15) DriverSalesGrowth drivers in
  let drivers := append_if r "eps_growth_3yr" (fun v => v >? 20) DriverEPSGrowth drivers in
  let drivers := append_if r "debt_equity" (fun v => v <? 0.5) DriverLowDE drivers in
  let drivers := append_if r "fcf" (fun v => v >? 0) (fun _ => DriverPositiveFCF) drivers in
  let drivers :=
    append_if r "pe_ratio" (fun v => (0 <? v) && (v <? 15)) DriverAttractivePE drivers in
  let drivers := append_if r "peg" (fun v => (0 <? v) && (v <? 1)) DriverLowPEG drivers in
  let drivers := append_if r "dividend_yield" (fun v => v >? 2) DriverDivYield drivers in
  take top_n drivers.

Lemma append_if_prefix (r : row) (k : string) (p : Q -> bool) (d : Q -> driver)
    (drivers : list driver) :
  exists more, append_if r k p d drivers = drivers ++ more /\ (length more <= 1)%nat.
Proof.
  unfold append_if. destruct (r !! k) as [v|]; [destruct (p v)|].
  - exists [d v]. split; [reflexivity | cbn; lia].
  - exists []. split; [rewrite app_nil_r; reflexivity | cbn; lia].
  - exists []. split; [rewrite app_nil_r; reflexivity | cbn; lia].
Qed.

Lemma append_if_fires (r : row) (k : string) (p : Q -> bool) (d : Q -> driver)
    (drivers : list driver) (v : Q) :
  r !! k = Some v -> p v = true -> append_if r k p d drivers = drivers ++ [d v].
Proof. intros Hk Hp. unfold append_if. rewrite Hk, Hp. reflexivity. Qed.

(** X27: A Tier 1 company is always shown with four or five key drivers, its
    ROE first and its ROCE second; and no row is shown with more drivers than
    [top_n]. *)
Theorem tier1_key_drivers (r : row) :
  tier_of r = 1%nat ->
  exists roe roce rest,
    r !! "roe" = Some roe /\ r !! "roce" = Some roce /\
    get_key_drivers r 5 = DriverROE roe :: DriverROCE roce :: rest /\
    (2 <= length rest <= 3)%nat /\
    (forall top_n, (length (get_key_drivers r top_n) <= top_n)%nat).
Proof.
  intros Htier.
  assert (H1 : tier1_criteria r).
  { destruct (tier_of_cases r) as [[H _] | [(_ & _ & E) | [(_ & _ & _ & E) | (_ & _ & _ & E)]]];
      [exact H | congruence..]. }
  unfold tier1_criteria, get in H1. destruct H1 as (Hroe & Hroce & _ & Hfcf & Hde).
  destruct (r !! "roe") as [roe|] eqn:Eroe; cbn [default from_option id] in Hroe; [|lra].
  destruct (r !! "roce") as [roce|] eqn:Eroce; cbn [default from_option id] in Hroce; [|lra].
  destruct (r !! "fcf") as [fcf|] eqn:Efcf; cbn [default from_option id] in Hfcf; [|lra].
  destruct (r !! "debt_equity") as [de|] eqn:Ede; cbn [default from_option id] in Hde; [|lra].
  exists roe, roce.
  unfold get_key_drivers. cbv zeta.
  rewrite (append_if_fires r "roe" _ DriverROE [] roe Eroe) by (apply Qgtb_of_gt; lra).
  rewrite (append_if_fires r "roce" _ DriverROCE _ roce Eroce) by (apply Qgtb_of_gt; lra).
  cbn [app].
  set (d2 := [DriverROE roe; DriverROCE roce]).
  destruct (append_if_prefix r "opm" (fun v => v >? 15) DriverOPM d2) as (m1 & -> & L1).
  destruct (append_if_prefix r "profit_growth_3yr" (fun v => v >? 20) DriverProfitGrowth
              (d2 ++ m1)) as (m2 & -> & L2).
  destruct (append_if_prefix r "sales_growth_5yr" (fun v => v >? 15) DriverSalesGrowth
              ((d2 ++ m1) ++ m2)) as (m3 & -> & L3).
  destruct (append_if_prefix r "eps_growth_3yr" (fun v => v >? 20) DriverEPSGrowth
              (((d2 ++ m1) ++ m2) ++ m3)) as (m4 & -> & L4).
  rewrite (append_if_fires r "debt_equity" _ DriverLowDE _ de Ede) by (apply Qltb_of_lt; lra).
  rewrite (append_if_fires r "fcf" _ (fun _ => DriverPositiveFCF) _ fcf Efcf)
    by (apply Qgtb_of_gt; lra).
  set (d8 := (((((d2 ++ m1) ++ m2) ++ m3) ++ m4) ++ [DriverLowDE de]) ++ [DriverPositiveFCF]).
  destruct (append_if_prefix r "pe_ratio" (fun v => (0 <? v) && (v <? 15)) DriverAttractivePE
              d8) as (m5 & -> & L5).
  destruct (append_if_prefix r "peg" (fun v => (0 <? v) && (v <? 1)) DriverLowPEG
              (d8 ++ m5)) as (m6 & -> & L6).
  destruct (append_if_prefix r "dividend_yield" (fun v => v >? 2) DriverDivYield
              ((d8 ++ m5) ++ m6)) as (m7 & -> & L7).
  subst d8 d2. rewrite <- !app_assoc. cbn [app take].
  eexists. split; [reflexivity|]. split; [reflexivity|]. split; [reflexivity|].
  split; [|intros top_n; rewrite length_take; lia].
  rewrite length_take, !length_app. cbn [length]. lia.
Qed.

End Further.

(** * The further properties on concrete tables *)

Lemma penalties_labelled_and_bounded_witness :
  calculate_risk_penalties ∅ ∅ troubled "financials_only_off" !! "high_debt" = Some 0.20 /\
  (exists label, assoc "high_debt" warning_map = Some label /\
                 warning_label "high_debt" = label) /\
  0 < 0.20 <= 0.5.
Proof.
  assert (H : calculate_risk_penalties ∅ ∅ troubled "financials_only_off" !! "high_debt"
              = Some 0.20) by (vm_compute; reflexivity).
  split; [exact H|].
  exact (penalties_labelled_and_bounded ∅ ∅ troubled "financials_only_off" "high_debt" 0.20 H).
Defined.

(** A company with a low ROE and shrinking profits. *)
Definition shrinking : row :=
  company_row "Acme Steel" {[ "roe" := 5; "fcf" := 50; "profit_growth_3yr" := -10 ]}.

Lemma low_roe_shrinking_hits_cap_witness :
  0.7 <= sum_values (calculate_risk_penalties ∅ ∅ shrinking "financials_only_off") /\
  1 - py_min (sum_values (calculate_risk_penalties ∅ ∅ shrinking "financials_only_off")) 0.6
  == 0.4.
Proof.
  apply (low_roe_shrinking_hits_cap ∅ ∅ shrinking "financials_only_off" 5 50 (-10));
    reflexivity.
Defined.

Lemma fcf_reasons_follow_mode_witness :
  fcf_based (should_disqualify ∅ ∅ heavy_debtor "global_on").2 = true /\
  ("global_on" = "global_on" \/
   ("global_on" = "financials_only_off" /\ is_financials ∅ ∅ heavy_debtor = false))%string.
Proof.
  assert (H : fcf_based (should_disqualify ∅ ∅ heavy_debtor "global_on").2 = true)
    by (vm_compute; reflexivity).
  split; [exact H|].
  exact (fcf_reasons_follow_mode ∅ ∅ heavy_debtor "global_on" H).
Defined.






Lemma fillna_keeps_extremes_witness :
  series_min sample_column <= fill_value sample_column <= series_max sample_column /\
  series_min (fillna sample_column) == series_min sample_column /\
  series_max (fillna sample_column) == series_max sample_column /\
  (forall v inverse,
     normalize_score (Some v) (series_min (fillna sample_column))
       (series_max (fillna sample_column)) inverse
     == normalize_score (Some v) (series_min sample_column) (series_max sample_column) inverse).
Proof.
  apply (fillna_keeps_extremes sample_column). discriminate.
Defined.

Lemma both_ends_of_the_scale_witness :
  Exists (fun score => score == 0) (normalize_series (fillna sample_column) false) /\
  Exists (fun score => score == 100) (normalize_series (fillna sample_column) false) /\
  (exists cell, cell ∈ sample_column /\
     default (fill_value sample_column) cell = series_max (fillna sample_column) /\
     normalize_score (Some (series_max (fillna sample_column)))
       (series_min (fillna sample_column)) (series_max (fillna sample_column)) false
     == 100).
Proof.
  apply (both_ends_of_the_scale sample_column false).
  intros H. vm_compute in H. discriminate H.
Defined.

Lemma convert_numeric_cells_witness :
  exists r',
    records (convert_numeric two_traders) !! 0%nat = Some r' /\
    name r' = "Alpha Traders"%string /\ symbol r' = "Alpha Traders"%string /\
    r' !! "roe" = Some 20.
Proof.
  destruct (convert_numeric_cells two_traders 0
              (company_row "Alpha Traders" {[ "roe" := 20; "fcf" := 100 ]}) eq_refl)
    as (r' & Hrow & Hname & Hsymbol & Hkept & _).
  exists r'. split; [exact Hrow|]. split; [exact Hname|]. split; [exact Hsymbol|].
  apply Hkept. reflexivity.
Defined.

Lemma banking_sector_is_financial_witness :
  get_sector_from_name (name lender) = "Banking"%string /\
  is_financials ∅ ∅ lender = true /\
  fcf_dq_applies (is_financials ∅ ∅ lender) "financials_only_off" = false /\
  calculate_risk_penalties ∅ ∅ lender "global_on" !! "negative_fcf" = Some 0.10.
Proof.
  assert (H : get_sector_from_name (name lender) = "Banking"%string)
    by (vm_compute; reflexivity).
  destruct (banking_sector_is_financial ∅ ∅ lender H) as (Hfin & Hgate & Hpenalty).
  split; [exact H|]. split; [exact Hfin|]. split.
  - apply Hgate. discriminate.
  - apply Hpenalty. reflexivity.
Defined.

(** A table with a 5-year sales growth column and no 3-year one. *)
Definition slow_grower : row :=
  company_row "Slow Grower" {[ "sales_growth_5yr" := 2; "roe" := 10 ]}.

Definition growers : DataFrame :=
  {| columns := ["sales_growth_5yr"; "roe"];
     records := [ slow_grower;
                  company_row "Fast Grower" {[ "sales_growth_5yr" := 30; "roe" := 20 ]} ] |}.

Example growers_growth_scores :
  growth_score_v2 (normalize_frame (convert_numeric growers)) 0 = 50.0 /\
  growth_score_v2 (normalize_frame (convert_numeric growers)) 1 = 100.
Proof. split; vm_compute; reflexivity. Qed.

Lemma lowest_growth_falls_back_witness :
  (exists score,
     _nz (normalize_frame (convert_numeric growers)) "sales_growth_5yr" 0 = Some score /\
     score == 0) /\
  _nz (normalize_frame (convert_numeric growers)) "sales_growth_3yr" 0 = None.
Proof.
  destruct (lowest_growth_falls_back growers 0 slow_grower) as (Hzero & _ & Habsent).
  - reflexivity.
  - apply list_elem_of_here.
  - intros H. vm_compute in H. discriminate H.
  - vm_compute. reflexivity.
  - split; [exact Hzero|]. apply Habsent.
    intros H. vm_compute in H. 
    repeat (apply elem_of_cons in H as [H | H]; [discriminate H|]). inversion H.
Defined.

(** A company that meets the Tier 1 criteria. *)
Definition blue_chip : row :=
  company_row "Blue Chip Ltd"
    {[ "roe" := 25; "roce" := 28; "pe_ratio" := 20; "fcf" := 600; "debt_equity" := 0.3 ]}.

Lemma quality_tiers_never_disqualified_witness :
  (tier_of blue_chip <= 2)%nat /\
  should_disqualify ∅ ∅ blue_chip "global_on" = (false, NoReason).
Proof.
  assert (H : (tier_of blue_chip <= 2)%nat) by (vm_compute; lia).
  split; [exact H|].
  exact (quality_tiers_never_disqualified ∅ ∅ blue_chip "global_on" H).
Defined.

Lemma tier1_key_drivers_witness :
  exists roe roce rest,
    blue_chip !! "roe" = Some roe /\ blue_chip !! "roce" = Some roce /\
    get_key_drivers blue_chip 5 = DriverROE roe :: DriverROCE roce :: rest /\
    (2 <= length rest <= 3)%nat.
Proof.
  destruct (tier1_key_drivers blue_chip) as (roe & roce & rest & H1 & H2 & H3 & H4 & _).
  - vm_compute. reflexivity.
  - exists roe, roce, rest. split; [exact H1|]. split; [exact H2|].
    split; [exact H3 | exact H4].
Defined.
